(** * The purchase-order-line wizard of [generic_pol_creator.py]

    A shallow embedding of the pure parts of the wizard: the field
    validators, the category selection, the template merge
    ([customize_template]) and the file name ([generate_filename]),
    with the properties the specification states about them.

    Python values are rendered as follows.
    - [str] is [string]; one [ascii] is one code point in U+0000..U+00FF,
      and the character classes below are Python's for that range.
    - [float] is [PyFloat.pyfloat], a binary64 value held exactly;
      [float(s)] and [f"{x:.2f}"] round as CPython does.
    - a JSON document is [json]; a [dict] is a [gmap string json].
    - an exception is a [Raise] in the [result] monad.
    - the prompts are not run: what the user selected and answered, and
      the clock ([datetime.now()]), are arguments. *)

From Stdlib Require Import ZArith NArith Ascii String List Lia DecimalString.
From stdpp Require Import gmap strings.

Local Set Warnings "-register-all".
Local Open Scope Z_scope.

(** ** Python strings *)

Module PyStr.

Definition code (c : ascii) : N := N_of_ascii c.

Definition between (lo hi : N) (c : ascii) : bool :=
  ((lo <=? code c) && (code c <=? hi))%N.

(** [str.isspace] on one character, which is also [\s] of [re]. *)
Definition isspace (c : ascii) : bool :=
  between 9 13 c || between 28 32 c || between 133 133 c || between 160 160 c.

Definition isdigit_ascii (c : ascii) : bool := between 48 57 c.

(** [str.isalnum] on one character. *)
Definition isalnum (c : ascii) : bool :=
  between 48 57 c || between 65 90 c || between 97 122 c
  || between 170 170 c || between 178 179 c || between 181 181 c
  || between 185 186 c || between 188 190 c || between 192 214 c
  || between 216 246 c || between 248 255 c.

(** [\w] of [re] on a [str] pattern. *)
Definition isword (c : ascii) : bool := isalnum c || between 95 95 c.

Definition is_hyphen (c : ascii) : bool := between 45 45 c.

(** Truth value of a string: [if s:]. *)
Definition nonempty (s : string) : bool :=
  match s with EmptyString => false | String _ _ => true end.

Fixpoint lstrip (s : string) : string :=
  match s with
  | EmptyString => EmptyString
  | String c r => if isspace c then lstrip r else s
  end.

Fixpoint rstrip (s : string) : string :=
  match s with
  | EmptyString => EmptyString
  | String c r =>
      match rstrip r with
      | EmptyString => if isspace c then EmptyString else String c EmptyString
      | r' => String c r'
      end
  end.

(** [s.strip()] *)
Definition strip (s : string) : string := rstrip (lstrip s).

(** [''.join(c for c in s if keep(c))], and [re.sub('[^...]', '', s)]
    for a negated character class. *)
Fixpoint keep_chars (keep : ascii -> bool) (s : string) : string :=
  match s with
  | EmptyString => EmptyString
  | String c r =>
      if keep c then String c (keep_chars keep r) else keep_chars keep r
  end.

(** [re.sub(r'\s+', repl, s)]: every maximal run of white space becomes
    one copy of [repl]. *)
Fixpoint collapse_spaces (repl : string) (in_run : bool) (s : string) : string :=
  match s with
  | EmptyString => EmptyString
  | String c r =>
      if isspace c
      then (if in_run then collapse_spaces repl true r
            else repl +:+ collapse_spaces repl true r)
      else String c (collapse_spaces repl false r)
  end.

(** [s[:n]] *)
Fixpoint take (n : nat) (s : string) : string :=
  match n, s with
  | O, _ => EmptyString
  | _, EmptyString => EmptyString
  | S n', String c r => String c (take n' r)
  end.

(** [sep.join(l)] *)
Fixpoint join (sep : string) (l : list string) : string :=
  match l with
  | [] => EmptyString
  | [x] => x
  | x :: r => x +:+ sep +:+ join sep r
  end.

Fixpoint forallb (p : ascii -> bool) (s : string) : bool :=
  match s with
  | EmptyString => true
  | String c r => p c && forallb p r
  end.

Fixpoint existsb (p : ascii -> bool) (s : string) : bool :=
  match s with
  | EmptyString => false
  | String c r => p c || existsb p r
  end.

End PyStr.

(** ** Validators *)

(** A validator returns [True] or the message shown to the user. *)
Inductive verdict :=
| Accept
| Reject (msg : string).

Definition len_in_10_13 (s : string) : bool :=
  (String.length s =? 10)%nat || (String.length s =? 13)%nat.

Definition validate_isbn (text : string) : verdict :=
  if negb (PyStr.nonempty (PyStr.strip text)) then Accept
  else
    let clean_isbn := PyStr.keep_chars PyStr.isalnum text in
    if negb (len_in_10_13 clean_isbn)
    then Reject "ISBN should be 10 or 13 digits"
    else Accept.

Definition str_in (x : string) (l : list string) : bool :=
  bool_decide (x ∈ l).

Definition validate_receiving_categories (selected : list string) : verdict :=
  match selected with
  | [] => Reject "Please select at least one category"
  | _ =>
      if str_in "None" selected && (1 <? length selected)%nat
      then Reject "Cannot select 'None' with other categories"
      else Accept
  end.


(** ** Python floats

    [float(s)] and the format [f"{x:.2f}"], computed exactly: a finite
    binary64 value is [m * 2^e] with a sign flag, and both conversions
    round to nearest, ties to even, as CPython's do. *)

Module PyFloat.

Inductive pyfloat :=
| Finite (neg : bool) (m e : Z)
| Inf (neg : bool)
| Nan.

(** Nearest integer to [n / d], ties to even ([0 <= n], [0 < d]). *)
Definition round_half_even (n d : Z) : Z :=
  let q := n / d in
  match 2 * (n mod d) ?= d with
  | Lt => q
  | Gt => q + 1
  | Eq => if Z.even q then q else q + 1
  end.

(** [floor (log2 (n / d))] for [0 < n], [0 < d]. *)
Definition floor_log2_ratio (n d : Z) : Z :=
  let l := Z.log2 n - Z.log2 d in
  let below := if 0 <=? l then d * 2 ^ l <=? n else d <=? n * 2 ^ (- l) in
  if below then l else l - 1.

(** The binary64 value nearest to [n / d]: 53 significant bits, least
    exponent [-1074], overflow to infinity from [2^1024] on. *)
Definition of_ratio (neg : bool) (n d : Z) : pyfloat :=
  if n =? 0 then Finite neg 0 0
  else
    let e := Z.max (floor_log2_ratio n d - 52) (-1074) in
    let m := if 0 <=? e then round_half_even n (d * 2 ^ e)
             else round_half_even (n * 2 ^ (- e)) d in
    if (0 <? m) && (1024 <=? Z.log2 m + e) then Inf neg else Finite neg m e.

(** *** Reading a numeral *)

Definition digit_value (c : ascii) : Z := Z.of_N (PyStr.code c) - 48.

(** The longest prefix of decimal digits, and what follows it. *)
Fixpoint span_digits (s : string) : string * string :=
  match s with
  | EmptyString => (EmptyString, EmptyString)
  | String c r =>
      if PyStr.isdigit_ascii c
      then let '(ds, rest) := span_digits r in (String c ds, rest)
      else (EmptyString, s)
  end.

Fixpoint digits_value (acc : Z) (ds : string) : Z :=
  match ds with
  | EmptyString => acc
  | String c r => digits_value (10 * acc + digit_value c) r
  end.

Fixpoint drop_zeros (ds : string) : string :=
  match ds with
  | String c r => if PyStr.between 48 48 c then drop_zeros r else ds
  | EmptyString => EmptyString
  end.

(** An optional sign. *)
Definition read_sign (s : string) : bool * string :=
  match s with
  | String "-" r => (true, r)
  | String "+" r => (false, r)
  | _ => (false, s)
  end.

(** [Py_TOLOWER] *)
Definition tolower (c : ascii) : ascii :=
  if PyStr.between 65 90 c then ascii_of_N (PyStr.code c + 32) else c.

Fixpoint lower (s : string) : string :=
  match s with
  | EmptyString => EmptyString
  | String c r => String (tolower c) (lower r)
  end.

(** White space of the C locale, [Py_ISSPACE]. *)
Definition isspace_c (c : ascii) : bool :=
  PyStr.between 9 13 c || PyStr.between 32 32 c.

Fixpoint lstrip_c (s : string) : string :=
  match s with
  | EmptyString => EmptyString
  | String c r => if isspace_c c then lstrip_c r else s
  end.

Fixpoint rstrip_c (s : string) : string :=
  match s with
  | EmptyString => EmptyString
  | String c r =>
      match rstrip_c r with
      | EmptyString => if isspace_c c then EmptyString else String c EmptyString
      | r' => String c r'
      end
  end.

(** Before parsing, [float] maps a character outside ASCII to a space
    when it is white space and to ['?'] otherwise (no character of
    U+0080..U+00FF is a decimal digit). *)
Definition to_ascii (c : ascii) : ascii :=
  if (PyStr.code c <? 127)%N then c
  else if PyStr.isspace c then " "%char else "?"%char.

Fixpoint transform (s : string) : string :=
  match s with
  | EmptyString => EmptyString
  | String c r => String (to_ascii c) (transform r)
  end.

(** Underscores are dropped; each must stand between two digits. *)
Fixpoint drop_underscores (prev : ascii) (s : string) : option string :=
  match s with
  | EmptyString => if PyStr.between 95 95 prev then None else Some EmptyString
  | String c r =>
      if PyStr.between 95 95 c
      then (if PyStr.isdigit_ascii prev then drop_underscores c r else None)
      else if PyStr.between 95 95 prev && negb (PyStr.isdigit_ascii c) then None
      else String c <$> drop_underscores c r
  end.

(** CPython refuses a numeral of more than this many digits. *)
Definition MAX_DIGITS : N := 1000000000.

Definition len (s : string) : N := N.of_nat (String.length s).

(** An exponent part: [e] or [E], an optional sign, one digit or more,
    then the end of the string. *)
Definition read_exponent (s : string) : option Z :=
  match s with
  | EmptyString => Some 0
  | String c r =>
      if PyStr.between 101 101 c || PyStr.between 69 69 c
      then
        let '(eneg, r1) := read_sign r in
        match span_digits r1 with
        | (String d ds, EmptyString) =>
            let v := digits_value 0 (String d ds) in
            Some (if eneg then - v else v)
        | _ => None
        end
      else None
  end.

(** A decimal numeral that fills the whole string. *)
Definition read_decimal (s : string) : option pyfloat :=
  let '(neg, r0) := read_sign s in
  let '(ip, r1) := span_digits r0 in
  let '(fp, r2) :=
    match r1 with
    | String "." r => span_digits r
    | _ => (EmptyString, r1)
    end in
  let ndigits :=
    match drop_zeros ip with
    | EmptyString => len (drop_zeros fp)
    | ip' => (len ip' + len fp)%N
    end in
  if (len ip + len fp =? 0)%N then None
  else if (MAX_DIGITS <? ndigits)%N || (MAX_DIGITS <? len fp)%N then None
  else
    match read_exponent r2 with
    | None => None
    | Some ex =>
        let mant := digits_value 0 (ip +:+ fp) in
        let e10 := ex - Z.of_N (len fp) in
        Some (if 0 <=? e10 then of_ratio neg (mant * 10 ^ e10) 1
              else of_ratio neg mant (10 ^ (- e10)))
    end.

(** [inf], [infinity] or [nan], with an optional sign, in any case. *)
Definition read_inf_nan (s : string) : option pyfloat :=
  let '(neg, r) := read_sign s in
  let w := lower r in
  if bool_decide (w = "inf") || bool_decide (w = "infinity") then Some (Inf neg)
  else if bool_decide (w = "nan") then Some Nan
  else None.

(** [float(s)]; [None] is the [ValueError]. *)
Definition float_of_str (s : string) : option pyfloat :=
  match drop_underscores "000"%char (rstrip_c (lstrip_c (transform s))) with
  | None => None
  | Some t =>
      match read_decimal t with
      | Some x => Some x
      | None => read_inf_nan t
      end
  end.

(** *** Writing with two decimals *)

Definition dec (z : Z) : string :=
  NilZero.string_of_uint (N.to_uint (Z.to_N z)).

Definition digit_char (z : Z) : ascii := ascii_of_N (Z.to_N (48 + z)).

(** The number of hundredths nearest to [m * 2^e]. *)
Definition hundredths (m e : Z) : Z :=
  if 0 <=? e then m * 2 ^ e * 100
  else round_half_even (m * 100) (2 ^ (- e)).

Definition sign_str (neg : bool) : string := if neg then "-" else "".

(** [q] hundredths written with two decimals. *)
Definition fixed2 (q : Z) : string :=
  dec (q / 100) +:+ "."
    +:+ String (digit_char (q mod 100 / 10))
          (String (digit_char (q mod 10)) EmptyString).

(** [f"{x:.2f}"] *)
Definition format_2f (x : pyfloat) : string :=
  match x with
  | Finite neg m e => sign_str neg +:+ fixed2 (hundredths m e)
  | Inf neg => sign_str neg +:+ "inf"
  | Nan => "nan"
  end.

(** Truth value of a float: [if x:]. *)
Definition nonzero (x : pyfloat) : bool :=
  match x with Finite _ m _ => negb (m =? 0) | _ => true end.

(** [x > 0] *)
Definition positive (x : pyfloat) : bool :=
  match x with
  | Finite neg m _ => negb neg && (0 <? m)
  | Inf neg => negb neg
  | Nan => false
  end.

End PyFloat.

Definition validate_price (text : string) : verdict :=
  if negb (PyStr.nonempty (PyStr.strip text)) then Reject "Price is required"
  else
    match PyFloat.float_of_str (PyStr.strip text) with
    | Some price =>
        if PyFloat.positive price then Accept
        else Reject "Price must be greater than 0"
    | None => Reject "Please enter a valid price (e.g., 25.99)"
    end.

(** ** JSON documents and exceptions *)

Inductive json :=
| JNull
| JBool (b : bool)
| JInt (n : Z)
| JFloat (x : PyFloat.pyfloat)
| JStr (s : string)
| JList (l : list json)
| JObj (m : gmap string json).

(** Truth value of a document: [if v:]. *)
Definition truthy (v : json) : bool :=
  match v with
  | JNull => false
  | JBool b => b
  | JInt n => negb (n =? 0)
  | JFloat x => PyFloat.nonzero x
  | JStr s => PyStr.nonempty s
  | JList l => match l with [] => false | _ => true end
  | JObj m => negb (bool_decide (m = ∅))
  end.

Inductive pykey :=
| KStr (s : string)
| KInt (i : Z).

Inductive exn :=
| KeyError (k : pykey)
| IndexError
| TypeError
| AttributeError
| OverflowError.

Inductive result (A : Type) :=
| Ok (a : A)
| Raise (e : exn).
Arguments Ok {A} a.
Arguments Raise {A} e.

#[global] Instance result_ret : MRet result := λ A, Ok.
#[global] Instance result_bind : MBind result :=
  λ A B f r, match r with Ok a => f a | Raise e => Raise e end.

Definition is_ok {A} (r : result A) : bool :=
  match r with Ok _ => true | Raise _ => false end.

(** [d[k]] on a dict *)
Definition getitem (d : gmap string json) (k : string) : result json :=
  match d !! k with
  | Some v => Ok v
  | None => Raise (KeyError (KStr k))
  end.

(** [c[k] = v] for a string [k]; the result is [c] after the assignment.
    Only a dict takes it. *)
Definition setitem (c : json) (k : string) (v : json) : result json :=
  match c with
  | JObj m => Ok (JObj (<[k := v]> m))
  | _ => Raise TypeError
  end.

(** [d[k1][k2] = v] on a dict [d]; the result is [d] after it. *)
Definition setitem2 (d : gmap string json) (k1 k2 : string) (v : json)
  : result (gmap string json) :=
  c ← getitem d k1;
  c' ← setitem c k2 v;
  Ok (<[k1 := c']> d).

(** [c[0][k] = v]; the result is [c] after the assignment. *)
Definition setitem_first (c : json) (k : string) (v : json) : result json :=
  match c with
  | JList (x :: rest) => x' ← setitem x k v; Ok (JList (x' :: rest))
  | JList [] => Raise IndexError
  | JObj _ => Raise (KeyError (KInt 0))
  | JStr (String _ _) => Raise TypeError
  | JStr EmptyString => Raise IndexError
  | JNull | JBool _ | JInt _ | JFloat _ => Raise TypeError
  end.

(** [c.pop(k, None)], as a statement. A list refuses the second argument,
    a scalar has no [pop]. *)
Definition pop_default (c : json) (k : string) : result (gmap string json) :=
  match c with
  | JObj m => Ok (delete k m)
  | JList _ => Raise TypeError
  | _ => Raise AttributeError
  end.

(** [json.loads(json.dumps(t))]: a copy that shares nothing with [t]. In
    a model without sharing it is [t]. *)
Definition deep_copy (t : json) : json := t.

(** ** The clock *)

Module Clock.

Record datetime := {
  year : Z; month : Z; day : Z;
  hour : Z; minute : Z; second : Z
}.

Definition is_leap (y : Z) : bool :=
  (y mod 4 =? 0) && (negb (y mod 100 =? 0) || (y mod 400 =? 0)).

Definition days_in_month (y m : Z) : Z :=
  if m =? 2 then (if is_leap y then 29 else 28)
  else if (m =? 4) || (m =? 6) || (m =? 9) || (m =? 11) then 30
  else 31.

Definition next_day (t : datetime) : datetime :=
  if day t <? days_in_month (year t) (month t)
  then {| year := year t; month := month t; day := day t + 1;
          hour := hour t; minute := minute t; second := second t |}
  else if month t <? 12
  then {| year := year t; month := month t + 1; day := 1;
          hour := hour t; minute := minute t; second := second t |}
  else {| year := year t + 1; month := 1; day := 1;
          hour := hour t; minute := minute t; second := second t |}.

(** [t + timedelta(days=n)]; past the year 9999 it is an [OverflowError]. *)
Definition add_days (n : nat) (t : datetime) : result datetime :=
  let t' := Nat.iter n next_day t in
  if 9999 <? year t' then Raise OverflowError else Ok t'.

Definition pad2 (z : Z) : string :=
  String (PyFloat.digit_char (z / 10 mod 10))
    (String (PyFloat.digit_char (z mod 10)) EmptyString).

(** [t.strftime('%Y-%m-%d')]; [%Y] is the year as it is, without padding. *)
Definition strftime_date (t : datetime) : string :=
  PyFloat.dec (year t) +:+ "-" +:+ pad2 (month t) +:+ "-" +:+ pad2 (day t).

(** [t.strftime('%Y%m%d_%H%M%S')] *)
Definition strftime_stamp (t : datetime) : string :=
  PyFloat.dec (year t) +:+ pad2 (month t) +:+ pad2 (day t) +:+ "_"
    +:+ pad2 (hour t) +:+ pad2 (minute t) +:+ pad2 (second t).

End Clock.

(** ** The interview's data *)

Module UserInput.
(** The dict that [get_user_input] returns. [vendor_reference_number]
    and [oclc_number] are read with [.get], so the key may be missing
    ([None]); [get_user_input] itself always stores the former. *)
Record t := {
  vendor_code : string;
  vendor_account : string;
  title : string;
  author : string;
  price : string;
  vendor_reference_number : option string;
  isbn : string;
  publisher : string;
  publication_year : string;
  quantity : Z;
  reporting_code : string;
  oclc_number : option string
}.
End UserInput.

Module InterestedUser.
Record t := { user_id : string; notify : bool; hold : bool }.
End InterestedUser.

Module ConditionalData.
(** The dict of extra answers; a key is there when its category was
    selected. *)
Record t := {
  interested_user : option InterestedUser.t;
  additional_notes : option string;
  reserve_note : option string
}.
Definition empty : t :=
  {| interested_user := None; additional_notes := None; reserve_note := None |}.
End ConditionalData.

Module Answers.
(** What the user answers to the follow-up prompts, were they asked. A
    text prompt may come back as [None]. *)
Record t := {
  user_id : string;
  notify : bool;
  hold : bool;
  additional_notes : option string;
  reserve_note : option string
}.
End Answers.

(** [x or ''] *)
Definition or_empty (x : option string) : string :=
  match x with
  | Some s => s
  | None => EmptyString
  end.

(** The selection made in the checkbox ([None] when the prompt was
    abandoned) and the answers to the prompts that follow from it. *)
Definition get_receiving_note_categories
    (selected_categories : option (list string)) (answers : Answers.t)
  : string * ConditionalData.t :=
  match selected_categories with
  | None | Some [] => ("None", ConditionalData.empty)
  | Some sel =>
      if str_in "None" sel then ("None", ConditionalData.empty)
      else
        let category_string := PyStr.join " | " sel in
        (category_string,
         {| ConditionalData.interested_user :=
              if str_in "Interested User" sel
              then Some {| InterestedUser.user_id := Answers.user_id answers;
                           InterestedUser.notify := Answers.notify answers;
                           InterestedUser.hold := Answers.hold answers |}
              else None;
            ConditionalData.additional_notes :=
              if str_in "Note" sel
              then Some (or_empty (Answers.additional_notes answers))
              else None;
            ConditionalData.reserve_note :=
              if str_in "Reserve" sel
              then Some (or_empty (Answers.reserve_note answers))
              else None |})
  end.

(** ** The template merge *)

(** [{"sum": price, "currency": {"value": "USD"}}] *)
Definition amount_object (price : string) : json :=
  JObj {[ "sum" := JStr price;
          "currency" := JObj {[ "value" := JStr "USD" ]} ]}.

(** The price as the merge writes it: two decimals when [float] reads the
    string, the string itself when it raises [ValueError]. *)
Definition format_price (price : string) : string :=
  match PyFloat.float_of_str price with
  | Some price_float => PyFloat.format_2f price_float
  | None => price
  end.

Definition note_object (text : string) : json :=
  JObj {[ "note_text" := JStr text ]}.

(** The [notes] list built from the conditional data. *)
Definition build_notes (conditional_data : ConditionalData.t) : list json :=
  (match ConditionalData.additional_notes conditional_data with
   | Some s => if PyStr.nonempty s then [note_object s] else []
   | None => []
   end)
  ++
  (match ConditionalData.reserve_note conditional_data with
   | Some s => if PyStr.nonempty s then [note_object ("Reserve Note: " +:+ s)] else []
   | None => []
   end).

Definition interested_user_object (user_info : InterestedUser.t) : json :=
  JObj {[ "primary_id" := JStr (InterestedUser.user_id user_info);
          "notify_receiving_activation" := JBool (InterestedUser.notify user_info);
          "hold_item" := JBool (InterestedUser.hold user_info);
          "notify_renewal" := JBool false;
          "notify_cancel" := JBool false ]}.

(** [if s: d[k1][k2] = s] *)
Definition set_if_nonempty (d : gmap string json) (k1 k2 s : string)
  : result (gmap string json) :=
  if PyStr.nonempty s then setitem2 d k1 k2 (JStr s) else Ok d.

(** [if k in d and d[k]: d[k][0][field] = v] *)
Definition set_in_first (d : gmap string json) (k field : string) (v : json)
  : result (gmap string json) :=
  match d !! k with
  | Some c =>
      if truthy c
      then c' ← setitem_first c field v; Ok (<[k := c']> d)
      else Ok d
  | None => Ok d
  end.

(** The merge, section by section as the source lays it out. Each
    section takes the record under construction, [po_data], and gives it
    back. *)

(** A copy of the template, without its metadata. *)
Definition template_copy (template : json) : result (gmap string json) :=
  po_data ← pop_default (deep_copy template) "_description";
  Ok (delete "_template_version" po_data).

Definition vendor_information (po_data : gmap string json) (user_input : UserInput.t)
  : result (gmap string json) :=
  po_data ← setitem2 po_data "vendor" "value"
              (JStr (UserInput.vendor_code user_input));
  Ok (<["vendor_account" := JStr (UserInput.vendor_account user_input)]> po_data).

Definition bibliographic_metadata (po_data : gmap string json) (user_input : UserInput.t)
  : result (gmap string json) :=
  let po_data :=
    match po_data !! "resource_metadata" with
    | None => <["resource_metadata" := JObj ∅]> po_data
    | Some _ => po_data
    end in
  po_data ← setitem2 po_data "resource_metadata" "title"
              (JStr (UserInput.title user_input));
  po_data ← set_if_nonempty po_data "resource_metadata" "author"
              (UserInput.author user_input);
  po_data ← set_if_nonempty po_data "resource_metadata" "isbn"
              (UserInput.isbn user_input);
  po_data ← set_if_nonempty po_data "resource_metadata" "publisher"
              (UserInput.publisher user_input);
  po_data ← set_if_nonempty po_data "resource_metadata" "publication_year"
              (UserInput.publication_year user_input);
  match UserInput.oclc_number user_input with
  | Some oclc =>
      if PyStr.nonempty oclc
      then setitem2 po_data "resource_metadata" "system_control_number"
             (JList [JStr oclc])
      else Ok po_data
  | None => Ok po_data
  end.

Definition pricing (po_data : gmap string json) (user_input : UserInput.t)
  : result (gmap string json) :=
  let price := format_price (UserInput.price user_input) in
  let po_data := <["price" := amount_object price]> po_data in
  set_in_first po_data "fund_distribution" "amount" (amount_object price).

Definition order_details (po_data : gmap string json) (user_input : UserInput.t)
  : result (gmap string json) :=
  po_data ←
    match UserInput.vendor_reference_number user_input with
    | None => Raise (KeyError (KStr "vendor_reference_number"))
    | Some ref =>
        Ok (if PyStr.nonempty ref
            then <["vendor_reference_number" := JStr ref]> po_data
            else po_data)
    end;
  set_in_first po_data "location" "quantity" (JInt (UserInput.quantity user_input)).

Definition receiving_note (po_data : gmap string json) (receiving_categories : string)
  : gmap string json :=
  if bool_decide (receiving_categories ≠ "None")
  then <["receiving_note" := JStr receiving_categories]> po_data
  else <["receiving_note" := JStr ""]> po_data.

Definition conditional_data_handling
    (po_data : gmap string json) (conditional_data : ConditionalData.t)
  : gmap string json :=
  let notes := build_notes conditional_data in
  let po_data :=
    match notes with
    | [] => po_data
    | _ => <["note" := JList notes]> po_data
    end in
  match ConditionalData.interested_user conditional_data with
  | Some user_info =>
      <["interested_user" := JList [interested_user_object user_info]]> po_data
  | None => delete "interested_user" po_data
  end.

Definition system_fields
    (po_data : gmap string json) (user_input : UserInput.t) (now : Clock.datetime)
  : result (gmap string json) :=
  expected_date ← Clock.add_days 30 now;
  let po_data :=
    <["expected_receipt_date" := JStr (Clock.strftime_date expected_date)]> po_data in
  Ok (if PyStr.nonempty (UserInput.reporting_code user_input)
      then <["reporting_code" := JStr (UserInput.reporting_code user_input)]> po_data
      else po_data).

Definition customize_template
    (template : json) (user_input : UserInput.t) (receiving_categories : string)
    (conditional_data : ConditionalData.t) (now : Clock.datetime)
  : result (gmap string json) :=
  po_data ← template_copy template;
  po_data ← vendor_information po_data user_input;
  po_data ← bibliographic_metadata po_data user_input;
  po_data ← pricing po_data user_input;
  po_data ← order_details po_data user_input;
  let po_data := receiving_note po_data receiving_categories in
  let po_data := conditional_data_handling po_data conditional_data in
  system_fields po_data user_input now.

(** ** The file name *)

Definition keep_title (c : ascii) : bool :=
  PyStr.isword c || PyStr.isspace c || PyStr.is_hyphen c.

Definition keep_vendor_ref (c : ascii) : bool :=
  PyStr.isword c || PyStr.is_hyphen c.

Definition clean_title (title : string) : string :=
  let clean_title := PyStr.keep_chars keep_title title in
  let clean_title := PyStr.collapse_spaces "_" false (PyStr.strip clean_title) in
  PyStr.take 30 clean_title.

Definition clean_vendor_ref (user_input : UserInput.t) : string :=
  let vendor_ref :=
    match UserInput.vendor_reference_number user_input with
    | Some r => r
    | None => "noref"
    end in
  PyStr.take 15 (PyStr.keep_chars keep_vendor_ref vendor_ref).

Definition generate_filename (user_input : UserInput.t) (now : Clock.datetime)
  : string :=
  let timestamp := Clock.strftime_stamp now in
  "generic_" +:+ clean_title (UserInput.title user_input) +:+ "_"
    +:+ clean_vendor_ref user_input +:+ "_" +:+ timestamp +:+ ".json".

(** ** Python integers read from text

    [int(s)] for a [str] in base 10; [None] is the [ValueError]. *)

Module PyInt.

(** [int] refuses a numeral of more than this many digits (the default
    of [sys.get_int_max_str_digits()]). *)
Definition MAX_STR_DIGITS : N := 4300.

(** Digits, with single underscores between them: the value, the number
    of digits, and what follows. *)
Fixpoint scan_digits (prev : ascii) (acc : Z) (digits : N) (s : string)
  : option (Z * N * string) :=
  match s with
  | EmptyString =>
      if PyStr.between 95 95 prev then None else Some (acc, digits, EmptyString)
  | String c r =>
      if PyStr.isdigit_ascii c
      then scan_digits c (10 * acc + PyFloat.digit_value c) (digits + 1) r
      else if PyStr.between 95 95 c
      then (if PyStr.between 95 95 prev then None else scan_digits c acc digits r)
      else if PyStr.between 95 95 prev then None
      else Some (acc, digits, s)
  end.

Definition int_of_str (s : string) : option Z :=
  let '(neg, r) := PyFloat.read_sign (PyFloat.lstrip_c (PyFloat.transform s)) in
  match r with
  | String "_" _ => None
  | _ =>
      match scan_digits "000"%char 0 0 r with
      | None => None
      | Some (v, digits, rest) =>
          if (digits =? 0)%N then None
          else if (MAX_STR_DIGITS <? digits)%N then None
          else
            match PyFloat.lstrip_c rest with
            | EmptyString => Some (if neg then - v else v)
            | _ => None
            end
      end
  end.

End PyInt.

(** [str.isdigit] on one character. *)
Definition char_isdigit (c : ascii) : bool :=
  PyStr.between 48 57 c || PyStr.between 178 179 c || PyStr.between 185 185 c.

(** [s.isdigit()] *)
Definition str_isdigit (s : string) : bool :=
  PyStr.nonempty s && PyStr.forallb char_isdigit s.

Definition validate_year (text : string) : verdict :=
  match PyInt.int_of_str (PyStr.strip text) with
  | Some year =>
      if (1400 <=? year) && (year <=? 2030) then Accept
      else Reject "Year should be between 1400 and 2030"
  | None => Reject "Please enter a valid year"
  end.

Definition validate_user_id (text : string) : verdict :=
  if (String.length (PyStr.strip text) =? 9)%nat && str_isdigit (PyStr.strip text)
  then Accept
  else Reject "User ID must be exactly 9 digits".

(** ** The interview *)

Module Interview.

(** The answer to the quantity menu: one of its numbers, or "Other" and
    what the text prompt after it returned. *)
Inductive quantity_answer :=
| Menu (n : Z)
| Other (text : option string).

(** What the prompts of [get_user_input] return, in the order asked. A
    text prompt returns [None] when it is abandoned. [used_oclc_number]
    is what the lookup service reported, if it was asked at all. *)
Record t := {
  vendor_code : option string;
  vendor_account : option string;
  vendor_ref : option string;
  used_oclc_number : option string;
  title : option string;
  author : option string;
  isbn : option string;
  publisher : option string;
  publication_year : option string;
  price : option string;
  quantity : quantity_answer;
  reporting_code : option string
}.

End Interview.

(** The dict that [get_user_input] returns for these answers; [None] is
    the exception [int(quantity)] raises: a [ValueError] on a text that
    is no numeral, a [TypeError] on an abandoned prompt. *)
Definition get_user_input (a : Interview.t) : option UserInput.t :=
  quantity ←
    match Interview.quantity a with
    | Interview.Other text => text ≫= PyInt.int_of_str
    | Interview.Menu n => Some n
    end;
  Some {| UserInput.vendor_code := or_empty (Interview.vendor_code a);
          UserInput.vendor_account := or_empty (Interview.vendor_account a);
          UserInput.title := or_empty (Interview.title a);
          UserInput.author := or_empty (Interview.author a);
          UserInput.price := or_empty (Interview.price a);
          UserInput.vendor_reference_number :=
            Some (or_empty (Interview.vendor_ref a));
          UserInput.isbn := or_empty (Interview.isbn a);
          UserInput.publisher := or_empty (Interview.publisher a);
          UserInput.publication_year := or_empty (Interview.publication_year a);
          UserInput.quantity := quantity;
          UserInput.reporting_code := or_empty (Interview.reporting_code a);
          UserInput.oclc_number := Interview.used_oclc_number a |}.

(** The check of the quantity typed after "Other":
    [text.isdigit() and int(text) > 0]; [None] is the [ValueError] that
    [int] raises inside it. *)
Definition quantity_is_valid (text : string) : option bool :=
  if str_isdigit text
  then n ← PyInt.int_of_str text; Some (0 <? n)
  else Some false.

(** ** What the menu and the summary read *)

(** [c.get(k, dflt)]; only a dict has [get]. *)
Definition get_or (c : json) (k : string) (dflt : json) : result json :=
  match c with
  | JObj m => Ok (default dflt (m !! k))
  | _ => Raise AttributeError
  end.

(** [c[0]] *)
Definition getitem0 (c : json) : result json :=
  match c with
  | JList (x :: _) => Ok x
  | JList [] => Raise IndexError
  | JObj _ => Raise (KeyError (KInt 0))
  | JStr (String a _) => Ok (JStr (String a EmptyString))
  | JStr EmptyString => Raise IndexError
  | JNull | JBool _ | JInt _ | JFloat _ => Raise TypeError
  end.

Module MenuEntry.
(** What [select_template] reads of one template for its menu line. *)
Record t := { desc : json; material_type : json; vendor : json }.
End MenuEntry.

Definition select_template_entry (template : json) : result MenuEntry.t :=
  desc ← get_or template "_description" (JStr "No description");
  mt ← get_or template "material_type" (JObj ∅);
  material_type ← get_or mt "value" (JStr "Unknown");
  v ← get_or template "vendor" (JObj ∅);
  vendor ← get_or v "value" (JStr "Unknown");
  Ok {| MenuEntry.desc := desc;
        MenuEntry.material_type := material_type;
        MenuEntry.vendor := vendor |}.

Module Summary.
(** The core fields [display_summary] reads before it fills its table. *)
Record t := {
  title : json; author : json; price : json; vendor : json;
  vendor_account : json; material_type : json; vendor_ref : json;
  quantity : json; reporting_code : json; receiving_note : json
}.
End Summary.

Definition display_summary_fields (po_data : gmap string json) : result Summary.t :=
  rm ← Ok (default (JObj ∅) (po_data !! "resource_metadata"));
  title ← get_or rm "title" (JStr "N/A");
  author ← get_or rm "author" (JStr "Not specified");
  price ← get_or (default (JObj ∅) (po_data !! "price")) "sum" (JStr "N/A");
  vendor ← get_or (default (JObj ∅) (po_data !! "vendor")) "value" (JStr "N/A");
  let vendor_account := default (JStr "N/A") (po_data !! "vendor_account") in
  material_type ←
    get_or (default (JObj ∅) (po_data !! "material_type")) "value" (JStr "N/A");
  let vendor_ref :=
    default (JStr "Not specified") (po_data !! "vendor_reference_number") in
  first ← getitem0 (default (JList [JObj ∅]) (po_data !! "location"));
  quantity ← get_or first "quantity" (JStr "N/A");
  let reporting_code := default (JStr "N/A") (po_data !! "reporting_code") in
  let receiving_note := default (JStr "Not specified") (po_data !! "receiving_note") in
  Ok {| Summary.title := title; Summary.author := author;
        Summary.price := price; Summary.vendor := vendor;
        Summary.vendor_account := vendor_account;
        Summary.material_type := material_type;
        Summary.vendor_ref := vendor_ref; Summary.quantity := quantity;
        Summary.reporting_code := reporting_code;
        Summary.receiving_note := receiving_note |}.

(** ** Template files *)

Module PyPath.

(** The part of [s] after its last [sep], if [sep] occurs. *)
Fixpoint after_last (sep : ascii) (s : string) : option string :=
  match s with
  | EmptyString => None
  | String c r =>
      match after_last sep r with
      | Some t => Some t
      | None => if bool_decide (c = sep) then Some r else None
      end
  end.

(** The part of [s] before its last [sep], if [sep] occurs. *)
Fixpoint before_last (sep : ascii) (s : string) : option string :=
  match s with
  | EmptyString => None
  | String c r =>
      match before_last sep r with
      | Some t => Some (String c t)
      | None => if bool_decide (c = sep) then Some EmptyString else None
      end
  end.

(** [os.path.basename(p)] *)
Definition basename (p : string) : string :=
  default p (after_last "/" p).

Definition not_dot (c : ascii) : bool := negb (bool_decide (c = "."%char)).

(** [os.path.splitext(b)[0]] for a name [b] without a slash: the name up
    to its last dot, unless only dots come before that dot. *)
Definition splitext_root (b : string) : string :=
  match before_last "." b with
  | Some root => if PyStr.existsb not_dot root then root else b
  | None => b
  end.

(** [os.path.join(a, b)] *)
Definition join (a b : string) : string :=
  match b with
  | String "/" _ => b
  | _ =>
      match a with
      | EmptyString => b
      | _ =>
          match after_last "/" a with
          | Some EmptyString => a +:+ b
          | _ => a +:+ "/" +:+ b
          end
      end
  end.

(** [s.rstrip('/')] *)
Fixpoint rstrip_slash (s : string) : string :=
  match s with
  | EmptyString => EmptyString
  | String c r =>
      match rstrip_slash r with
      | EmptyString =>
          if bool_decide (c = "/"%char) then EmptyString else String c EmptyString
      | r' => String c r'
      end
  end.

(** [os.path.dirname(p)] *)
Definition dirname (p : string) : string :=
  match before_last "/" p with
  | None => EmptyString
  | Some h =>
      match rstrip_slash h with
      | EmptyString => h +:+ "/"
      | h' => h'
      end
  end.

End PyPath.

(** The key under which [load_templates] files a template. *)
Definition template_name (template_file : string) : string :=
  PyPath.splitext_root (PyPath.basename template_file).

(** One round of the loop of [load_templates]: a file and the document
    [json.load] returns for it, or [None] when opening or loading it
    raises. *)
Definition load_template_file (templates : gmap string json)
    (f : string * option json) : gmap string json :=
  match f.2 with
  | Some doc => <[template_name f.1 := doc]> templates
  | None => templates
  end.

(** [load_templates], given what it finds: the templates directory, and
    the files of the glob, in its order. *)
Definition load_templates
    (templates_dir : option string) (template_files : list (string * option json))
  : gmap string json :=
  match templates_dir with
  | None => ∅
  | Some EmptyString => ∅
  | Some _ => foldl load_template_file ∅ template_files
  end.

(** The places [find_templates_directory] looks in, in its order, for a
    script in [script_dir], the working directory [cwd] and the value of
    [TEMPLATES_DIR] ([''] when it is not set). *)
Definition possible_locations (script_dir cwd env : string) : list string :=
  [ PyPath.join script_dir "templates";
    PyPath.join cwd "templates";
    PyPath.join (PyPath.dirname script_dir) "templates";
    PyPath.join (PyPath.join (PyPath.join (PyPath.join (PyPath.join
      script_dir "..") "..") "src") "libraryacquisitions") "templates";
    env ].

(** [find_templates_directory]: the first place that is not [''] and
    exists. *)
Definition find_templates_directory
    (path_exists : string → bool) (script_dir cwd env : string)
  : option string :=
  List.find (λ location, PyStr.nonempty location && path_exists location)
    (possible_locations script_dir cwd env).

(** ** Dates as day numbers *)

Module Ordinal.

(** [date.toordinal()]: day 1 is 1 January of the year 1. *)
Definition days_before_year (y : Z) : Z :=
  (y - 1) * 365 + (y - 1) / 4 - (y - 1) / 100 + (y - 1) / 400.

Fixpoint days_before_month_nat (y : Z) (m : nat) : Z :=
  match m with
  | O => 0
  | S m' => days_before_month_nat y m' + Clock.days_in_month y (Z.of_nat m)
  end.

Definition days_before_month (y m : Z) : Z :=
  days_before_month_nat y (Z.to_nat (m - 1)).

Definition toordinal (t : Clock.datetime) : Z :=
  days_before_year (Clock.year t)
  + days_before_month (Clock.year t) (Clock.month t) + Clock.day t.

(** The last day there is: 31 December 9999. *)
Definition MAX_ORDINAL : Z := 3652059.

End Ordinal.

(** A date of the calendar. *)
Definition valid_date (t : Clock.datetime) : Prop :=
  1 <= Clock.year t <= 9999 ∧ 1 <= Clock.month t <= 12
  ∧ 1 <= Clock.day t <= Clock.days_in_month (Clock.year t) (Clock.month t).

(** A string of the form dddd-dd-dd. *)
Definition is_iso_date (s : string) : bool :=
  match s with
  | String y1 (String y2 (String y3 (String y4 (String h1 (String m1
      (String m2 (String h2 (String d1 (String d2 EmptyString))))))))) =>
      PyStr.forallb PyStr.isdigit_ascii
        (String y1 (String y2 (String y3 (String y4 (String m1 (String m2
          (String d1 (String d2 EmptyString))))))))
      && PyStr.is_hyphen h1 && PyStr.is_hyphen h2
  | _ => false
  end.

(** No character of U+001C..U+001F: these four are white space to
    [str.strip] but not to [float] and [int]. *)
Definition no_separators (s : string) : bool :=
  PyStr.forallb (λ c, negb (PyStr.between 28 31 c)) s.

(** The keys of the record that the merge writes or removes. *)
Definition merge_keys : list string :=
  [ "_description"; "_template_version"; "vendor"; "vendor_account";
    "resource_metadata"; "price"; "fund_distribution";
    "vendor_reference_number"; "location"; "receiving_note"; "note";
    "interested_user"; "expected_receipt_date"; "reporting_code" ].

(** ** Notions used in the further properties *)

(** A date of the calendar, in any year from 1 on. *)
Definition calendar_date (t : Clock.datetime) : Prop :=
  1 <= Clock.year t ∧ 1 <= Clock.month t <= 12
  ∧ 1 <= Clock.day t <= Clock.days_in_month (Clock.year t) (Clock.month t).

(** The same time of day. *)
Definition same_time (t t' : Clock.datetime) : Prop :=
  Clock.hour t' = Clock.hour t ∧ Clock.minute t' = Clock.minute t
  ∧ Clock.second t' = Clock.second t.

(** The exception of [d[k][0][field] = v] behind [if k in d and d[k]:],
    if it raises one: [o] is what [d] holds under [k]. *)
Definition first_item_error (o : option json) : option exn :=
  match o with
  | None => None
  | Some c =>
      if truthy c
      then match c with
           | JList (JObj _ :: _) => None
           | JObj _ => Some (KeyError (KInt 0))
           | JList [] => Some IndexError
           | _ => Some TypeError
           end
      else None
  end.

(** The exception the merge ends with, if any: the first of its
    statements that fails, in the order of the source. *)
Definition merge_error (template : json) (user_input : UserInput.t)
    (now : Clock.datetime) : option exn :=
  match template with
  | JObj m =>
      match m !! "vendor" with
      | None => Some (KeyError (KStr "vendor"))
      | Some (JObj _) =>
          match m !! "resource_metadata" with
          | None | Some (JObj _) =>
              match first_item_error (m !! "fund_distribution") with
              | Some e => Some e
              | None =>
                  match UserInput.vendor_reference_number user_input with
                  | None => Some (KeyError (KStr "vendor_reference_number"))
                  | Some _ =>
                      match first_item_error (m !! "location") with
                      | Some e => Some e
                      | None =>
                          match Clock.add_days 30 now with
                          | Ok _ => None
                          | Raise e => Some e
                          end
                      end
                  end
              end
          | Some _ => Some TypeError
          end
      | Some _ => Some TypeError
      end
  | JList _ => Some TypeError
  | _ => Some AttributeError
  end.

(** [lambda text: validate(text) if text.strip() else True], the check
    of an optional prompt. *)
Definition if_not_blank (validate : string → verdict) (text : string) : verdict :=
  if PyStr.nonempty (PyStr.strip text) then validate text else Accept.

(** The digits of [str.isdigit] outside ASCII: the superscripts two,
    three and one. *)
Definition superscript_digit (c : ascii) : bool :=
  PyStr.between 178 179 c || PyStr.between 185 185 c.

(** The characters a generated file name is made of: word characters,
    the hyphen and the dot. *)
Definition filename_char (c : ascii) : bool :=
  PyStr.isword c || PyStr.is_hyphen c || PyStr.between 46 46 c.

(** Answers that give the sample user input, with the quantity typed
    after "Other" and the reference left unanswered. *)
Definition sample_interview : Interview.t :=
  {| Interview.vendor_code := Some "hacky-m";
     Interview.vendor_account := Some "hacky-m";
     Interview.vendor_ref := None;
     Interview.used_oclc_number := None;
     Interview.title := Some "Learning Go: An Introduction!!";
     Interview.author := Some "";
     Interview.isbn := Some "";
     Interview.publisher := Some "";
     Interview.publication_year := Some "";
     Interview.price := Some "25";
     Interview.quantity := Interview.Other (Some "12");
     Interview.reporting_code := Some "Art" |}.

(** Missing, or a mapping: what [d.get(k, {}).get(...)] reads without
    an error. *)
Definition mapping_or_missing (o : option json) : bool :=
  match o with
  | None | Some (JObj _) => true
  | Some _ => false
  end.

(** The loop of [select_template] over [templates.items()]: the menu
    entries, in that order. *)
Fixpoint select_template_choices (items : list (string * json))
  : result (list (string * MenuEntry.t)) :=
  match items with
  | [] => Ok []
  | (template_name, template) :: rest =>
      entry ← select_template_entry template;
      choices ← select_template_choices rest;
      Ok ((template_name, entry) :: choices)
  end.

(** The templates the menu can show: a mapping whose [material_type]
    and [vendor] are each missing or a mapping. *)
Definition listable (template : json) : bool :=
  match template with
  | JObj m =>
      mapping_or_missing (m !! "material_type")
      && mapping_or_missing (m !! "vendor")
  | _ => false
  end.

(** [d.get(k, {}).get('value', dflt)] where it goes through. *)
Definition value_or (dflt : string) (o : option json) : json :=
  match o with
  | Some (JObj c) => default (JStr dflt) (c !! "value")
  | _ => JStr dflt
  end.

(** A file name the glob [*.json] can give, less its extension: it has
    no slash and is not made of dots alone. *)
Definition is_stem (stem : string) : bool :=
  negb (PyStr.existsb (λ c, bool_decide (c = "/"%char)) stem)
  && PyStr.existsb PyPath.not_dot stem.

(** ** Notions used in the statements *)

(** [if s: r[k] = s] on the bibliographic block [r]. *)
Definition put_if_nonempty (k s : string) (r : gmap string json) : gmap string json :=
  if PyStr.nonempty s then <[k := JStr s]> r else r.

Definition put_oclc (o : option string) (r : gmap string json) : gmap string json :=
  match o with
  | Some oclc =>
      if PyStr.nonempty oclc
      then <["system_control_number" := JList [JStr oclc]]> r
      else r
  | None => r
  end.

(** The bibliographic block after the merge, from the block [r0] it
    started with. *)
Definition bibliographic_block (r0 : gmap string json) (user_input : UserInput.t)
  : gmap string json :=
  put_oclc (UserInput.oclc_number user_input)
    (put_if_nonempty "publication_year" (UserInput.publication_year user_input)
       (put_if_nonempty "publisher" (UserInput.publisher user_input)
          (put_if_nonempty "isbn" (UserInput.isbn user_input)
             (put_if_nonempty "author" (UserInput.author user_input)
                (<["title" := JStr (UserInput.title user_input)]> r0))))).

(** The block the template starts with: its own, or a fresh one. *)
Definition template_block (m : gmap string json) : option (gmap string json) :=
  match m !! "resource_metadata" with
  | None => Some ∅
  | Some (JObj r0) => Some r0
  | Some _ => None
  end.

Definition is_obj (o : option json) : bool :=
  match o with Some (JObj _) => true | _ => false end.

(** [if k in d and d[k]: d[k][0][field] = v] goes through: the key is
    missing, its value is false, or it is a list that starts with a dict. *)
Definition first_item_ok (o : option json) : bool :=
  match o with
  | None => true
  | Some v =>
      negb (truthy v)
      || match v with JList (JObj _ :: _) => true | _ => false end
  end.

(** The templates and inputs on which the merge returns a record: the
    [vendor] mapping is there; [resource_metadata] is missing or a
    mapping; [fund_distribution] and [location] are each missing, false,
    or a list that starts with a mapping; the input has a
    vendor-reference entry; and thirty days from now is still a date.
    [customize_template_is_ok] below shows that [customize_template]
    returns exactly then. *)
Definition mergeable (m : gmap string json) (user_input : UserInput.t)
    (now : Clock.datetime) : bool :=
  is_obj (m !! "vendor")
  && bool_decide (is_Some (template_block m))
  && first_item_ok (m !! "fund_distribution")
  && first_item_ok (m !! "location")
  && bool_decide (is_Some (UserInput.vendor_reference_number user_input))
  && is_ok (Clock.add_days 30 now).

(** A string of the form [-]digits.dd *)
Fixpoint digits_point_two (seen : bool) (s : string) : bool :=
  match s with
  | EmptyString => false
  | String c r =>
      if PyStr.isdigit_ascii c then digits_point_two true r
      else if PyStr.between 46 46 c
      then seen && match r with
                   | String a (String b EmptyString) =>
                       PyStr.isdigit_ascii a && PyStr.isdigit_ascii b
                   | _ => false
                   end
      else false
  end.

Definition two_decimals (s : string) : bool :=
  match s with
  | String "-" r => digits_point_two false r
  | _ => digits_point_two false s
  end.

(** The characters of a plain price: digits and the point. *)
Definition plain_char (c : ascii) : bool :=
  PyStr.isdigit_ascii c || PyStr.between 46 46 c.

(** The float read from a price written with digits only, or with digits,
    a point and digits. *)
Definition plain_value (ip fp : string) : PyFloat.pyfloat :=
  let mant := PyFloat.digits_value 0 (ip +:+ fp) in
  let e10 := 0 - Z.of_N (PyFloat.len fp) in
  if 0 <=? e10 then PyFloat.of_ratio false (mant * 10 ^ e10) 1
  else PyFloat.of_ratio false mant (10 ^ (- e10)).

Definition with_price (p : string) (u : UserInput.t) : UserInput.t :=
  {| UserInput.vendor_code := UserInput.vendor_code u;
     UserInput.vendor_account := UserInput.vendor_account u;
     UserInput.title := UserInput.title u;
     UserInput.author := UserInput.author u;
     UserInput.price := p;
     UserInput.vendor_reference_number := UserInput.vendor_reference_number u;
     UserInput.isbn := UserInput.isbn u;
     UserInput.publisher := UserInput.publisher u;
     UserInput.publication_year := UserInput.publication_year u;
     UserInput.quantity := UserInput.quantity u;
     UserInput.reporting_code := UserInput.reporting_code u;
     UserInput.oclc_number := UserInput.oclc_number u |}.

(** The title part as the specification words it: characters that are
    not word characters are dropped (white space stays, to be collapsed),
    runs of white space become one underscore, and 30 characters are
    kept. *)
Definition spec_title_part (title : string) : string :=
  PyStr.take 30
    (PyStr.collapse_spaces "_" false
       (PyStr.keep_chars (λ c, PyStr.isword c || PyStr.isspace c) title)).

(** The ISBN rule as the specification words it: the empty input passes,
    any other input passes exactly when 10 or 13 alphanumeric characters
    remain. *)
Definition spec_isbn_accepts (text : string) : bool :=
  if bool_decide (text = "") then true
  else len_in_10_13 (PyStr.keep_chars PyStr.isalnum text).

Definition accepted (v : verdict) : bool :=
  match v with Accept => true | Reject _ => false end.

Definition four_digits (s : string) : bool :=
  match s with
  | String a (String b (String c (String d EmptyString))) =>
      PyStr.isdigit_ascii a && PyStr.isdigit_ascii b
      && PyStr.isdigit_ascii c && PyStr.isdigit_ascii d
  | _ => false
  end.

Definition two_digits (s : string) : bool :=
  match s with
  | String a (String b EmptyString) =>
      PyStr.isdigit_ascii a && PyStr.isdigit_ascii b
  | _ => false
  end.

(** A time stamp [YYYYMMDD_HHMMSS]: eight digits, an underscore, six
    digits. *)
Definition is_stamp (s : string) : bool :=
  match s with
  | String y1 (String y2 (String y3 (String y4 (String m1 (String m2
      (String d1 (String d2 (String u (String h1 (String h2 (String n1
      (String n2 (String s1 (String s2 EmptyString)))))))))))))) =>
      PyStr.forallb PyStr.isdigit_ascii
        (String y1 (String y2 (String y3 (String y4 (String m1 (String m2
          (String d1 (String d2 (String h1 (String h2 (String n1 (String n2
          (String s1 (String s2 EmptyString))))))))))))))
      && PyStr.between 95 95 u
  | _ => false
  end.

(** A clock reading as [datetime.now()] gives it in the years 1000 to
    9999. *)
Definition clock_ok (t : Clock.datetime) : Prop :=
  1000 <= Clock.year t <= 9999 ∧ 1 <= Clock.month t <= 12
  ∧ 1 <= Clock.day t <= 31 ∧ 0 <= Clock.hour t <= 23
  ∧ 0 <= Clock.minute t <= 59 ∧ 0 <= Clock.second t <= 59.

(** ** Sample data *)

Module Sample.

Definition user_input : UserInput.t :=
  {| UserInput.vendor_code := "hacky-m";
     UserInput.vendor_account := "hacky-m";
     UserInput.title := "Learning Go: An Introduction!!";
     UserInput.author := "";
     UserInput.price := "25";
     UserInput.vendor_reference_number := Some "INV-2024/001";
     UserInput.isbn := "";
     UserInput.publisher := "";
     UserInput.publication_year := "";
     UserInput.quantity := 2;
     UserInput.reporting_code := "Art";
     UserInput.oclc_number := None |}.

Definition now : Clock.datetime :=
  {| Clock.year := 2024; Clock.month := 12; Clock.day := 15;
     Clock.hour := 9; Clock.minute := 5; Clock.second := 59 |}.

Definition vendor : json := JObj {[ "value" := JStr "template-vendor" ]}.

(** A template with the conventional shapes, an interested user and a
    note of its own. *)
Definition template : gmap string json :=
  {[ "_description" := JStr "Books, one copy";
     "vendor" := vendor;
     "vendor_account" := JStr "template-account";
     "material_type" := JObj {[ "value" := JStr "BOOK" ]};
     "fund_distribution" :=
       JList [JObj {[ "fund_code" := JObj {[ "value" := JStr "books" ]} ]};
              JObj {[ "fund_code" := JObj {[ "value" := JStr "gifts" ]} ]}];
     "location" := JList [JObj {[ "quantity" := JInt 1 ]}];
     "note" := JList [JObj {[ "note_text" := JStr "from the template" ]}];
     "interested_user" := JList [JObj {[ "primary_id" := JStr "000000000" ]}] ]}.

Definition answers : Answers.t :=
  {| Answers.user_id := "123456789";
     Answers.notify := true;
     Answers.hold := false;
     Answers.additional_notes := Some "Rush order";
     Answers.reserve_note := Some "HIST 101" |}.

Definition hyphen_title_input : UserInput.t :=
  {| UserInput.vendor_code := "hacky-m";
     UserInput.vendor_account := "hacky-m";
     UserInput.title := "Learning-Go";
     UserInput.author := "";
     UserInput.price := "25";
     UserInput.vendor_reference_number := Some "INV-2024/001";
     UserInput.isbn := "";
     UserInput.publisher := "";
     UserInput.publication_year := "";
     UserInput.quantity := 1;
     UserInput.reporting_code := "Computer Science";
     UserInput.oclc_number := None |}.

(** A user input whose dict has no [vendor_reference_number] key. *)
Definition no_reference_input : UserInput.t :=
  {| UserInput.vendor_code := "hacky-m";
     UserInput.vendor_account := "hacky-m";
     UserInput.title := "Learning Go: An Introduction!!";
     UserInput.author := "";
     UserInput.price := "25";
     UserInput.vendor_reference_number := None;
     UserInput.isbn := "";
     UserInput.publisher := "";
     UserInput.publication_year := "";
     UserInput.quantity := 1;
     UserInput.reporting_code := "Computer Science";
     UserInput.oclc_number := None |}.

(** What the merge makes of [template] and [user_input] on 15 December
    2024 when only "Display" was selected. *)
Definition merged : gmap string json :=
  {[ "vendor" := JObj {[ "value" := JStr "hacky-m" ]};
     "vendor_account" := JStr "hacky-m";
     "material_type" := JObj {[ "value" := JStr "BOOK" ]};
     "resource_metadata" :=
       JObj {[ "title" := JStr "Learning Go: An Introduction!!" ]};
     "price" :=
       JObj {[ "sum" := JStr "25.00";
               "currency" := JObj {[ "value" := JStr "USD" ]} ]};
     "fund_distribution" :=
       JList [JObj {[ "fund_code" := JObj {[ "value" := JStr "books" ]};
                      "amount" :=
                        JObj {[ "sum" := JStr "25.00";
                                "currency" := JObj {[ "value" := JStr "USD" ]} ]} ]};
              JObj {[ "fund_code" := JObj {[ "value" := JStr "gifts" ]} ]}];
     "vendor_reference_number" := JStr "INV-2024/001";
     "location" := JList [JObj {[ "quantity" := JInt 2 ]}];
     "receiving_note" := JStr "Display";
     "note" := JList [JObj {[ "note_text" := JStr "from the template" ]}];
     "expected_receipt_date" := JStr "2025-01-14";
     "reporting_code" := JStr "Art" ]}.

Definition interested : InterestedUser.t :=
  {| InterestedUser.user_id := "123456789";
     InterestedUser.notify := true;
     InterestedUser.hold := false |}.

End Sample.

(** * Properties *)

(** ** Strings *)

Lemma nonempty_false s : PyStr.nonempty s = false ↔ s = "".
Proof. destruct s; simpl; split; congruence. Qed.

Lemma nonempty_true s : PyStr.nonempty s = true ↔ s ≠ "".
Proof. destruct s; simpl; split; congruence. Qed.

Lemma str_in_true x l : str_in x l = true ↔ x ∈ l.
Proof. unfold str_in. apply bool_decide_eq_true. Qed.

Lemma str_in_false x l : str_in x l = false ↔ x ∉ l.
Proof. unfold str_in. apply bool_decide_eq_false. Qed.

(** ** ISBN *)

Lemma len_in_10_13_spec s :
  len_in_10_13 s = true ↔ String.length s = 10%nat ∨ String.length s = 13%nat.
Proof.
  unfold len_in_10_13. rewrite orb_true_iff, !Nat.eqb_eq. tauto.
Qed.

(** C9, as the specification words it, fails on a blank input: one space
    is not the empty input and leaves no alphanumeric character, yet the
    validator accepts it. *)
Lemma validate_isbn_blank_counterexample :
  " " ≠ "" ∧ accepted (validate_isbn " ") = true ∧ spec_isbn_accepts " " = false.
Proof. split; [discriminate|]. split; reflexivity. Qed.

(** C9, amended: the validator accepts an input exactly when the input is
    blank (empty once surrounding white space is stripped) or 10 or 13
    characters remain after the non-alphanumeric ones are removed; so
    "0-306-40615-2" passes and "12345" fails. *)
Theorem validate_isbn_accepts (text : string) :
  (accepted (validate_isbn text) = true ↔
     PyStr.strip text = ""
     ∨ String.length (PyStr.keep_chars PyStr.isalnum text) = 10%nat
     ∨ String.length (PyStr.keep_chars PyStr.isalnum text) = 13%nat)
  ∧ validate_isbn "" = Accept
  ∧ validate_isbn "0-306-40615-2" = Accept
  ∧ validate_isbn "12345" = Reject "ISBN should be 10 or 13 digits".
Proof.
  split; [|repeat split].
  unfold validate_isbn.
  destruct (PyStr.nonempty (PyStr.strip text)) eqn:Hs; simpl.
  - apply nonempty_true in Hs.
    destruct (len_in_10_13 _) eqn:Hl; simpl.
    + apply len_in_10_13_spec in Hl. tauto.
    + split; [discriminate|].
      intros [?|Hlen]; [done|].
      apply len_in_10_13_spec in Hlen. congruence.
  - apply nonempty_false in Hs. tauto.
Qed.

Lemma validate_isbn_accepts_witness :
  accepted (validate_isbn "0-306-40615-2") = true.
Proof.
  apply (proj1 (validate_isbn_accepts "0-306-40615-2")).
  right. left. reflexivity.
Defined.

(** ** The steps of the merge *)

Ltac monad_simpl :=
  unfold mbind, result_bind, mret, result_ret in *; simpl in *.

Lemma setitem2_Ok d k1 k2 v d' :
  setitem2 d k1 k2 v = Ok d' ↔
  ∃ o, d !! k1 = Some (JObj o) ∧ d' = <[k1 := JObj (<[k2 := v]> o)]> d.
Proof.
  unfold setitem2, getitem. destruct (d !! k1) as [c|]; monad_simpl.
  - destruct c; monad_simpl; split;
      try discriminate; try (intros (o & [=] & _); fail).
    + intros [= <-]. eauto.
    + intros (o & [= <-] & ->). done.
  - split; [discriminate | intros (? & [=] & _)].
Qed.

Lemma setitem2_missing d k1 k2 v :
  d !! k1 = None → setitem2 d k1 k2 v = Raise (KeyError (KStr k1)).
Proof. intros H. unfold setitem2, getitem. by rewrite H. Qed.

Lemma setitem2_block p k1 k2 v o :
  setitem2 (<[k1 := JObj o]> p) k1 k2 v = Ok (<[k1 := JObj (<[k2 := v]> o)]> p).
Proof.
  apply setitem2_Ok. exists o. rewrite lookup_insert_eq, insert_insert_eq. done.
Qed.

Lemma set_if_nonempty_block p k1 k2 s o :
  set_if_nonempty (<[k1 := JObj o]> p) k1 k2 s
  = Ok (<[k1 := JObj (put_if_nonempty k2 s o)]> p).
Proof.
  unfold set_if_nonempty, put_if_nonempty.
  destruct (PyStr.nonempty s); [apply setitem2_block | done].
Qed.

Lemma setitem2_not_obj p k1 k2 v c :
  p !! k1 = Some c → (∀ o, c ≠ JObj o) → setitem2 p k1 k2 v = Raise TypeError.
Proof.
  intros H Hc. unfold setitem2, getitem. rewrite H. monad_simpl.
  destruct c; try done. by destruct (Hc m).
Qed.

Lemma set_in_first_Ok d k f v d' :
  set_in_first d k f v = Ok d' ↔
  (d !! k = None ∧ d' = d)
  ∨ (∃ c, d !! k = Some c ∧ truthy c = false ∧ d' = d)
  ∨ (∃ o rest, d !! k = Some (JList (JObj o :: rest))
               ∧ d' = <[k := JList (JObj (<[f := v]> o) :: rest)]> d).
Proof.
  unfold set_in_first. destruct (d !! k) as [c|] eqn:Hk.
  2:{ split.
      - intros [= <-]. by left.
      - intros [[_ ->]|[(c & [=] & _)|(o & rest & [=] & _)]]. done. }
  destruct (truthy c) eqn:Ht.
  - split.
    + intros H. right. right.
      destruct c as [| | | | [|] | [|[| | | | | |] rest] |]; monad_simpl;
        try discriminate.
      injection H as <-. eauto.
    + intros [[[=] _]|[(c' & [= <-] & Hf & _)|(o & rest & [= ->] & ->)]].
      * congruence.
      * done.
  - split.
    + intros [= <-]. right. left. eauto.
    + intros [[[=] _]|[(c' & [= <-] & _ & ->)|(o & rest & [= ->] & _)]];
        [done | discriminate].
Qed.

Lemma set_in_first_is_ok d k f v :
  is_ok (set_in_first d k f v) = first_item_ok (d !! k).
Proof.
  unfold set_in_first, first_item_ok. destruct (d !! k) as [c|]; [|done].
  destruct (truthy c) eqn:Ht; [|done]. simpl.
  destruct c as [| | | | [|] | [|[| | | | | |] rest] |]; monad_simpl; try done.
Qed.

Lemma set_in_first_frame d k f v d' k' :
  set_in_first d k f v = Ok d' → k' ≠ k → d' !! k' = d !! k'.
Proof.
  intros H Hne. apply set_in_first_Ok in H.
  destruct H as [[_ ->]|[(c & _ & _ & ->)|(o & rest & _ & ->)]]; try done.
  by rewrite lookup_insert_ne.
Qed.

Lemma template_copy_Ok t p :
  template_copy t = Ok p ↔
  ∃ m, t = JObj m ∧ p = delete "_template_version" (delete "_description" m).
Proof.
  unfold template_copy, pop_default, deep_copy.
  destruct t; monad_simpl; split; try discriminate;
    try (intros (? & [=] & _); fail).
  - intros [= <-]. eauto.
  - intros (? & [= <-] & ->). done.
Qed.

Lemma vendor_information_Ok p ui p' :
  vendor_information p ui = Ok p' ↔
  ∃ v, p !! "vendor" = Some (JObj v)
       ∧ p' = <["vendor_account" := JStr (UserInput.vendor_account ui)]>
                (<["vendor" := JObj (<["value" := JStr (UserInput.vendor_code ui)]> v)]> p).
Proof.
  unfold vendor_information.
  destruct (setitem2 p "vendor" "value" _) as [q|e] eqn:Hq; monad_simpl.
  - apply setitem2_Ok in Hq as (v & Hv & ->). split.
    + intros [= <-]. eauto.
    + intros (v' & Hv' & ->). congruence.
  - split; [discriminate|]. intros (v & Hv & _).
    assert (setitem2 p "vendor" "value" (JStr (UserInput.vendor_code ui))
            = Ok (<["vendor" := JObj (<["value" := JStr (UserInput.vendor_code ui)]> v)]> p))
      by (apply setitem2_Ok; eauto).
    congruence.
Qed.

Lemma bibliographic_metadata_block p ui r0 :
  template_block p = Some r0 →
  bibliographic_metadata p ui
  = Ok (<["resource_metadata" := JObj (bibliographic_block r0 ui)]> p).
Proof.
  unfold template_block, bibliographic_metadata, bibliographic_block.
  intros Hb.
  assert ((match p !! "resource_metadata" with
           | Some _ => p
           | None => <["resource_metadata" := JObj ∅]> p
           end) = <["resource_metadata" := JObj r0]> p) as ->.
  { destruct (p !! "resource_metadata") as [c|] eqn:Hc.
    - destruct c; try discriminate. injection Hb as <-. by rewrite insert_id.
    - by injection Hb as <-. }
  rewrite setitem2_block. monad_simpl.
  rewrite set_if_nonempty_block. monad_simpl.
  rewrite set_if_nonempty_block. monad_simpl.
  rewrite set_if_nonempty_block. monad_simpl.
  rewrite set_if_nonempty_block. monad_simpl.
  unfold put_oclc. destruct (UserInput.oclc_number ui) as [oclc|]; [|done].
  destruct (PyStr.nonempty oclc); [apply setitem2_block | done].
Qed.

Lemma bibliographic_metadata_not_obj p ui :
  template_block p = None → bibliographic_metadata p ui = Raise TypeError.
Proof.
  unfold template_block, bibliographic_metadata. intros Hb.
  destruct (p !! "resource_metadata") as [c|] eqn:Hc; [|discriminate].
  erewrite setitem2_not_obj; [done | exact Hc |].
  intros o ->. discriminate.
Qed.

Lemma bibliographic_metadata_Ok p ui p' :
  bibliographic_metadata p ui = Ok p' ↔
  ∃ r0, template_block p = Some r0
        ∧ p' = <["resource_metadata" := JObj (bibliographic_block r0 ui)]> p.
Proof.
  destruct (template_block p) as [r0|] eqn:Hb.
  - rewrite (bibliographic_metadata_block p ui r0 Hb). split.
    + intros [= <-]. eauto.
    + intros (r & [= <-] & ->). done.
  - rewrite (bibliographic_metadata_not_obj p ui Hb).
    split; [discriminate | intros (? & [=] & _)].
Qed.

(** *** What each section leaves alone *)

Lemma vendor_information_frame p ui p' k :
  vendor_information p ui = Ok p' →
  k ≠ "vendor" → k ≠ "vendor_account" → p' !! k = p !! k.
Proof.
  intros (v & _ & ->)%vendor_information_Ok ??.
  by rewrite !lookup_insert_ne.
Qed.

Lemma bibliographic_metadata_frame p ui p' k :
  bibliographic_metadata p ui = Ok p' →
  k ≠ "resource_metadata" → p' !! k = p !! k.
Proof.
  intros (r0 & _ & ->)%bibliographic_metadata_Ok ?.
  by rewrite lookup_insert_ne.
Qed.

Lemma pricing_frame p ui p' k :
  pricing p ui = Ok p' →
  k ≠ "price" → k ≠ "fund_distribution" → p' !! k = p !! k.
Proof.
  unfold pricing. intros H ??.
  rewrite (set_in_first_frame _ _ _ _ _ k H) by done.
  by rewrite lookup_insert_ne.
Qed.

Lemma pricing_price p ui p' :
  pricing p ui = Ok p' →
  p' !! "price" = Some (amount_object (format_price (UserInput.price ui))).
Proof.
  unfold pricing. intros H.
  rewrite (set_in_first_frame _ _ _ _ _ "price" H) by done.
  by rewrite lookup_insert_eq.
Qed.

Lemma order_details_Ok p ui p' :
  order_details p ui = Ok p' ↔
  ∃ ref, UserInput.vendor_reference_number ui = Some ref
         ∧ set_in_first
             (if PyStr.nonempty ref
              then <["vendor_reference_number" := JStr ref]> p else p)
             "location" "quantity" (JInt (UserInput.quantity ui)) = Ok p'.
Proof.
  unfold order_details.
  destruct (UserInput.vendor_reference_number ui) as [ref|]; monad_simpl.
  - split; [eauto | by intros (? & [= <-] & ?)].
  - split; [discriminate | intros (? & [=] & _)].
Qed.

Lemma order_details_frame p ui p' k :
  order_details p ui = Ok p' →
  k ≠ "vendor_reference_number" → k ≠ "location" → p' !! k = p !! k.
Proof.
  intros (ref & _ & H)%order_details_Ok ??.
  rewrite (set_in_first_frame _ _ _ _ _ k H) by done.
  destruct (PyStr.nonempty ref); [by rewrite lookup_insert_ne | done].
Qed.

Lemma receiving_note_frame p rc k :
  k ≠ "receiving_note" → receiving_note p rc !! k = p !! k.
Proof.
  intros ?. unfold receiving_note.
  case_bool_decide; by rewrite lookup_insert_ne.
Qed.

Lemma receiving_note_lookup p rc :
  receiving_note p rc !! "receiving_note"
  = Some (JStr (if bool_decide (rc ≠ "None") then rc else "")).
Proof.
  unfold receiving_note. case_bool_decide; by rewrite lookup_insert_eq.
Qed.

Lemma conditional_data_handling_frame p cd k :
  k ≠ "note" → k ≠ "interested_user" →
  conditional_data_handling p cd !! k = p !! k.
Proof.
  intros ??. unfold conditional_data_handling.
  destruct (ConditionalData.interested_user cd);
    [rewrite lookup_insert_ne by done | rewrite lookup_delete_ne by done];
    destruct (build_notes cd); by rewrite ?lookup_insert_ne.
Qed.

Lemma conditional_data_handling_note p cd :
  conditional_data_handling p cd !! "note"
  = match build_notes cd with
    | [] => p !! "note"
    | notes => Some (JList notes)
    end.
Proof.
  unfold conditional_data_handling.
  destruct (ConditionalData.interested_user cd);
    [rewrite lookup_insert_ne by done | rewrite lookup_delete_ne by done];
    destruct (build_notes cd); by rewrite ?lookup_insert_eq.
Qed.

Lemma conditional_data_handling_interested_user p cd :
  conditional_data_handling p cd !! "interested_user"
  = match ConditionalData.interested_user cd with
    | Some user_info => Some (JList [interested_user_object user_info])
    | None => None
    end.
Proof.
  unfold conditional_data_handling.
  destruct (ConditionalData.interested_user cd);
    [by rewrite lookup_insert_eq | by rewrite lookup_delete_eq].
Qed.

Lemma system_fields_Ok p ui now out :
  system_fields p ui now = Ok out ↔
  ∃ d, Clock.add_days 30 now = Ok d
       ∧ out = put_if_nonempty "reporting_code" (UserInput.reporting_code ui)
                 (<["expected_receipt_date" := JStr (Clock.strftime_date d)]> p).
Proof.
  unfold system_fields, put_if_nonempty.
  destruct (Clock.add_days 30 now) as [d|e]; monad_simpl.
  - split; [intros [= <-]; eauto | by intros (? & [= <-] & ->)].
  - split; [discriminate | intros (? & [=] & _)].
Qed.

Lemma system_fields_frame p ui now out k :
  system_fields p ui now = Ok out →
  k ≠ "expected_receipt_date" → k ≠ "reporting_code" → out !! k = p !! k.
Proof.
  intros (d & _ & ->)%system_fields_Ok ??. unfold put_if_nonempty.
  destruct (PyStr.nonempty _); by rewrite !lookup_insert_ne.
Qed.

(** *** The merge as a chain of its sections *)

Lemma customize_template_Ok t ui rc cd now out :
  customize_template t ui rc cd now = Ok out ↔
  ∃ m p2 p3 p4 p5,
    t = JObj m
    ∧ vendor_information (delete "_template_version" (delete "_description" m)) ui = Ok p2
    ∧ bibliographic_metadata p2 ui = Ok p3
    ∧ pricing p3 ui = Ok p4
    ∧ order_details p4 ui = Ok p5
    ∧ system_fields (conditional_data_handling (receiving_note p5 rc) cd) ui now = Ok out.
Proof.
  unfold customize_template. split.
  - destruct (template_copy t) as [p1|] eqn:H1; monad_simpl; [|discriminate].
    apply template_copy_Ok in H1 as (m & -> & ->).
    destruct (vendor_information _ ui) as [p2|] eqn:H2; monad_simpl; [|discriminate].
    destruct (bibliographic_metadata p2 ui) as [p3|] eqn:H3; monad_simpl; [|discriminate].
    destruct (pricing p3 ui) as [p4|] eqn:H4; monad_simpl; [|discriminate].
    destruct (order_details p4 ui) as [p5|] eqn:H5; monad_simpl; [|discriminate].
    intros H6. exists m, p2, p3, p4, p5. done.
  - intros (m & p2 & p3 & p4 & p5 & -> & H2 & H3 & H4 & H5 & H6).
    assert (template_copy (JObj m)
            = Ok (delete "_template_version" (delete "_description" m))) as ->
      by (apply template_copy_Ok; eauto).
    monad_simpl. rewrite H2. monad_simpl. rewrite H3. monad_simpl.
    rewrite H4. monad_simpl. rewrite H5. monad_simpl. done.
Qed.

(** A key of the template that neither the copy nor the vendor section
    touches reaches the bibliographic section as it was. *)
Lemma vendor_information_from_template m ui p2 k :
  vendor_information (delete "_template_version" (delete "_description" m)) ui = Ok p2 →
  k ≠ "vendor" → k ≠ "vendor_account" →
  k ≠ "_description" → k ≠ "_template_version" →
  p2 !! k = m !! k.
Proof.
  intros H ????.
  rewrite (vendor_information_frame _ _ _ k H) by done.
  by rewrite !lookup_delete_ne.
Qed.

(** The fields of the merged record that the properties below are about,
    in terms of the template [m] and the inputs. *)
Lemma customize_template_fields t ui rc cd now out :
  customize_template t ui rc cd now = Ok out →
  ∃ m r0,
    t = JObj m
    ∧ template_block m = Some r0
    ∧ out !! "resource_metadata" = Some (JObj (bibliographic_block r0 ui))
    ∧ out !! "price" = Some (amount_object (format_price (UserInput.price ui)))
    ∧ out !! "fund_distribution"
      = match m !! "fund_distribution" with
        | Some (JList (JObj o :: rest)) =>
            Some (JList (JObj (<["amount" :=
                     amount_object (format_price (UserInput.price ui))]> o) :: rest))
        | other => other
        end
    ∧ first_item_ok (m !! "fund_distribution") = true
    ∧ out !! "receiving_note"
      = Some (JStr (if bool_decide (rc ≠ "None") then rc else ""))
    ∧ out !! "note"
      = match build_notes cd with
        | [] => m !! "note"
        | notes => Some (JList notes)
        end
    ∧ out !! "interested_user"
      = match ConditionalData.interested_user cd with
        | Some user_info => Some (JList [interested_user_object user_info])
        | None => None
        end.
Proof.
  intros (m & p2 & p3 & p4 & p5 & -> & H2 & H3 & H4 & H5 & H6)%customize_template_Ok.
  pose proof H3 as (r0 & Hb & Hp3)%bibliographic_metadata_Ok.
  assert (template_block m = Some r0) as Hbm.
  { unfold template_block in *.
    by rewrite <- (vendor_information_from_template m ui p2 "resource_metadata" H2). }
  exists m, r0. split; [done|]. split; [done|].
  split.
  { rewrite (system_fields_frame _ _ _ _ "resource_metadata" H6) by done.
    rewrite conditional_data_handling_frame, receiving_note_frame by done.
    rewrite (order_details_frame _ _ _ "resource_metadata" H5) by done.
    rewrite (pricing_frame _ _ _ "resource_metadata" H4) by done.
    subst p3. by rewrite lookup_insert_eq. }
  split.
  { rewrite (system_fields_frame _ _ _ _ "price" H6) by done.
    rewrite conditional_data_handling_frame, receiving_note_frame by done.
    rewrite (order_details_frame _ _ _ "price" H5) by done.
    by apply pricing_price in H4. }
  assert (p3 !! "fund_distribution" = m !! "fund_distribution") as Hfd.
  { rewrite (bibliographic_metadata_frame _ _ _ "fund_distribution" H3) by done.
    by apply (vendor_information_from_template m ui p2). }
  split.
  { rewrite (system_fields_frame _ _ _ _ "fund_distribution" H6) by done.
    rewrite conditional_data_handling_frame, receiving_note_frame by done.
    rewrite (order_details_frame _ _ _ "fund_distribution" H5) by done.
    unfold pricing in H4. apply set_in_first_Ok in H4.
    rewrite lookup_insert_ne in H4 by done. rewrite Hfd in H4.
    destruct H4 as [[Hn ->]|[(c & Hc & Hf & ->)|(o & rest & Hl & ->)]].
    - rewrite lookup_insert_ne by done. by rewrite Hfd, Hn.
    - rewrite lookup_insert_ne by done. rewrite Hfd, Hc.
      by destruct c as [| | | | | [|[] ?] |].
    - by rewrite lookup_insert_eq, Hl. }
  split.
  { rewrite <- Hfd.
    rewrite <- (lookup_insert_ne p3 "price" "fund_distribution"
                  (amount_object (format_price (UserInput.price ui)))) by done.
    rewrite <- (set_in_first_is_ok _ _ "amount"
                  (amount_object (format_price (UserInput.price ui)))).
    unfold pricing in H4. by rewrite H4. }
  split.
  { rewrite (system_fields_frame _ _ _ _ "receiving_note" H6) by done.
    rewrite conditional_data_handling_frame by done.
    apply receiving_note_lookup. }
  assert (p5 !! "note" = m !! "note") as Hnote.
  { rewrite (order_details_frame _ _ _ "note" H5) by done.
    rewrite (pricing_frame _ _ _ "note" H4) by done.
    rewrite (bibliographic_metadata_frame _ _ _ "note" H3) by done.
    by apply (vendor_information_from_template m ui p2). }
  split.
  { rewrite (system_fields_frame _ _ _ _ "note" H6) by done.
    rewrite conditional_data_handling_note, receiving_note_frame by done.
    by rewrite Hnote. }
  rewrite (system_fields_frame _ _ _ _ "interested_user" H6) by done.
  apply conditional_data_handling_interested_user.
Qed.

(** The merge run on the sample data. *)
Example customize_template_sample :
  customize_template (JObj Sample.template) Sample.user_input "Display"
    ConditionalData.empty Sample.now = Ok Sample.merged.
Proof. vm_cast_no_check (eq_refl (Ok Sample.merged)). Qed.

Example generate_filename_sample :
  generate_filename Sample.user_input Sample.now
  = "generic_Learning_Go_An_Introduction_INV-2024001_20241215_090559.json".
Proof. vm_compute. reflexivity. Qed.

(** *** When the merge returns *)

Lemma is_ok_true {A} (r : result A) : is_ok r = true ↔ ∃ a, r = Ok a.
Proof.
  destruct r; simpl; split; eauto; try discriminate. by intros (? & [=]).
Qed.

Lemma is_obj_true o : is_obj o = true ↔ ∃ v, o = Some (JObj v).
Proof.
  destruct o as [[]|]; simpl; split; eauto; try discriminate;
    by intros (? & [=]).
Qed.

Lemma mergeable_true m ui now :
  mergeable m ui now = true ↔
  (∃ v, m !! "vendor" = Some (JObj v))
  ∧ is_Some (template_block m)
  ∧ first_item_ok (m !! "fund_distribution") = true
  ∧ first_item_ok (m !! "location") = true
  ∧ is_Some (UserInput.vendor_reference_number ui)
  ∧ (∃ d, Clock.add_days 30 now = Ok d).
Proof.
  unfold mergeable.
  rewrite !andb_true_iff, !bool_decide_eq_true, is_obj_true, is_ok_true.
  tauto.
Qed.

Lemma customize_template_returns m ui rc cd now :
  mergeable m ui now = true →
  ∃ out, customize_template (JObj m) ui rc cd now = Ok out.
Proof.
  intros ((v & Hv) & (r0 & Hb) & Hfd & Hloc & (ref & Href) & (d & Hd))%mergeable_true.
  set (p1 := delete "_template_version" (delete "_description" m)).
  assert (∃ p2, vendor_information p1 ui = Ok p2) as (p2 & H2).
  { eexists. apply vendor_information_Ok. exists v. split; [|done].
    subst p1. by rewrite !lookup_delete_ne. }
  assert (∃ p3, bibliographic_metadata p2 ui = Ok p3) as (p3 & H3).
  { eexists. apply bibliographic_metadata_block with (r0 := r0).
    unfold template_block in *.
    by rewrite (vendor_information_from_template m ui p2 "resource_metadata" H2). }
  assert (∃ p4, pricing p3 ui = Ok p4) as (p4 & H4).
  { apply is_ok_true. unfold pricing. rewrite set_in_first_is_ok.
    rewrite lookup_insert_ne by done.
    rewrite (bibliographic_metadata_frame _ _ _ "fund_distribution" H3) by done.
    by rewrite (vendor_information_from_template m ui p2 "fund_distribution" H2). }
  assert (∃ p5, order_details p4 ui = Ok p5) as (p5 & H5).
  { assert (p4 !! "location" = m !! "location") as Hl.
    { rewrite (pricing_frame _ _ _ "location" H4) by done.
      rewrite (bibliographic_metadata_frame _ _ _ "location" H3) by done.
      by apply (vendor_information_from_template m ui p2). }
    cut (is_ok (order_details p4 ui) = true).
    { intros (p5 & ?)%is_ok_true. eauto. }
    unfold order_details. rewrite Href. monad_simpl.
    rewrite set_in_first_is_ok.
    destruct (PyStr.nonempty ref);
      [rewrite lookup_insert_ne by done|]; by rewrite Hl. }
  eexists. apply customize_template_Ok.
  exists m, p2, p3, p4, p5. repeat (split; [done|]).
  apply system_fields_Ok. eauto.
Qed.

Lemma customize_template_mergeable m ui rc cd now out :
  customize_template (JObj m) ui rc cd now = Ok out →
  mergeable m ui now = true.
Proof.
  intros H. pose proof H as (m' & r0 & [= <-] & Hb & _)%customize_template_fields.
  apply customize_template_Ok in H
    as (m' & p2 & p3 & p4 & p5 & [= <-] & H2 & H3 & H4 & H5 & H6).
  apply mergeable_true.
  split.
  { apply vendor_information_Ok in H2 as (v & Hv & _).
    rewrite !lookup_delete_ne in Hv by done. eauto. }
  split; [eauto|].
  split.
  { rewrite <- (vendor_information_from_template m ui p2 "fund_distribution" H2) by done.
    rewrite <- (bibliographic_metadata_frame _ _ _ "fund_distribution" H3) by done.
    rewrite <- (lookup_insert_ne p3 "price" "fund_distribution"
                  (amount_object (format_price (UserInput.price ui)))) by done.
    rewrite <- (set_in_first_is_ok _ _ "amount"
                  (amount_object (format_price (UserInput.price ui)))).
    unfold pricing in H4. by rewrite H4. }
  apply order_details_Ok in H5 as (ref & Href & H5).
  split.
  { rewrite <- (vendor_information_from_template m ui p2 "location" H2) by done.
    rewrite <- (bibliographic_metadata_frame _ _ _ "location" H3) by done.
    rewrite <- (pricing_frame _ _ _ "location" H4) by done.
    assert (is_ok (set_in_first
               (if PyStr.nonempty ref
                then <["vendor_reference_number" := JStr ref]> p4 else p4)
               "location" "quantity" (JInt (UserInput.quantity ui))) = true) as Hok
      by (by rewrite H5).
    rewrite set_in_first_is_ok in Hok.
    destruct (PyStr.nonempty ref);
      [by rewrite lookup_insert_ne in Hok|done]. }
  split; [eauto|].
  apply system_fields_Ok in H6 as (d & Hd & _). eauto.
Qed.

(** The merge returns a record exactly on the mergeable templates; what
    the user typed as price, titles or notes plays no part in it. *)
Lemma customize_template_is_ok m ui rc cd now :
  is_ok (customize_template (JObj m) ui rc cd now) = mergeable m ui now.
Proof.
  destruct (mergeable m ui now) eqn:Hm.
  - destruct (customize_template_returns m ui rc cd now Hm) as (out & ->). done.
  - destruct (customize_template _ _ _ _ _) as [out|] eqn:H; [|done].
    apply customize_template_mergeable in H. congruence.
Qed.

Lemma customize_template_not_dict t ui rc cd now :
  (∀ m, t ≠ JObj m) → is_ok (customize_template t ui rc cd now) = false.
Proof.
  intros Ht. destruct (customize_template _ _ _ _ _) as [out|] eqn:H; [|done].
  apply customize_template_Ok in H as (m & ? & ? & ? & ? & -> & _).
  by destruct (Ht m).
Qed.

(** ** Receiving note *)

Lemma existsb_app p (a b : string) :
  PyStr.existsb p (a +:+ b) = PyStr.existsb p a || PyStr.existsb p b.
Proof.
  induction a as [|c a IH]; simpl; [done|].
  by rewrite IH, orb_assoc.
Qed.

(** Two labels or more joined by [" | "] contain a space. *)
Lemma join_has_space x y l :
  PyStr.existsb (PyStr.between 32 32) (PyStr.join " | " (x :: y :: l)) = true.
Proof.
  change (PyStr.join " | " (x :: y :: l))
    with (x +:+ " | " +:+ PyStr.join " | " (y :: l)).
  rewrite !existsb_app. simpl. by rewrite orb_true_r.
Qed.

Lemma join_not_None sel :
  sel ≠ [] → "None" ∉ sel → PyStr.join " | " sel ≠ "None".
Proof.
  intros Hne Hnot. destruct sel as [|x [|y l]]; [done| |].
  - simpl. intros ->. apply Hnot. by left.
  - intros Heq. pose proof (join_has_space x y l) as Hs.
    rewrite Heq in Hs. discriminate.
Qed.

Lemma validate_receiving_categories_accepted sel :
  accepted (validate_receiving_categories sel) = true ↔
  sel ≠ [] ∧ ("None" ∈ sel → length sel = 1%nat).
Proof.
  unfold validate_receiving_categories.
  destruct sel as [|x l]; [simpl; split; [discriminate | by intros [? _]]|].
  destruct (str_in "None" (x :: l)) eqn:Hin; simpl.
  - apply str_in_true in Hin. destruct l as [|y l]; simpl.
    + split; [done|]. done.
    + split; [discriminate|]. intros [_ H]. specialize (H Hin). discriminate.
  - apply str_in_false in Hin. split; [|done]. intros _. split; [done|].
    intros ?. done.
Qed.

(** The category string that a valid selection hands to the merge. *)
Lemma category_string_of_valid sel answers :
  accepted (validate_receiving_categories sel) = true →
  (get_receiving_note_categories (Some sel) answers).1
  = if bool_decide (sel = ["None"]) then "None" else PyStr.join " | " sel.
Proof.
  intros [Hne Hone]%validate_receiving_categories_accepted.
  unfold get_receiving_note_categories.
  destruct sel as [|x l]; [done|].
  destruct (str_in "None" (x :: l)) eqn:Hin.
  - apply str_in_true in Hin. specialize (Hone Hin).
    destruct l; [|discriminate].
    apply list_elem_of_singleton in Hin as <-. done.
  - apply str_in_false in Hin. simpl.
    case_bool_decide as Heq; [|done].
    exfalso. apply Hin. rewrite Heq. by left.
Qed.

(** C1: validation rejects the empty selection and every selection that
    holds "None" next to another label; and for a valid selection the
    merge, on a template it accepts ([mergeable]), returns a record whose
    [receiving_note] is [""] when the selection is the "None" sentinel
    and otherwise the selected labels joined by [" | "] in the order
    selected. *)
Theorem receiving_note_of_selection
    (sel : list string) (answers : Answers.t) (m : gmap string json)
    (ui : UserInput.t) (now : Clock.datetime) :
  accepted (validate_receiving_categories []) = false
  ∧ ("None" ∈ sel → (1 < length sel)%nat →
     accepted (validate_receiving_categories sel) = false)
  ∧ (accepted (validate_receiving_categories sel) = true →
     mergeable m ui now = true →
     ∃ out,
       customize_template (JObj m) ui
         (get_receiving_note_categories (Some sel) answers).1
         (get_receiving_note_categories (Some sel) answers).2 now = Ok out
       ∧ out !! "receiving_note"
         = Some (JStr (if bool_decide (sel = ["None"]) then ""
                       else PyStr.join " | " sel))).
Proof.
  split; [done|]. split.
  - intros Hin Hlen.
    destruct (accepted (validate_receiving_categories sel)) eqn:Hv; [|done].
    apply validate_receiving_categories_accepted in Hv as [_ Hone].
    specialize (Hone Hin). lia.
  - intros Hv Hm.
    destruct (customize_template_returns m ui
                (get_receiving_note_categories (Some sel) answers).1
                (get_receiving_note_categories (Some sel) answers).2 now Hm)
      as [out Hout].
    exists out. split; [done|].
    apply customize_template_fields in Hout
      as (m' & r0 & _ & _ & _ & _ & _ & _ & Hrn & _).
    rewrite Hrn, (category_string_of_valid sel answers Hv).
    apply validate_receiving_categories_accepted in Hv as [Hne Hone].
    destruct (decide (sel = ["None"])) as [->|Hs].
    + done.
    + rewrite !(bool_decide_eq_false_2 (sel = ["None"])) by done.
      rewrite bool_decide_eq_true_2; [done|].
      apply join_not_None; [done|].
      intros Hin. specialize (Hone Hin).
      destruct sel as [|x [|]]; try discriminate.
      apply list_elem_of_singleton in Hin as <-. done.
Qed.

Lemma receiving_note_of_selection_witness :
  accepted (validate_receiving_categories ["None"; "Note"]) = false
  ∧ (∃ out,
       customize_template (JObj Sample.template) Sample.user_input
         (get_receiving_note_categories (Some ["Note"; "Reserve"]) Sample.answers).1
         (get_receiving_note_categories (Some ["Note"; "Reserve"]) Sample.answers).2
         Sample.now = Ok out
       ∧ out !! "receiving_note"
         = Some (JStr (if bool_decide (["Note"; "Reserve"] = ["None"]) then ""
                       else PyStr.join " | " ["Note"; "Reserve"])))
  ∧ PyStr.join " | " ["Note"; "Reserve"] = "Note | Reserve".
Proof.
  split; [|split].
  - apply (receiving_note_of_selection ["None"; "Note"] Sample.answers
             Sample.template Sample.user_input Sample.now).
    + left.
    + simpl. lia.
  - apply (receiving_note_of_selection ["Note"; "Reserve"] Sample.answers
             Sample.template Sample.user_input Sample.now); reflexivity.
  - reflexivity.
Defined.

(** ** Notes *)

Lemma build_notes_elem cd x :
  x ∈ build_notes cd ↔
  (∃ a, ConditionalData.additional_notes cd = Some a ∧ a ≠ ""
        ∧ x = JObj {[ "note_text" := JStr a ]})
  ∨ (∃ r, ConditionalData.reserve_note cd = Some r ∧ r ≠ ""
          ∧ x = JObj {[ "note_text" := JStr ("Reserve Note: " +:+ r) ]}).
Proof.
  unfold build_notes. rewrite elem_of_app.
  apply or_iff_compat_l with (A := x ∈ _) || idtac.
  assert (∀ (o : option string) (f : string → json),
            x ∈ match o with
                | Some s => if PyStr.nonempty s then [f s] else []
                | None => []
                end ↔ ∃ s, o = Some s ∧ s ≠ "" ∧ x = f s) as Hcase.
  { intros o f. destruct o as [s|].
    - destruct (PyStr.nonempty s) eqn:Hs.
      + apply nonempty_true in Hs. rewrite list_elem_of_singleton. split.
        * intros ->. eauto.
        * by intros (? & [= <-] & _ & ->).
      + apply nonempty_false in Hs. split; [by intros ?%elem_of_nil|].
        intros (? & [= <-] & ? & _). done.
    - split; [by intros ?%elem_of_nil | by intros (? & [=] & _)]. }
  rewrite (Hcase _ note_object).
  rewrite (Hcase _ (λ s, note_object ("Reserve Note: " +:+ s))).
  done.
Qed.

Lemma build_notes_nil cd :
  build_notes cd = [] ↔
  (ConditionalData.additional_notes cd = None
   ∨ ConditionalData.additional_notes cd = Some "")
  ∧ (ConditionalData.reserve_note cd = None
     ∨ ConditionalData.reserve_note cd = Some "").
Proof.
  unfold build_notes.
  destruct (ConditionalData.additional_notes cd) as [[|c a]|];
    destruct (ConditionalData.reserve_note cd) as [[|c' r]|]; simpl;
    split; try done; try (intros [[|] [|]]; done); eauto.
Qed.

Lemma build_notes_both cd a r :
  ConditionalData.additional_notes cd = Some a → a ≠ "" →
  ConditionalData.reserve_note cd = Some r → r ≠ "" →
  build_notes cd
  = [JObj {[ "note_text" := JStr a ]};
     JObj {[ "note_text" := JStr ("Reserve Note: " +:+ r) ]}].
Proof.
  intros Ha Hane Hr Hrne. unfold build_notes. rewrite Ha, Hr.
  apply nonempty_true in Hane, Hrne. by rewrite Hane, Hrne.
Qed.

(** C3: on a template it accepts the merge returns a record whose note
    list holds one object for the free text of "Note" when that text is
    not empty, then one for the reserve text when that is not empty, its
    text prefixed with "Reserve Note: "; with both categories selected
    and both texts given the merged [note] is that two-element list; and
    [note] is set, in place of whatever the template had, only when the
    list has an entry. *)
Theorem notes_of_conditional_data
    (m : gmap string json) (ui : UserInput.t) (rc : string)
    (cd : ConditionalData.t) (now : Clock.datetime) :
  mergeable m ui now = true →
  ∃ out,
    customize_template (JObj m) ui rc cd now = Ok out
    ∧ (∀ x, x ∈ build_notes cd ↔
         (∃ a, ConditionalData.additional_notes cd = Some a ∧ a ≠ ""
               ∧ x = JObj {[ "note_text" := JStr a ]})
         ∨ (∃ r, ConditionalData.reserve_note cd = Some r ∧ r ≠ ""
                 ∧ x = JObj {[ "note_text" := JStr ("Reserve Note: " +:+ r) ]}))
    ∧ (build_notes cd ≠ [] → out !! "note" = Some (JList (build_notes cd)))
    ∧ (build_notes cd = [] → out !! "note" = m !! "note")
    ∧ (∀ sel answers a r,
         cd = (get_receiving_note_categories (Some sel) answers).2 →
         accepted (validate_receiving_categories sel) = true →
         "Note" ∈ sel → "Reserve" ∈ sel →
         Answers.additional_notes answers = Some a → a ≠ "" →
         Answers.reserve_note answers = Some r → r ≠ "" →
         out !! "note"
         = Some (JList [JObj {[ "note_text" := JStr a ]};
                        JObj {[ "note_text" := JStr ("Reserve Note: " +:+ r) ]}])).
Proof.
  intros Hm.
  destruct (customize_template_returns m ui rc cd now Hm) as [out Hout].
  exists out. split; [done|].
  apply customize_template_fields in Hout
    as (m' & r0 & [= <-] & _ & _ & _ & _ & _ & _ & Hnote & _).
  split; [apply build_notes_elem|].
  split; [|split].
  - intros Hne. rewrite Hnote. by destruct (build_notes cd).
  - intros Hnil. by rewrite Hnote, Hnil.
  - intros sel answers a r -> Hv HN HR Ha Hane Hr Hrne.
    rewrite Hnote.
    apply validate_receiving_categories_accepted in Hv as [Hne Hone].
    assert (str_in "None" sel = false) as HnoNone.
    { apply str_in_false. intros Hin. specialize (Hone Hin).
      destruct sel as [|x [|]]; try discriminate.
      apply list_elem_of_singleton in Hin as <-.
      apply list_elem_of_singleton in HN. discriminate. }
    apply str_in_true in HN, HR.
    erewrite build_notes_both with (a := a) (r := r); [done| |done| |done].
    + unfold get_receiving_note_categories.
      destruct sel; [done|]. rewrite HnoNone. simpl. by rewrite HN, Ha.
    + unfold get_receiving_note_categories.
      destruct sel; [done|]. rewrite HnoNone. simpl. by rewrite HR, Hr.
Qed.

Lemma notes_of_conditional_data_witness :
  ∃ out,
    customize_template (JObj Sample.template) Sample.user_input
      "Note | Reserve"
      (get_receiving_note_categories (Some ["Note"; "Reserve"]) Sample.answers).2
      Sample.now = Ok out
    ∧ out !! "note"
      = Some (JList [JObj {[ "note_text" := JStr "Rush order" ]};
                     JObj {[ "note_text" :=
                               JStr ("Reserve Note: " +:+ "HIST 101") ]}]).
Proof.
  destruct (notes_of_conditional_data Sample.template Sample.user_input
              "Note | Reserve"
              (get_receiving_note_categories (Some ["Note"; "Reserve"])
                 Sample.answers).2 Sample.now eq_refl)
    as (out & Hout & _ & _ & _ & Hboth).
  exists out. split; [exact Hout|]. clear Hout.
  apply (Hboth ["Note"; "Reserve"] Sample.answers "Rush order" "HIST 101");
    try reflexivity.
  - apply list_elem_of_here.
  - apply list_elem_of_further, list_elem_of_here.
  - intros H. discriminate H.
  - intros H. discriminate H.
Defined.

(** C10: when the conditional data holds neither a non-empty free-text
    note nor a non-empty reserve note, the merge returns, on a template
    it accepts, a record in which the [note] of the template comes out as
    it went in; [interested_user], in contrast, is removed when its
    conditional data is missing. *)
Theorem note_retained_interested_user_removed
    (m : gmap string json) (ui : UserInput.t) (rc : string)
    (cd : ConditionalData.t) (now : Clock.datetime) :
  mergeable m ui now = true →
  ∃ out,
    customize_template (JObj m) ui rc cd now = Ok out
    ∧ ((ConditionalData.additional_notes cd = None
        ∨ ConditionalData.additional_notes cd = Some "") →
       (ConditionalData.reserve_note cd = None
        ∨ ConditionalData.reserve_note cd = Some "") →
       out !! "note" = m !! "note")
    ∧ (ConditionalData.interested_user cd = None →
       out !! "interested_user" = None).
Proof.
  intros Hm.
  destruct (customize_template_returns m ui rc cd now Hm) as [out Hout].
  exists out. split; [done|].
  apply customize_template_fields in Hout
    as (m' & r0 & [= <-] & _ & _ & _ & _ & _ & _ & Hnote & Hiu).
  split.
  - intros Ha Hr. rewrite Hnote.
    by rewrite (proj2 (build_notes_nil cd) (conj Ha Hr)).
  - intros Hnone. by rewrite Hiu, Hnone.
Qed.

Lemma note_retained_interested_user_removed_witness :
  ∃ out,
    customize_template (JObj Sample.template) Sample.user_input "Display"
      ConditionalData.empty Sample.now = Ok out
    ∧ Sample.template !! "note"
      = Some (JList [JObj {[ "note_text" := JStr "from the template" ]}])
    ∧ out !! "note" = Sample.template !! "note"
    ∧ is_Some (Sample.template !! "interested_user")
    ∧ out !! "interested_user" = None.
Proof.
  destruct (note_retained_interested_user_removed Sample.template
              Sample.user_input "Display" ConditionalData.empty Sample.now
              eq_refl) as (out & Hout & Hnote & Hiu).
  exists out. split; [exact Hout|]. clear Hout.
  split; [reflexivity|]. split; [|split].
  - apply Hnote; left; reflexivity.
  - eexists. reflexivity.
  - apply Hiu. reflexivity.
Defined.

(** ** Bibliographic block *)

Lemma put_if_nonempty_lookup k s r k' :
  put_if_nonempty k s r !! k'
  = if decide (k = k')
    then (if PyStr.nonempty s then Some (JStr s) else r !! k')
    else r !! k'.
Proof.
  unfold put_if_nonempty. destruct (decide (k = k')) as [->|Hne].
  - destruct (PyStr.nonempty s); [by rewrite lookup_insert_eq | done].
  - destruct (PyStr.nonempty s); [by rewrite lookup_insert_ne | done].
Qed.

Lemma put_oclc_lookup_ne o r k :
  k ≠ "system_control_number" → put_oclc o r !! k = r !! k.
Proof.
  intros Hne. unfold put_oclc. destruct o as [oclc|]; [|done].
  destruct (PyStr.nonempty oclc); [by rewrite lookup_insert_ne | done].
Qed.

Lemma put_if_nonempty_empty k r : put_if_nonempty k "" r = r.
Proof. done. Qed.

(** C4: on a template it accepts the merge returns a record in which
    [resource_metadata] always holds the title; author, ISBN, publisher
    and publication year are written when the input is not empty and are
    otherwise left as the template had them, so an empty input never adds
    a field; and from a template without optional bibliographic values
    and with every optional input empty the block comes out holding the
    title alone. *)
Theorem bibliographic_block_fields
    (m : gmap string json) (ui : UserInput.t) (rc : string)
    (cd : ConditionalData.t) (now : Clock.datetime) :
  mergeable m ui now = true →
  ∃ out r0 rm,
    customize_template (JObj m) ui rc cd now = Ok out
    ∧ template_block m = Some r0
    ∧ out !! "resource_metadata" = Some (JObj rm)
    ∧ rm !! "title" = Some (JStr (UserInput.title ui))
    ∧ rm !! "author"
      = (if PyStr.nonempty (UserInput.author ui)
         then Some (JStr (UserInput.author ui)) else r0 !! "author")
    ∧ rm !! "isbn"
      = (if PyStr.nonempty (UserInput.isbn ui)
         then Some (JStr (UserInput.isbn ui)) else r0 !! "isbn")
    ∧ rm !! "publisher"
      = (if PyStr.nonempty (UserInput.publisher ui)
         then Some (JStr (UserInput.publisher ui)) else r0 !! "publisher")
    ∧ rm !! "publication_year"
      = (if PyStr.nonempty (UserInput.publication_year ui)
         then Some (JStr (UserInput.publication_year ui))
         else r0 !! "publication_year")
    ∧ ((∀ k, k ≠ "title" → r0 !! k = None) →
       UserInput.author ui = "" → UserInput.isbn ui = "" →
       UserInput.publisher ui = "" → UserInput.publication_year ui = "" →
       (UserInput.oclc_number ui = None ∨ UserInput.oclc_number ui = Some "") →
       rm = {[ "title" := JStr (UserInput.title ui) ]}).
Proof.
  intros Hm.
  destruct (customize_template_returns m ui rc cd now Hm) as [out Hout].
  pose proof Hout as (m' & r0 & [= <-] & Hb & Hrm & _)%customize_template_fields.
  exists out, r0, (bibliographic_block r0 ui).
  split; [done|]. split; [done|]. split; [done|].
  unfold bibliographic_block.
  repeat split.
  - rewrite put_oclc_lookup_ne by done.
    rewrite !put_if_nonempty_lookup. simpl. by rewrite lookup_insert_eq.
  - rewrite put_oclc_lookup_ne by done.
    rewrite !put_if_nonempty_lookup. simpl.
    by rewrite lookup_insert_ne.
  - rewrite put_oclc_lookup_ne by done.
    rewrite !put_if_nonempty_lookup. simpl.
    by rewrite lookup_insert_ne.
  - rewrite put_oclc_lookup_ne by done.
    rewrite !put_if_nonempty_lookup. simpl.
    by rewrite lookup_insert_ne.
  - rewrite put_oclc_lookup_ne by done.
    rewrite !put_if_nonempty_lookup. simpl.
    by rewrite lookup_insert_ne.
  - intros Hr0 -> -> -> -> Hoclc.
    rewrite !put_if_nonempty_empty.
    assert (put_oclc (UserInput.oclc_number ui)
              (<["title" := JStr (UserInput.title ui)]> r0)
            = <["title" := JStr (UserInput.title ui)]> r0) as ->.
    { by destruct Hoclc as [-> | ->]. }
    apply map_eq. intros k. destruct (decide (k = "title")) as [->|Hk].
    + by rewrite lookup_insert_eq, lookup_singleton_eq.
    + rewrite lookup_insert_ne, lookup_singleton_ne by done. by apply Hr0.
Qed.

Lemma bibliographic_block_fields_witness :
  ∃ out,
    customize_template (JObj Sample.template) Sample.user_input "Display"
      ConditionalData.empty Sample.now = Ok out
    ∧ out !! "resource_metadata"
      = Some (JObj {[ "title" := JStr "Learning Go: An Introduction!!" ]}).
Proof.
  destruct (bibliographic_block_fields Sample.template Sample.user_input
              "Display" ConditionalData.empty Sample.now eq_refl)
    as (out & r0 & rm & Hout & Hb & Hrm & _ & _ & _ & _ & _ & Honly).
  exists out. split; [exact Hout|]. clear Hout.
  injection Hb as <-. rewrite Hrm.
  f_equal. f_equal. apply Honly;
    [intros k _; apply lookup_empty | reflexivity.. | left; reflexivity].
Defined.

(** ** Interested user *)

(** C5: on a template it accepts the merge returns a record in which,
    with interested-user data, [interested_user] is a list of one object:
    the user id under [primary_id], the two answers under
    [notify_receiving_activation] and [hold_item], and [notify_renewal]
    and [notify_cancel] both false; without that data the field is
    missing from the record, whatever the template had there. *)
Theorem interested_user_field
    (m : gmap string json) (ui : UserInput.t) (rc : string)
    (cd : ConditionalData.t) (now : Clock.datetime) :
  mergeable m ui now = true →
  ∃ out,
    customize_template (JObj m) ui rc cd now = Ok out
    ∧ match ConditionalData.interested_user cd with
      | Some user_info =>
          ∃ o, out !! "interested_user" = Some (JList [JObj o])
               ∧ o !! "primary_id"
                 = Some (JStr (InterestedUser.user_id user_info))
               ∧ o !! "notify_receiving_activation"
                 = Some (JBool (InterestedUser.notify user_info))
               ∧ o !! "hold_item" = Some (JBool (InterestedUser.hold user_info))
               ∧ o !! "notify_renewal" = Some (JBool false)
               ∧ o !! "notify_cancel" = Some (JBool false)
               ∧ size o = 5%nat
      | None => out !! "interested_user" = None
      end.
Proof.
  intros Hm.
  destruct (customize_template_returns m ui rc cd now Hm) as [out Hout].
  exists out. split; [done|].
  apply customize_template_fields in Hout
    as (m' & r0 & [= <-] & _ & _ & _ & _ & _ & _ & _ & Hiu).
  destruct (ConditionalData.interested_user cd) as [u|]; [|done].
  exists {[ "primary_id" := JStr (InterestedUser.user_id u);
            "notify_receiving_activation" := JBool (InterestedUser.notify u);
            "hold_item" := JBool (InterestedUser.hold u);
            "notify_renewal" := JBool false;
            "notify_cancel" := JBool false ]}.
  split; [exact Hiu|]. clear Hiu.
  repeat split; by simplify_map_eq.
Qed.

Lemma interested_user_field_witness :
  (∃ out,
     customize_template (JObj Sample.template) Sample.user_input "Interested User"
       {| ConditionalData.interested_user := Some Sample.interested;
          ConditionalData.additional_notes := None;
          ConditionalData.reserve_note := None |} Sample.now = Ok out
     ∧ ∃ o, out !! "interested_user" = Some (JList [JObj o])
            ∧ o !! "primary_id" = Some (JStr "123456789")
            ∧ o !! "notify_renewal" = Some (JBool false))
  ∧ (∃ out,
       customize_template (JObj Sample.template) Sample.user_input "Display"
         ConditionalData.empty Sample.now = Ok out
       ∧ is_Some (Sample.template !! "interested_user")
       ∧ out !! "interested_user" = None).
Proof.
  split.
  - destruct (interested_user_field Sample.template Sample.user_input
                "Interested User"
                {| ConditionalData.interested_user := Some Sample.interested;
                   ConditionalData.additional_notes := None;
                   ConditionalData.reserve_note := None |} Sample.now eq_refl)
      as (out & Hout & o & Ho & Hid & _ & _ & Hren & _).
    exists out. split; [exact Hout|].
    exists o. split; [exact Ho|]. split; [exact Hid | exact Hren].
  - destruct (interested_user_field Sample.template Sample.user_input
                "Display" ConditionalData.empty Sample.now eq_refl)
      as (out & Hout & Hnone).
    exists out. split; [exact Hout|]. clear Hout.
    split; [eexists; reflexivity | exact Hnone].
Defined.

(** ** Fund distribution *)

Lemma mergeable_without_fund_distribution m ui now :
  mergeable m ui now = true →
  mergeable (delete "fund_distribution" m) ui now = true.
Proof.
  intros (Hv & Hb & _ & Hloc & Href & Hd)%mergeable_true.
  apply mergeable_true. unfold template_block in *.
  rewrite lookup_delete_eq, !lookup_delete_ne by done. done.
Qed.

(** C6: when a template that the merge accepts has a non-empty
    [fund_distribution] list, the merge writes into its first element an
    [amount] equal to the [price] object and leaves that element's other
    fields and all later elements as they were; when the template has no
    [fund_distribution], none is created, and taking the field away from
    a template that merges never makes the merge fail. *)
Theorem fund_distribution_first_amount
    (m : gmap string json) (ui : UserInput.t) (rc : string)
    (cd : ConditionalData.t) (now : Clock.datetime) :
  mergeable m ui now = true →
  ∃ out,
    customize_template (JObj m) ui rc cd now = Ok out
    ∧ (∀ first rest,
         m !! "fund_distribution" = Some (JList (first :: rest)) →
         ∃ o a,
           first = JObj o
           ∧ out !! "price" = Some a
           ∧ a = amount_object (format_price (UserInput.price ui))
           ∧ out !! "fund_distribution"
             = Some (JList (JObj (<["amount" := a]> o) :: rest)))
    ∧ (m !! "fund_distribution" = None → out !! "fund_distribution" = None)
    ∧ (∃ out',
         customize_template (JObj (delete "fund_distribution" m)) ui rc cd now
         = Ok out'
         ∧ out' !! "fund_distribution" = None).
Proof.
  intros Hm.
  destruct (customize_template_returns m ui rc cd now Hm) as [out Hout].
  exists out. split; [done|].
  apply customize_template_fields in Hout
    as (m' & r0 & [= <-] & _ & _ & Hprice & Hfd & Hok & _).
  split; [|split].
  - intros first rest Hl. rewrite Hl in Hfd, Hok.
    destruct first as [| | | | | |o]; try discriminate.
    exists o, (amount_object (format_price (UserInput.price ui))). done.
  - intros Hnone. by rewrite Hfd, Hnone.
  - apply mergeable_without_fund_distribution in Hm.
    destruct (customize_template_returns _ ui rc cd now Hm) as [out' Hout'].
    exists out'. split; [done|].
    apply customize_template_fields in Hout'
      as (m' & r0' & [= <-] & _ & _ & _ & Hfd' & _).
    by rewrite Hfd', lookup_delete_eq.
Qed.

Lemma fund_distribution_first_amount_witness :
  ∃ out o a,
    customize_template (JObj Sample.template) Sample.user_input "Display"
      ConditionalData.empty Sample.now = Ok out
    ∧ o = {[ "fund_code" := JObj {[ "value" := JStr "books" ]} ]}
    ∧ a = amount_object "25.00"
    ∧ out !! "price" = Some a
    ∧ out !! "fund_distribution"
      = Some (JList [JObj (<["amount" := a]> o);
                     JObj {[ "fund_code" := JObj {[ "value" := JStr "gifts" ]} ]}]).
Proof.
  destruct (fund_distribution_first_amount Sample.template Sample.user_input
              "Display" ConditionalData.empty Sample.now eq_refl)
    as (out & Hout & Hfirst & _).
  destruct (Hfirst
              (JObj {[ "fund_code" := JObj {[ "value" := JStr "books" ]} ]})
              [JObj {[ "fund_code" := JObj {[ "value" := JStr "gifts" ]} ]}]
              eq_refl)
    as (o & a & Ho & Hp & Ha & Hfd).
  exists out, o, a. split; [exact Hout|]. clear Hout Hfirst.
  injection Ho as <-.
  split; [reflexivity|]. split; [rewrite Ha; vm_compute; reflexivity|].
  split; [exact Hp | exact Hfd].
Defined.

(** ** The conventional paths of a template *)

Lemma template_without_vendor m ui rc cd now :
  m !! "vendor" = None →
  customize_template (JObj m) ui rc cd now = Raise (KeyError (KStr "vendor")).
Proof.
  intros Hv. unfold customize_template, template_copy, pop_default, deep_copy.
  monad_simpl. unfold vendor_information.
  rewrite setitem2_missing; [done|].
  by rewrite !lookup_delete_ne.
Qed.

(** Of the conventional paths only the vendor mapping has to be there:
    a template that holds nothing else merges. *)
Lemma template_with_vendor_only v ui rc cd now :
  is_Some (UserInput.vendor_reference_number ui) →
  is_ok (Clock.add_days 30 now) = true →
  ∃ out, customize_template (JObj {[ "vendor" := JObj v ]}) ui rc cd now = Ok out.
Proof.
  intros Href Hd. apply customize_template_returns, mergeable_true.
  apply is_ok_true in Hd. unfold template_block.
  rewrite lookup_singleton_eq, !lookup_singleton_ne by done.
  repeat split; eauto.
Qed.

(** C7, evaluated where it fails: a template without the [vendor]
    mapping, here one that lacks every conventional path, does not merge;
    the merge raises [KeyError: 'vendor'], whatever the user entered. *)
Theorem vendor_path_is_required
    (ui : UserInput.t) (rc : string) (cd : ConditionalData.t)
    (now : Clock.datetime) :
  customize_template (JObj ∅) ui rc cd now = Raise (KeyError (KStr "vendor"))
  ∧ customize_template
      (JObj {[ "vendor_account" := JStr "acct";
               "material_type" := JObj {[ "value" := JStr "BOOK" ]};
               "fund_distribution" := JList [JObj ∅];
               "location" := JList [JObj ∅] ]}) ui rc cd now
    = Raise (KeyError (KStr "vendor")).
Proof.
  split; apply template_without_vendor; reflexivity.
Qed.

(** ** File name *)

Lemma take_length n s : (String.length (PyStr.take n s) <= n)%nat.
Proof.
  revert s. induction n as [|n IH]; intros [|c s]; simpl; try lia.
  specialize (IH s). lia.
Qed.

Lemma forallb_take p n s :
  PyStr.forallb p s = true → PyStr.forallb p (PyStr.take n s) = true.
Proof.
  revert s. induction n as [|n IH]; intros [|c s]; simpl; try done.
  intros [Hc Hs]%andb_true_iff. by rewrite Hc, IH.
Qed.

Lemma forallb_keep_chars (p q : ascii → bool) s :
  (∀ c, q c = true → p c = true) →
  PyStr.forallb p (PyStr.keep_chars q s) = true.
Proof.
  intros Hpq. induction s as [|c s IH]; simpl; [done|].
  destruct (q c) eqn:Hq; simpl; [|done].
  by rewrite (Hpq c Hq), IH.
Qed.

Lemma forallb_lstrip p s :
  PyStr.forallb p s = true → PyStr.forallb p (PyStr.lstrip s) = true.
Proof.
  induction s as [|c s IH]; simpl; [done|].
  intros H. destruct (PyStr.isspace c); [|done].
  apply andb_true_iff in H as [_ H]. auto.
Qed.

Lemma forallb_rstrip p s :
  PyStr.forallb p s = true → PyStr.forallb p (PyStr.rstrip s) = true.
Proof.
  induction s as [|c s IH]; simpl; [done|].
  intros [Hc Hs]%andb_true_iff. specialize (IH Hs).
  destruct (PyStr.rstrip s) as [|c' s'].
  - destruct (PyStr.isspace c); simpl; [done | by rewrite Hc].
  - change (PyStr.forallb p (String c (String c' s')))
      with (p c && PyStr.forallb p (String c' s')).
    by rewrite Hc, IH.
Qed.

Lemma forallb_strip p s :
  PyStr.forallb p s = true → PyStr.forallb p (PyStr.strip s) = true.
Proof. intros H. by apply forallb_rstrip, forallb_lstrip. Qed.

(** After the runs of white space have become underscores, what remains
    of a cleaned title is word characters and hyphens. *)
Lemma forallb_collapse_spaces in_run s :
  PyStr.forallb keep_title s = true →
  PyStr.forallb keep_vendor_ref (PyStr.collapse_spaces "_" in_run s) = true.
Proof.
  revert in_run. induction s as [|c s IH]; intros in_run; simpl; [done|].
  intros [Hc Hs]%andb_true_iff.
  destruct (PyStr.isspace c) eqn:Hsp.
  - destruct in_run; [by apply IH|].
    change (PyStr.forallb keep_vendor_ref
              (String "_" (PyStr.collapse_spaces "_" true s)) = true).
    simpl. by apply IH.
  - simpl. rewrite IH by done.
    unfold keep_title in Hc. unfold keep_vendor_ref.
    rewrite Hsp, orb_false_r in Hc. by rewrite Hc.
Qed.

Lemma clean_title_safe title :
  (String.length (clean_title title) <= 30)%nat
  ∧ PyStr.forallb keep_vendor_ref (clean_title title) = true.
Proof.
  unfold clean_title. split; [apply take_length|].
  apply forallb_take, forallb_collapse_spaces, forallb_strip.
  by apply forallb_keep_chars.
Qed.

Lemma clean_vendor_ref_safe ui :
  (String.length (clean_vendor_ref ui) <= 15)%nat
  ∧ PyStr.forallb keep_vendor_ref (clean_vendor_ref ui) = true.
Proof.
  unfold clean_vendor_ref. split; [apply take_length|].
  by apply forallb_take, forallb_keep_chars.
Qed.

Lemma dec_year_checked :
  forallb (λ y, four_digits (PyFloat.dec y)) (seqZ 1000 9000) = true.
Proof. vm_compute. reflexivity. Qed.

Lemma dec_year y : 1000 <= y <= 9999 → four_digits (PyFloat.dec y) = true.
Proof.
  intros Hy. pose proof dec_year_checked as H.
  rewrite forallb_forall in H. apply H.
  apply list_elem_of_In, elem_of_seqZ. lia.
Qed.

Lemma pad2_checked :
  forallb (λ z, two_digits (Clock.pad2 z)) (seqZ 0 100) = true.
Proof. vm_compute. reflexivity. Qed.

Lemma pad2_digits z : 0 <= z <= 99 → two_digits (Clock.pad2 z) = true.
Proof.
  intros Hz. pose proof pad2_checked as H.
  rewrite forallb_forall in H. apply H.
  apply list_elem_of_In, elem_of_seqZ. lia.
Qed.

Lemma strftime_stamp_shape now :
  clock_ok now → is_stamp (Clock.strftime_stamp now) = true.
Proof.
  intros (Hy & Hmo & Hd & Hh & Hmi & Hs).
  unfold Clock.strftime_stamp.
  pose proof (dec_year (Clock.year now) Hy) as Y.
  pose proof (pad2_digits (Clock.month now) ltac:(lia)) as Mo.
  pose proof (pad2_digits (Clock.day now) ltac:(lia)) as D.
  pose proof (pad2_digits (Clock.hour now) ltac:(lia)) as H.
  pose proof (pad2_digits (Clock.minute now) ltac:(lia)) as Mi.
  pose proof (pad2_digits (Clock.second now) ltac:(lia)) as S.
  destruct (PyFloat.dec (Clock.year now)) as [|y1 [|y2 [|y3 [|y4 [|]]]]];
    try discriminate.
  destruct (Clock.pad2 (Clock.month now)) as [|a1 [|a2 [|]]]; try discriminate.
  destruct (Clock.pad2 (Clock.day now)) as [|b1 [|b2 [|]]]; try discriminate.
  destruct (Clock.pad2 (Clock.hour now)) as [|c1 [|c2 [|]]]; try discriminate.
  destruct (Clock.pad2 (Clock.minute now)) as [|d1 [|d2 [|]]]; try discriminate.
  destruct (Clock.pad2 (Clock.second now)) as [|e1 [|e2 [|]]]; try discriminate.
  simpl in *.
  repeat match goal with
         | H : _ && _ = true |- _ => apply andb_true_iff in H as [? ?]
         end.
  cbn. repeat match goal with H : _ = true |- _ => rewrite H; clear H end.
  reflexivity.
Qed.

(** C8, as the specification words it, fails on a hyphenated title: the
    hyphen is not a word character, yet the file name keeps it. *)
Lemma generate_filename_hyphen_counterexample :
  clean_title "Learning-Go" = "Learning-Go"
  ∧ spec_title_part "Learning-Go" = "LearningGo"
  ∧ generate_filename Sample.hyphen_title_input Sample.now
    = "generic_Learning-Go_INV-2024001_20241215_090559.json"
  ∧ generate_filename Sample.hyphen_title_input Sample.now
    ≠ "generic_" +:+ spec_title_part "Learning-Go"
        +:+ "_INV-2024001_20241215_090559.json".
Proof.
  split; [reflexivity|]. split; [reflexivity|]. split; [reflexivity|].
  intros H. vm_compute in H. discriminate H.
Qed.

(** C8, amended: the file name is [generic_], the title part, [_], the
    vendor-reference part, [_], a time stamp [YYYYMMDD_HHMMSS] and
    [.json]. The title part is the title without the characters that are
    neither word characters, white space nor hyphens, then stripped of
    surrounding white space, with each run of white space turned into one
    underscore, cut to 30 characters; the vendor-reference part is the
    reference without the characters that are neither word characters nor
    hyphens, cut to 15 characters, and it is made from "noref" when the
    input has no vendor-reference entry. Both parts hold only word
    characters and hyphens. *)
Theorem generate_filename_pattern (ui : UserInput.t) (now : Clock.datetime) :
  clock_ok now →
  ∃ title_part ref_part stamp,
    generate_filename ui now
    = "generic_" +:+ title_part +:+ "_" +:+ ref_part +:+ "_" +:+ stamp +:+ ".json"
    ∧ title_part
      = PyStr.take 30
          (PyStr.collapse_spaces "_" false
             (PyStr.strip (PyStr.keep_chars keep_title (UserInput.title ui))))
    ∧ (String.length title_part <= 30)%nat
    ∧ PyStr.forallb (λ c, PyStr.isword c || PyStr.is_hyphen c) title_part = true
    ∧ ref_part
      = PyStr.take 15
          (PyStr.keep_chars (λ c, PyStr.isword c || PyStr.is_hyphen c)
             (default "noref" (UserInput.vendor_reference_number ui)))
    ∧ (String.length ref_part <= 15)%nat
    ∧ PyStr.forallb (λ c, PyStr.isword c || PyStr.is_hyphen c) ref_part = true
    ∧ (UserInput.vendor_reference_number ui = None → ref_part = "noref")
    ∧ is_stamp stamp = true.
Proof.
  intros Hnow.
  exists (clean_title (UserInput.title ui)), (clean_vendor_ref ui),
         (Clock.strftime_stamp now).
  destruct (clean_title_safe (UserInput.title ui)) as [Ht1 Ht2].
  destruct (clean_vendor_ref_safe ui) as [Hr1 Hr2].
  split; [done|]. split; [done|]. split; [done|]. split; [done|].
  split; [unfold clean_vendor_ref;
          by destruct (UserInput.vendor_reference_number ui)|].
  split; [done|]. split; [done|].
  split; [unfold clean_vendor_ref; by intros ->|].
  by apply strftime_stamp_shape.
Qed.

Lemma generate_filename_pattern_witness :
  ∃ title_part ref_part stamp,
    generate_filename Sample.no_reference_input Sample.now
    = "generic_" +:+ title_part +:+ "_" +:+ ref_part +:+ "_" +:+ stamp +:+ ".json"
    ∧ title_part = "Learning_Go_An_Introduction"
    ∧ ref_part = "noref"
    ∧ is_stamp stamp = true.
Proof.
  assert (clock_ok Sample.now) as Hnow by (unfold clock_ok; simpl; lia).
  destruct (generate_filename_pattern Sample.no_reference_input Sample.now Hnow)
    as (tp & rp & st & Hf & Ht & _ & _ & _ & _ & _ & Hr & Hs).
  exists tp, rp, st. split; [exact Hf|]. split; [|split].
  - rewrite Ht. reflexivity.
  - apply Hr. reflexivity.
  - exact Hs.
Defined.

(** ** Price *)

Lemma round_half_even_nonneg n d : 0 <= n → 0 < d → 0 <= PyFloat.round_half_even n d.
Proof.
  intros Hn Hd. unfold PyFloat.round_half_even.
  assert (0 <= n / d) by (apply Z.div_pos; lia).
  destruct (2 * (n mod d) ?= d); [destruct (Z.even (n / d))|..]; lia.
Qed.

(** The rounded quotient is within half a unit of [n / d]. *)
Lemma round_half_even_error n d :
  0 < d → Z.abs (2 * (PyFloat.round_half_even n d * d - n)) <= d.
Proof.
  intros Hd. unfold PyFloat.round_half_even. cbv zeta.
  pose proof (Z.div_mod n d ltac:(lia)) as Hdm.
  pose proof (Z.mod_pos_bound n d Hd) as Hr.
  set (q := n / d) in *. set (r := n mod d) in *. clearbody q r.
  assert (q * d - n = - r) as Hq by lia.
  assert ((q + 1) * d - n = d - r) as Hq1 by lia.
  destruct (Z.compare_spec (2 * r) d) as [Hc|Hc|Hc].
  - destruct (Z.even q); rewrite ?Hq, ?Hq1; lia.
  - rewrite Hq. lia.
  - rewrite Hq1. lia.
Qed.

Lemma hundredths_nonneg m e : 0 <= m → 0 <= PyFloat.hundredths m e.
Proof.
  intros Hm. unfold PyFloat.hundredths. destruct (0 <=? e) eqn:He.
  - apply Z.leb_le in He. pose proof (Z.pow_nonneg 2 e ltac:(lia)). nia.
  - apply Z.leb_gt in He. apply round_half_even_nonneg; [lia|].
    apply Z.pow_pos_nonneg; lia.
Qed.

(** The hundredths are those of the binary value [m * 2^e], rounded to
    nearest. *)
Lemma hundredths_nearest m e :
  (0 <= e → PyFloat.hundredths m e = m * 2 ^ e * 100)
  ∧ (e < 0 →
     Z.abs (2 * (PyFloat.hundredths m e * 2 ^ (- e) - m * 100)) <= 2 ^ (- e)).
Proof.
  unfold PyFloat.hundredths. split; intros He.
  - by rewrite (proj2 (Z.leb_le 0 e) He).
  - rewrite (proj2 (Z.leb_gt 0 e) He).
    apply round_half_even_error, Z.pow_pos_nonneg; lia.
Qed.

Lemma forallb_app p (a b : string) :
  PyStr.forallb p (a +:+ b) = PyStr.forallb p a && PyStr.forallb p b.
Proof.
  induction a as [|c a IH]; simpl; [done|].
  by rewrite IH, andb_assoc.
Qed.

Lemma between_spec lo hi c :
  PyStr.between lo hi c = true ↔ (lo <= PyStr.code c <= hi)%N.
Proof.
  unfold PyStr.between. rewrite andb_true_iff, !N.leb_le. tauto.
Qed.

Lemma digit_value_range c :
  PyStr.isdigit_ascii c = true → 0 <= PyFloat.digit_value c <= 9.
Proof.
  unfold PyStr.isdigit_ascii, PyFloat.digit_value.
  intros H%between_spec. lia.
Qed.

Lemma digits_value_nonneg acc ds :
  0 <= acc → PyStr.forallb PyStr.isdigit_ascii ds = true →
  0 <= PyFloat.digits_value acc ds.
Proof.
  revert acc. induction ds as [|c ds IH]; intros acc Hacc; simpl; [done|].
  intros [Hc Hds]%andb_true_iff. apply IH; [|done].
  pose proof (digit_value_range c Hc). lia.
Qed.

Lemma span_digits_digits s :
  PyStr.forallb PyStr.isdigit_ascii (PyFloat.span_digits s).1 = true.
Proof.
  induction s as [|c s IH]; simpl; [done|].
  destruct (PyStr.isdigit_ascii c) eqn:Hc; [|done].
  destruct (PyFloat.span_digits s) as [ds rest]. simpl in *.
  by rewrite Hc, IH.
Qed.

Lemma of_ratio_nonneg neg n d neg' m e :
  0 <= n → 0 < d → PyFloat.of_ratio neg n d = PyFloat.Finite neg' m e → 0 <= m.
Proof.
  intros Hn Hd. unfold PyFloat.of_ratio.
  destruct (n =? 0); [by intros [= _ <- _]|]. cbv zeta.
  set (ex := Z.max _ _).
  destruct (0 <=? ex) eqn:He.
  - apply Z.leb_le in He.
    destruct (_ && _); [discriminate|]. intros [= _ <- _].
    apply round_half_even_nonneg; [done|].
    pose proof (Z.pow_pos_nonneg 2 ex ltac:(lia) He). nia.
  - apply Z.leb_gt in He.
    destruct (_ && _); [discriminate|]. intros [= _ <- _].
    apply round_half_even_nonneg; [|done].
    pose proof (Z.pow_pos_nonneg 2 (- ex) ltac:(lia) ltac:(lia)). nia.
Qed.

Lemma read_decimal_nonneg s neg m e :
  PyFloat.read_decimal s = Some (PyFloat.Finite neg m e) → 0 <= m.
Proof.
  unfold PyFloat.read_decimal.
  destruct (PyFloat.read_sign s) as [sg r0].
  pose proof (span_digits_digits r0) as Hip.
  destruct (PyFloat.span_digits r0) as [ip r1]. simpl in Hip.
  set (fr := match r1 with
             | String "." r => PyFloat.span_digits r
             | _ => (EmptyString, r1)
             end).
  assert (PyStr.forallb PyStr.isdigit_ascii fr.1 = true) as Hfp.
  { subst fr. destruct r1 as [|c r]; [done|].
    destruct (Ascii.ascii_dec c ".") as [->|Hc].
    - apply span_digits_digits.
    - destruct c as [[] [] [] [] [] [] [] []]; try done. }
  destruct fr as [fp r2]. simpl in Hfp.
  destruct (_ =? _)%N; [discriminate|].
  destruct (_ || _); [discriminate|].
  destruct (PyFloat.read_exponent r2) as [ex|]; [|discriminate].
  assert (0 <= PyFloat.digits_value 0 (ip +:+ fp)) as Hmant.
  { apply digits_value_nonneg; [done|]. by rewrite forallb_app, Hip, Hfp. }
  intros [= H]. destruct (0 <=? _) eqn:Hex.
  - apply Z.leb_le in Hex. eapply of_ratio_nonneg; [| |exact H]; [|lia].
    pose proof (Z.pow_nonneg 10 (ex - Z.of_N (PyFloat.len fp)) ltac:(lia)). nia.
  - apply Z.leb_gt in Hex. eapply of_ratio_nonneg; [| |exact H]; [done|].
    apply Z.pow_pos_nonneg; lia.
Qed.

Lemma float_of_str_nonneg s neg m e :
  PyFloat.float_of_str s = Some (PyFloat.Finite neg m e) → 0 <= m.
Proof.
  unfold PyFloat.float_of_str.
  destruct (PyFloat.drop_underscores _ _) as [t|]; [|discriminate].
  destruct (PyFloat.read_decimal t) as [x|] eqn:Hd.
  - intros [= ->]. by apply read_decimal_nonneg in Hd.
  - unfold PyFloat.read_inf_nan. destruct (PyFloat.read_sign t) as [sg r].
    destruct (_ || _); [discriminate|]. destruct (bool_decide _); discriminate.
Qed.

(** *** The values [float] returns are binary64 values *)

Lemma round_half_even_upper n d K :
  0 <= n → 0 < d → n < d * K → PyFloat.round_half_even n d <= K.
Proof.
  intros Hn Hd HK. unfold PyFloat.round_half_even. cbv zeta.
  assert (n / d < K) by (apply Z.div_lt_upper_bound; lia).
  destruct (2 * (n mod d) ?= d); [destruct (Z.even (n / d))|..]; lia.
Qed.

(** [n / d] lies below [2 ^ (floor_log2_ratio n d + 1)]. *)
Lemma floor_log2_ratio_upper n d :
  0 < n → 0 < d →
  (0 <= PyFloat.floor_log2_ratio n d + 1 →
   n < d * 2 ^ (PyFloat.floor_log2_ratio n d + 1))
  ∧ (PyFloat.floor_log2_ratio n d + 1 < 0 →
     n * 2 ^ (- (PyFloat.floor_log2_ratio n d + 1)) < d).
Proof.
  intros Hn Hd. unfold PyFloat.floor_log2_ratio. cbv zeta.
  pose proof (Z.log2_spec n Hn) as [_ Hn2].
  pose proof (Z.log2_spec d Hd) as [Hd1 _].
  pose proof (Z.log2_nonneg n) as Ln. pose proof (Z.log2_nonneg d) as Ld.
  set (a := Z.log2 n) in *. set (b := Z.log2 d) in *. clearbody a b.
  rewrite Z.pow_succ_r in Hn2 by lia.
  assert (0 < 2 ^ a) as Pa by (apply Z.pow_pos_nonneg; lia).
  assert (0 < 2 ^ b) as Pb by (apply Z.pow_pos_nonneg; lia).
  (* n < 2 * 2^a and 2^b <= d *)
  destruct (Z.leb_spec 0 (a - b)) as [Hl|Hl].
  - assert (2 ^ a = 2 ^ b * 2 ^ (a - b)) as Hab
      by (rewrite <- Z.pow_add_r by lia; f_equal; lia).
    assert (0 < 2 ^ (a - b)) as Pab by (apply Z.pow_pos_nonneg; lia).
    destruct (Z.leb_spec (d * 2 ^ (a - b)) n) as [Hbelow|Hbelow].
    + split; [intros _|lia].
      rewrite Z.pow_add_r by lia. change (2 ^ 1) with 2. nia.
    + split; [intros _|lia].
      replace (a - b - 1 + 1) with (a - b) by lia. lia.
  - assert (2 ^ b = 2 ^ a * 2 ^ (- (a - b))) as Hab
      by (rewrite <- Z.pow_add_r by lia; f_equal; lia).
    assert (0 < 2 ^ (- (a - b))) as Pab by (apply Z.pow_pos_nonneg; lia).
    assert (2 ^ (- (a - b)) = 2 * 2 ^ (- (a - b + 1))) as Hstep.
    { rewrite <- Z.pow_succ_r by lia. f_equal. lia. }
    destruct (Z.leb_spec d (n * 2 ^ (- (a - b)))) as [Hbelow|Hbelow].
    + split.
      * intros H0. assert (a - b = -1) as Hm1 by lia.
        rewrite Hm1 in *. simpl in *. nia.
      * intros _. assert (0 < 2 ^ (- (a - b + 1)))
          by (apply Z.pow_pos_nonneg; lia). nia.
    + split; [lia|]. intros _.
      replace (- (a - b - 1 + 1)) with (- (a - b)) by lia. lia.
Qed.

(** What [of_ratio] returns has at most 53 significant bits and an
    exponent of [-1074] or more, lies below [2^1024], and is within half
    a unit in the last place of [n / d]. *)
Lemma of_ratio_binary64 neg n d neg' m e :
  0 < n → 0 < d →
  PyFloat.of_ratio neg n d = PyFloat.Finite neg' m e →
  neg' = neg ∧ 0 <= m <= 2 ^ 53 ∧ -1074 <= e ∧ (0 < m → Z.log2 m + e < 1024)
  ∧ (0 <= e → Z.abs (2 * (m * (d * 2 ^ e) - n)) <= d * 2 ^ e)
  ∧ (e < 0 → Z.abs (2 * (m * d - n * 2 ^ (- e))) <= d).
Proof.
  intros Hn Hd. unfold PyFloat.of_ratio.
  rewrite (proj2 (Z.eqb_neq n 0)) by lia. cbv zeta.
  destruct (floor_log2_ratio_upper n d Hn Hd) as [Hup1 Hup2].
  set (fl := PyFloat.floor_log2_ratio n d) in *. clearbody fl.
  set (ex := Z.max (fl - 52) (-1074)).
  assert (fl - 52 <= ex ∧ -1074 <= ex ∧ (ex = fl - 52 ∨ ex = -1074))
    as (Hex1 & Hex2 & Hex3) by lia.
  clearbody ex.
  destruct (Z.leb_spec 0 ex) as [He|He].
  - assert (0 < 2 ^ ex) as Pe by (apply Z.pow_pos_nonneg; lia).
    destruct (_ && _) eqn:Hov; [discriminate|]. intros [= <- <- <-].
    pose proof (round_half_even_error n (d * 2 ^ ex) ltac:(nia)) as Herr.
    pose proof (round_half_even_nonneg n (d * 2 ^ ex) ltac:(lia) ltac:(nia)).
    assert (PyFloat.round_half_even n (d * 2 ^ ex) <= 2 ^ 53) as Hm.
    { apply round_half_even_upper; [lia|nia|].
      assert (2 ^ (fl + 1) <= 2 ^ ex * 2 ^ 53).
      { rewrite <- Z.pow_add_r by lia. apply Z.pow_le_mono_r; lia. }
      specialize (Hup1 ltac:(lia)). nia. }
    split; [done|]. split; [lia|]. split; [done|].
    split; [|split; [done|lia]].
    intros Hpos. apply andb_false_iff in Hov as [Hov|Hov].
    + apply Z.ltb_ge in Hov. lia.
    + by apply Z.leb_gt in Hov.
  - assert (0 < 2 ^ (- ex)) as Pe by (apply Z.pow_pos_nonneg; lia).
    destruct (_ && _) eqn:Hov; [discriminate|]. intros [= <- <- <-].
    pose proof (round_half_even_error (n * 2 ^ (- ex)) d Hd) as Herr.
    pose proof (round_half_even_nonneg (n * 2 ^ (- ex)) d ltac:(nia) Hd).
    assert (PyFloat.round_half_even (n * 2 ^ (- ex)) d <= 2 ^ 53) as Hm.
    { apply round_half_even_upper; [nia|done|].
      destruct (Z.le_gt_cases 0 (fl + 1)) as [Hfl|Hfl].
      - specialize (Hup1 Hfl).
        assert (2 ^ (fl + 1) * 2 ^ (- ex) <= 2 ^ 53).
        { rewrite <- Z.pow_add_r by lia. apply Z.pow_le_mono_r; lia. }
        assert (0 < 2 ^ (fl + 1)) by (apply Z.pow_pos_nonneg; lia). nia.
      - specialize (Hup2 ltac:(lia)).
        assert (2 ^ (- ex) <= 2 ^ 53 * 2 ^ (- (fl + 1))).
        { rewrite <- Z.pow_add_r by lia. apply Z.pow_le_mono_r; lia. }
        assert (0 < 2 ^ (- (fl + 1))) by (apply Z.pow_pos_nonneg; lia). nia. }
    split; [done|]. split; [lia|]. split; [done|].
    split; [|split; [lia|done]].
    intros Hpos. apply andb_false_iff in Hov as [Hov|Hov].
    + apply Z.ltb_ge in Hov. lia.
    + by apply Z.leb_gt in Hov.
Qed.

(** *** The shape of a formatted price *)

Lemma string_of_uint_digits u :
  PyStr.forallb PyStr.isdigit_ascii (NilEmpty.string_of_uint u) = true.
Proof. induction u; simpl; done. Qed.

Lemma dec_digits z :
  ∃ c r, PyFloat.dec z = String c r
         ∧ PyStr.isdigit_ascii c = true
         ∧ PyStr.forallb PyStr.isdigit_ascii r = true.
Proof.
  unfold PyFloat.dec, NilZero.string_of_uint.
  pose proof (string_of_uint_digits (N.to_uint (Z.to_N z))) as H.
  destruct (N.to_uint (Z.to_N z)); simpl in *;
    eexists _, _; (split; [reflexivity|]); split; done.
Qed.

Lemma digit_char_digit z :
  0 <= z <= 9 → PyStr.isdigit_ascii (PyFloat.digit_char z) = true.
Proof.
  intros Hz.
  assert (z = 0 ∨ z = 1 ∨ z = 2 ∨ z = 3 ∨ z = 4 ∨ z = 5 ∨ z = 6 ∨ z = 7
          ∨ z = 8 ∨ z = 9) as H by lia.
  repeat destruct H as [->|H]; try subst z; reflexivity.
Qed.

Lemma digits_point_two_app seen ip a b :
  PyStr.forallb PyStr.isdigit_ascii ip = true →
  PyStr.isdigit_ascii a = true → PyStr.isdigit_ascii b = true →
  digits_point_two seen (ip +:+ String "." (String a (String b EmptyString)))
  = seen || PyStr.nonempty ip.
Proof.
  intros Hip Ha Hb. revert seen.
  induction ip as [|c ip IH]; intros seen.
  - change (digits_point_two seen (String "." (String a (String b EmptyString)))
            = seen || false).
    simpl. rewrite Ha, Hb. by destruct seen.
  - simpl in Hip. apply andb_true_iff in Hip as [Hc Hip].
    change (digits_point_two seen
              (String c (ip +:+ String "." (String a (String b EmptyString))))
            = seen || true).
    simpl. rewrite Hc, (IH Hip). by rewrite orb_true_r.
Qed.

Lemma two_decimals_digit_first c r :
  PyStr.isdigit_ascii c = true →
  two_decimals (String c r) = digits_point_two false (String c r).
Proof. destruct c as [[] [] [] [] [] [] [] []]; done. Qed.

Lemma fixed2_two_decimals q :
  ∃ c r, PyFloat.fixed2 q = String c r
         ∧ PyStr.isdigit_ascii c = true
         ∧ digits_point_two false (PyFloat.fixed2 q) = true.
Proof.
  unfold PyFloat.fixed2.
  destruct (dec_digits (q / 100)) as (c & r & Hdec & Hc & Hr).
  assert (PyStr.isdigit_ascii (PyFloat.digit_char (q mod 100 / 10)) = true) as Ha.
  { apply digit_char_digit.
    pose proof (Z.mod_pos_bound q 100 ltac:(lia)).
    split; [apply Z.div_pos; lia |].
    apply Z.lt_succ_r, Z.div_lt_upper_bound; lia. }
  assert (PyStr.isdigit_ascii (PyFloat.digit_char (q mod 10)) = true) as Hb.
  { apply digit_char_digit. pose proof (Z.mod_pos_bound q 10 ltac:(lia)). lia. }
  exists c, (r +:+ String "." (String (PyFloat.digit_char (q mod 100 / 10))
                              (String (PyFloat.digit_char (q mod 10)) EmptyString))).
  split; [by rewrite Hdec|]. split; [done|].
  change (digits_point_two false
            (PyFloat.dec (q / 100) +:+
               String "." (String (PyFloat.digit_char (q mod 100 / 10))
                              (String (PyFloat.digit_char (q mod 10)) EmptyString)))
          = true).
  rewrite digits_point_two_app; [by rewrite Hdec| |done|done].
  rewrite Hdec. simpl. by rewrite Hc, Hr.
Qed.

Lemma format_2f_two_decimals neg m e :
  two_decimals (PyFloat.format_2f (PyFloat.Finite neg m e)) = true.
Proof.
  unfold PyFloat.format_2f.
  destruct (fixed2_two_decimals (PyFloat.hundredths m e)) as (c & r & Hf & Hc & Hd).
  destruct neg.
  - exact Hd.
  - change (two_decimals (PyFloat.fixed2 (PyFloat.hundredths m e)) = true).
    rewrite Hf in *. by rewrite two_decimals_digit_first.
Qed.

(** *** Prices as people type them *)

(** The nearest integer is the only integer within less than half a unit
    of [n / d]. *)
Lemma round_half_even_unique n d k :
  0 < d → Z.abs (2 * (k * d - n)) < d → PyFloat.round_half_even n d = k.
Proof.
  intros Hd Hk. unfold PyFloat.round_half_even. cbv zeta.
  pose proof (Z.div_mod n d ltac:(lia)) as Hdm.
  pose proof (Z.mod_pos_bound n d Hd) as Hr.
  set (q := n / d) in *. set (r := n mod d) in *. clearbody q r.
  assert (k = q ∨ k = q + 1) as [-> | ->] by nia.
  - destruct (Z.compare_spec (2 * r) d); [lia | done | lia].
  - destruct (Z.compare_spec (2 * r) d); [lia | lia | done].
Qed.

Lemma floor_log2_ratio_le n d :
  PyFloat.floor_log2_ratio n d <= Z.log2 n - Z.log2 d.
Proof.
  unfold PyFloat.floor_log2_ratio. cbv zeta.
  destruct (if 0 <=? _ then _ else _); lia.
Qed.

Lemma log2_ratio_bound n d b :
  0 < n → 0 < d → 0 <= b → n < d * 2 ^ b → Z.log2 n - Z.log2 d <= b.
Proof.
  intros Hn Hd Hb Hlt.
  pose proof (Z.log2_spec n Hn) as [Hn1 _].
  pose proof (Z.log2_spec d Hd) as [_ Hd2].
  pose proof (Z.log2_nonneg n). pose proof (Z.log2_nonneg d).
  assert (2 ^ Z.log2 n < 2 ^ (Z.succ (Z.log2 d) + b)) as Hpow.
  { rewrite Z.pow_add_r by lia.
    pose proof (Z.pow_pos_nonneg 2 b ltac:(lia) Hb). nia. }
  apply Z.pow_lt_mono_r_iff in Hpow; lia.
Qed.

(** A value below [2^40] that is a whole number [k] of hundredths is read
    as a finite float and written back as [k] hundredths. *)
Lemma of_ratio_hundredths n d k :
  0 <= n → 0 < d → 100 * n = k * d → n < d * 2 ^ 40 →
  ∃ m e, PyFloat.of_ratio false n d = PyFloat.Finite false m e
         ∧ PyFloat.hundredths m e = k.
Proof.
  intros Hn Hd Hk Hlt. unfold PyFloat.of_ratio.
  destruct (Z.eqb_spec n 0) as [->|Hn0].
  { exists 0, 0. split; [done|]. unfold PyFloat.hundredths. simpl. nia. }
  cbv zeta.
  set (e := Z.max (PyFloat.floor_log2_ratio n d - 52) (-1074)).
  assert (-1074 <= e <= -12) as He.
  { pose proof (floor_log2_ratio_le n d).
    pose proof (log2_ratio_bound n d 40 ltac:(lia) Hd ltac:(lia) Hlt). lia. }
  rewrite (proj2 (Z.leb_gt 0 e)) by lia.
  set (E := 2 ^ (- e)).
  assert (4096 <= E) as HE.
  { subst E. change 4096 with (2 ^ 12). apply Z.pow_le_mono_r; lia. }
  set (m := PyFloat.round_half_even (n * E) d).
  pose proof (round_half_even_error (n * E) d Hd) as Herr. fold m in Herr.
  assert (0 <= m) as Hm by (apply round_half_even_nonneg; nia).
  assert (m < 2 ^ (41 - e)) as Hmlt.
  { replace (41 - e) with (41 + - e) by lia.
    rewrite Z.pow_add_r by lia. fold E. nia. }
  assert ((0 <? m) && (1024 <=? Z.log2 m + e) = false) as ->.
  { destruct (Z.ltb_spec 0 m) as [Hpos|]; [|done]. simpl.
    apply Z.leb_gt.
    assert (Z.log2 m < 41 - e) by (apply Z.log2_lt_pow2; lia). lia. }
  exists m, e. split; [done|].
  unfold PyFloat.hundredths. rewrite (proj2 (Z.leb_gt 0 e)) by lia. fold E.
  apply round_half_even_unique; [lia|].
  assert (Z.abs (k * E - m * 100) * d <= 50 * d) as Hd50.
  { rewrite <- (Z.abs_eq d) at 1 by lia. rewrite <- Z.abs_mul.
    replace ((k * E - m * 100) * d) with (100 * (n * E - m * d)) by nia.
    lia. }
  assert (Z.abs (k * E - m * 100) <= 50) by nia.
  lia.
Qed.

Lemma length_app (a b : string) :
  String.length (a +:+ b) = (String.length a + String.length b)%nat.
Proof. induction a as [|c a IH]; simpl; [done|]. by rewrite IH. Qed.

Lemma digits_value_bound acc ds :
  0 <= acc → PyStr.forallb PyStr.isdigit_ascii ds = true →
  PyFloat.digits_value acc ds < (acc + 1) * 10 ^ Z.of_nat (String.length ds).
Proof.
  revert acc. induction ds as [|c ds IH]; intros acc Hacc; simpl String.length.
  - intros _. simpl. lia.
  - intros [Hc Hds]%andb_true_iff. simpl PyFloat.digits_value.
    pose proof (digit_value_range c Hc) as Hv.
    specialize (IH (10 * acc + PyFloat.digit_value c) ltac:(lia) Hds).
    rewrite Nat2Z.inj_succ, Z.pow_succ_r by lia.
    pose proof (Z.pow_pos_nonneg 10 (Z.of_nat (String.length ds)) ltac:(lia) ltac:(lia)).
    nia.
Qed.

Lemma plain_char_facts c :
  plain_char c = true →
  PyFloat.to_ascii c = c ∧ PyFloat.isspace_c c = false
  ∧ PyStr.between 95 95 c = false.
Proof. destruct c as [[] [] [] [] [] [] [] []]; done. Qed.

Lemma transform_plain s :
  PyStr.forallb plain_char s = true → PyFloat.transform s = s.
Proof.
  induction s as [|c s IH]; simpl; [done|].
  intros [Hc Hs]%andb_true_iff.
  destruct (plain_char_facts c Hc) as (-> & _ & _). by rewrite IH.
Qed.

Lemma lstrip_c_plain s :
  PyStr.forallb plain_char s = true → PyFloat.lstrip_c s = s.
Proof.
  destruct s as [|c s]; simpl; [done|].
  intros [Hc Hs]%andb_true_iff.
  by destruct (plain_char_facts c Hc) as (_ & -> & _).
Qed.

Lemma rstrip_c_plain s :
  PyStr.forallb plain_char s = true → PyFloat.rstrip_c s = s.
Proof.
  induction s as [|c s IH]; simpl; [done|].
  intros [Hc Hs]%andb_true_iff. rewrite (IH Hs).
  destruct (plain_char_facts c Hc) as (_ & -> & _). by destruct s.
Qed.

Lemma drop_underscores_plain prev s :
  PyStr.between 95 95 prev = false →
  PyStr.forallb plain_char s = true →
  PyFloat.drop_underscores prev s = Some s.
Proof.
  revert prev. induction s as [|c s IH]; intros prev Hprev; simpl.
  - by rewrite Hprev.
  - intros [Hc Hs]%andb_true_iff.
    destruct (plain_char_facts c Hc) as (_ & _ & Hu).
    rewrite Hu, Hprev. simpl. by rewrite (IH c Hu Hs).
Qed.

Lemma span_digits_app ip rest :
  PyStr.forallb PyStr.isdigit_ascii ip = true →
  rest = EmptyString ∨ (∃ r, rest = String "." r) →
  PyFloat.span_digits (ip +:+ rest) = (ip, rest).
Proof.
  intros Hip Hrest. induction ip as [|c ip IH].
  - change (EmptyString +:+ rest) with rest.
    destruct Hrest as [-> | (r & ->)]; done.
  - simpl in Hip. apply andb_true_iff in Hip as [Hc Hip].
    change (String c ip +:+ rest) with (String c (ip +:+ rest)).
    simpl. by rewrite Hc, (IH Hip).
Qed.

Lemma span_digits_all fp :
  PyStr.forallb PyStr.isdigit_ascii fp = true →
  PyFloat.span_digits fp = (fp, EmptyString).
Proof.
  induction fp as [|c fp IH]; simpl; [done|].
  intros [Hc Hfp]%andb_true_iff. by rewrite Hc, (IH Hfp).
Qed.

Lemma read_sign_digit c r :
  PyStr.isdigit_ascii c = true →
  PyFloat.read_sign (String c r) = (false, String c r).
Proof. destruct c as [[] [] [] [] [] [] [] []]; done. Qed.

Lemma drop_zeros_length ds :
  (String.length (PyFloat.drop_zeros ds) <= String.length ds)%nat.
Proof.
  induction ds as [|c ds IH]; simpl; [done|].
  destruct (PyStr.between 48 48 c); simpl; lia.
Qed.

Lemma read_decimal_plain ip fp tail :
  PyStr.forallb PyStr.isdigit_ascii ip = true → ip ≠ "" →
  PyStr.forallb PyStr.isdigit_ascii fp = true →
  (String.length ip <= 12)%nat → (String.length fp <= 2)%nat →
  tail = String "." fp ∨ (tail = EmptyString ∧ fp = EmptyString) →
  PyFloat.read_decimal (ip +:+ tail) = Some (plain_value ip fp).
Proof.
  intros Hip Hne Hfp Lip Lfp Htail. unfold PyFloat.read_decimal.
  destruct ip as [|c ip']; [done|]. clear Hne.
  pose proof Hip as Hip'. simpl in Hip'. apply andb_true_iff in Hip' as [Hc _].
  change (String c ip' +:+ tail) with (String c (ip' +:+ tail)).
  rewrite (read_sign_digit c _ Hc).
  change (String c (ip' +:+ tail)) with (String c ip' +:+ tail).
  set (ip := String c ip') in *.
  rewrite (span_digits_app ip tail Hip)
    by (destruct Htail as [-> | [-> _]]; eauto).
  assert ((match tail with
           | String "." r => PyFloat.span_digits r
           | _ => (EmptyString, tail)
           end) = (fp, EmptyString)) as ->.
  { destruct Htail as [-> | [-> ->]]; [by apply span_digits_all | done]. }
  assert ((PyFloat.len ip + PyFloat.len fp =? 0)%N = false) as ->.
  { apply N.eqb_neq. unfold PyFloat.len. subst ip. simpl String.length. lia. }
  assert ((PyFloat.MAX_DIGITS <?
             match PyFloat.drop_zeros ip with
             | EmptyString => PyFloat.len (PyFloat.drop_zeros fp)
             | String a s => PyFloat.len (String a s) + PyFloat.len fp
             end)%N = false) as ->.
  { apply N.ltb_ge. unfold PyFloat.MAX_DIGITS, PyFloat.len.
    pose proof (drop_zeros_length ip). pose proof (drop_zeros_length fp).
    destruct (PyFloat.drop_zeros ip); lia. }
  assert ((PyFloat.MAX_DIGITS <? PyFloat.len fp)%N = false) as ->.
  { apply N.ltb_ge. unfold PyFloat.MAX_DIGITS, PyFloat.len. lia. }
  done.
Qed.

Lemma float_of_str_plain ip fp tail :
  PyStr.forallb PyStr.isdigit_ascii ip = true → ip ≠ "" →
  PyStr.forallb PyStr.isdigit_ascii fp = true →
  (String.length ip <= 12)%nat → (String.length fp <= 2)%nat →
  tail = String "." fp ∨ (tail = EmptyString ∧ fp = EmptyString) →
  PyFloat.float_of_str (ip +:+ tail) = Some (plain_value ip fp).
Proof.
  intros Hip Hne Hfp Lip Lfp Htail. unfold PyFloat.float_of_str.
  assert (PyStr.forallb plain_char (ip +:+ tail) = true) as Hplain.
  { rewrite forallb_app. apply andb_true_iff. split.
    - clear -Hip. induction ip as [|c ip IH]; simpl in *; [done|].
      apply andb_true_iff in Hip as [Hc Hip].
      unfold plain_char at 1. by rewrite Hc, IH.
    - destruct Htail as [-> | [-> _]]; [|done]. simpl.
      clear -Hfp. induction fp as [|c fp IH]; simpl in *; [done|].
      apply andb_true_iff in Hfp as [Hc Hfp].
      unfold plain_char at 1. by rewrite Hc, IH. }
  rewrite transform_plain, lstrip_c_plain, rstrip_c_plain by done.
  rewrite drop_underscores_plain by done.
  by rewrite (read_decimal_plain ip fp tail).
Qed.

(** A price of at most twelve digits, alone or followed by a point and at
    most two digits, comes out as the same amount with two decimals. *)
Lemma format_price_plain ip fp tail :
  PyStr.forallb PyStr.isdigit_ascii ip = true → ip ≠ "" →
  PyStr.forallb PyStr.isdigit_ascii fp = true →
  (String.length ip <= 12)%nat → (String.length fp <= 2)%nat →
  tail = String "." fp ∨ (tail = EmptyString ∧ fp = EmptyString) →
  format_price (ip +:+ tail)
  = PyFloat.fixed2 (PyFloat.digits_value 0 (ip +:+ fp)
                    * 10 ^ (2 - Z.of_nat (String.length fp))).
Proof.
  intros Hip Hne Hfp Lip Lfp Htail. unfold format_price.
  rewrite (float_of_str_plain ip fp tail) by done.
  unfold plain_value. cbv zeta.
  set (mant := PyFloat.digits_value 0 (ip +:+ fp)).
  assert (0 <= mant) as Hm0.
  { apply digits_value_nonneg; [done|]. by rewrite forallb_app, Hip, Hfp. }
  assert (mant < 10 ^ Z.of_nat (String.length ip + String.length fp)) as Hmlt.
  { pose proof (digits_value_bound 0 (ip +:+ fp) ltac:(lia)) as Hb.
    rewrite forallb_app, Hip, Hfp, length_app in Hb. specialize (Hb eq_refl).
    fold mant in Hb. lia. }
  unfold PyFloat.len. rewrite nat_N_Z.
  set (j := String.length fp) in *.
  assert (10 ^ Z.of_nat (String.length ip + j) <= 10 ^ 12 * 10 ^ Z.of_nat j) as Hpow.
  { rewrite Nat2Z.inj_add, Z.pow_add_r by lia.
    apply Z.mul_le_mono_nonneg_r; [apply Z.pow_nonneg; lia|].
    apply Z.pow_le_mono_r; lia. }
  assert (j = 0 ∨ j = 1 ∨ j = 2)%nat as Hj by lia.
  assert (∃ m e, (if 0 <=? 0 - Z.of_nat j
                  then PyFloat.of_ratio false (mant * 10 ^ (0 - Z.of_nat j)) 1
                  else PyFloat.of_ratio false mant (10 ^ (- (0 - Z.of_nat j))))
                 = PyFloat.Finite false m e
                 ∧ PyFloat.hundredths m e = mant * 10 ^ (2 - Z.of_nat j))
    as (m & e & -> & Hh).
  { destruct Hj as [-> | [-> | ->]]; simpl Z.of_nat in *; simpl Z.sub;
      simpl Z.opp; simpl Z.leb; cbv iota;
      apply of_ratio_hundredths; lia. }
  unfold PyFloat.format_2f. by rewrite Hh.
Qed.

(** *** The price of the merged record *)

Lemma with_price_is_ok m ui rc cd now p :
  is_ok (customize_template (JObj m) (with_price p ui) rc cd now)
  = is_ok (customize_template (JObj m) ui rc cd now).
Proof. by rewrite !customize_template_is_ok. Qed.

(** C2, as the specification words it, fails on the price "1e400": the
    interview accepts it, [float] reads it as a number, and the merged
    record's sum is "inf", which has no decimal places. *)
Lemma price_overflow_counterexample :
  validate_price "1e400" = Accept
  ∧ PyFloat.float_of_str "1e400" = Some (PyFloat.Inf false)
  ∧ two_decimals "inf" = false
  ∧ ∃ out,
      customize_template (JObj Sample.template)
        (with_price "1e400" Sample.user_input) "Display"
        ConditionalData.empty Sample.now = Ok out
      ∧ out !! "price"
        = Some (JObj {[ "sum" := JStr "inf";
                        "currency" := JObj {[ "value" := JStr "USD" ]} ]}).
Proof.
  split; [vm_compute; reflexivity|].
  split; [vm_compute; reflexivity|].
  split; [reflexivity|].
  destruct (customize_template_returns Sample.template
              (with_price "1e400" Sample.user_input) "Display"
              ConditionalData.empty Sample.now) as [out Hout];
    [reflexivity|].
  exists out. split; [exact Hout|].
  apply customize_template_fields in Hout
    as (m & r0 & _ & _ & _ & Hprice & _).
  rewrite Hprice. vm_compute. reflexivity.
Qed.

(** C2, amended: on a template it accepts the merge returns a record
    whose [price], when [float] reads the price string as a finite
    number, is an object whose [sum] is that binary value rounded to the
    nearest hundredth and written with exactly two decimals, and whose
    currency value is "USD"; a price of up to twelve digits, alone or
    with a point and up to two decimals, comes out as the same amount
    with two decimals, so "25" gives "25.00"; when [float] does not read
    the string, the string itself is the [sum]; and the merge returns
    whatever the price string is. *)
Theorem price_two_decimals
    (m : gmap string json) (ui : UserInput.t) (rc : string)
    (cd : ConditionalData.t) (now : Clock.datetime) :
  mergeable m ui now = true →
  ∃ out,
    customize_template (JObj m) ui rc cd now = Ok out
    ∧ (∀ neg mant e,
         PyFloat.float_of_str (UserInput.price ui)
         = Some (PyFloat.Finite neg mant e) →
         ∃ q sum,
           out !! "price"
           = Some (JObj {[ "sum" := JStr sum;
                           "currency" := JObj {[ "value" := JStr "USD" ]} ]})
           ∧ sum = PyFloat.sign_str neg +:+ PyFloat.fixed2 q
           ∧ two_decimals sum = true
           ∧ 0 <= q
           ∧ (0 <= e → q = mant * 2 ^ e * 100)
           ∧ (e < 0 → Z.abs (2 * (q * 2 ^ (- e) - mant * 100)) <= 2 ^ (- e)))
    ∧ (∀ ip fp,
         PyStr.forallb PyStr.isdigit_ascii ip = true → ip ≠ "" →
         PyStr.forallb PyStr.isdigit_ascii fp = true →
         (String.length ip <= 12)%nat → (String.length fp <= 2)%nat →
         UserInput.price ui = ip +:+ "." +:+ fp
         ∨ (UserInput.price ui = ip ∧ fp = "") →
         out !! "price"
         = Some (JObj {[ "sum" :=
                           JStr (PyFloat.fixed2
                                   (PyFloat.digits_value 0 (ip +:+ fp)
                                    * 10 ^ (2 - Z.of_nat (String.length fp))));
                         "currency" := JObj {[ "value" := JStr "USD" ]} ]}))
    ∧ (PyFloat.float_of_str (UserInput.price ui) = None →
       out !! "price"
       = Some (JObj {[ "sum" := JStr (UserInput.price ui);
                       "currency" := JObj {[ "value" := JStr "USD" ]} ]}))
    ∧ (∀ p, ∃ out',
         customize_template (JObj m) (with_price p ui) rc cd now = Ok out')
    ∧ format_price "25" = "25.00".
Proof.
  intros Hm.
  destruct (customize_template_returns m ui rc cd now Hm) as [out Hout].
  exists out. split; [done|].
  apply customize_template_fields in Hout
    as (m' & r0 & [= <-] & _ & _ & Hprice & _).
  split; [|split; [|split; [|split]]].
  - intros neg mant e Hf.
    exists (PyFloat.hundredths mant e),
           (PyFloat.format_2f (PyFloat.Finite neg mant e)).
    split. { rewrite Hprice. unfold format_price. by rewrite Hf. }
    split; [done|].
    split; [apply format_2f_two_decimals|].
    split; [apply hundredths_nonneg; by apply float_of_str_nonneg in Hf|].
    apply hundredths_nearest.
  - intros ip fp Hip Hne Hfp Lip Lfp Hp. rewrite Hprice.
    assert (UserInput.price ui = ip +:+ String "." fp
            ∨ UserInput.price ui = ip +:+ EmptyString ∧ fp = EmptyString)
      as [-> | [-> ->]].
    { destruct Hp as [-> | [-> ->]]; [by left | right].
      split; [|done]. clear. induction ip as [|c ip IH]; [done|].
      change (String c ip = String c (ip +:+ "")). by rewrite <- IH. }
    + by rewrite (format_price_plain ip fp (String "." fp)) by (done || by left).
    + by rewrite (format_price_plain ip "" "") by (done || by right).
  - intros Hf. rewrite Hprice. unfold format_price. by rewrite Hf.
  - intros p. apply is_ok_true.
    by rewrite with_price_is_ok, customize_template_is_ok.
  - vm_compute. reflexivity.
Qed.

Lemma price_two_decimals_witness :
  ∃ out,
    customize_template (JObj Sample.template)
      (with_price "25.9" Sample.user_input) "Display"
      ConditionalData.empty Sample.now = Ok out
    ∧ out !! "price"
      = Some (JObj {[ "sum" :=
                        JStr (PyFloat.fixed2
                                (PyFloat.digits_value 0 ("25" +:+ "9")
                                 * 10 ^ (2 - Z.of_nat (String.length "9"))));
                      "currency" := JObj {[ "value" := JStr "USD" ]} ]})
    ∧ PyFloat.fixed2
        (PyFloat.digits_value 0 ("25" +:+ "9")
         * 10 ^ (2 - Z.of_nat (String.length "9"))) = "25.90".
Proof.
  destruct (price_two_decimals Sample.template
              (with_price "25.9" Sample.user_input) "Display"
              ConditionalData.empty Sample.now eq_refl)
    as (out & Hout & _ & Hplain & _).
  exists out. split; [exact Hout|]. clear Hout.
  split; [|vm_compute; reflexivity].
  apply (Hplain "25" "9").
  - reflexivity.
  - intros H. discriminate H.
  - reflexivity.
  - simpl. lia.
  - simpl. lia.
  - left. reflexivity.
Defined.

(** * Further properties *)

(** ** The rest of the merged record *)

Lemma not_in_merge_keys k :
  k ∉ merge_keys ↔
  k ≠ "_description" ∧ k ≠ "_template_version" ∧ k ≠ "vendor"
  ∧ k ≠ "vendor_account" ∧ k ≠ "resource_metadata" ∧ k ≠ "price"
  ∧ k ≠ "fund_distribution" ∧ k ≠ "vendor_reference_number"
  ∧ k ≠ "location" ∧ k ≠ "receiving_note" ∧ k ≠ "note"
  ∧ k ≠ "interested_user" ∧ k ≠ "expected_receipt_date"
  ∧ k ≠ "reporting_code".
Proof.
  unfold merge_keys. rewrite !not_elem_of_cons.
  split; [intros (?&?&?&?&?&?&?&?&?&?&?&?&?&?&_); done|].
  intros (?&?&?&?&?&?&?&?&?&?&?&?&?&?). repeat (split; [done|]).
  apply not_elem_of_nil.
Qed.

(** The fields of the merged record that the order and system sections
    write, and the keys no section touches. *)
Lemma customize_template_rest m ui rc cd now out :
  customize_template (JObj m) ui rc cd now = Ok out →
  ∃ v ref d,
    m !! "vendor" = Some (JObj v)
    ∧ UserInput.vendor_reference_number ui = Some ref
    ∧ Clock.add_days 30 now = Ok d
    ∧ out !! "vendor"
      = Some (JObj (<["value" := JStr (UserInput.vendor_code ui)]> v))
    ∧ out !! "vendor_account" = Some (JStr (UserInput.vendor_account ui))
    ∧ out !! "vendor_reference_number"
      = (if PyStr.nonempty ref then Some (JStr ref)
         else m !! "vendor_reference_number")
    ∧ out !! "location"
      = match m !! "location" with
        | Some (JList (JObj o :: rest)) =>
            Some (JList (JObj (<["quantity" := JInt (UserInput.quantity ui)]> o)
                         :: rest))
        | other => other
        end
    ∧ out !! "expected_receipt_date" = Some (JStr (Clock.strftime_date d))
    ∧ out !! "reporting_code"
      = (if PyStr.nonempty (UserInput.reporting_code ui)
         then Some (JStr (UserInput.reporting_code ui))
         else m !! "reporting_code")
    ∧ out !! "_description" = None
    ∧ out !! "_template_version" = None
    ∧ (∀ k, k ∉ merge_keys → out !! k = m !! k).
Proof.
  intros (m' & p2 & p3 & p4 & p5 & [= <-] & H2 & H3 & H4 & H5 & H6)%customize_template_Ok.
  pose proof H2 as (v & Hv & Hp2)%vendor_information_Ok.
  rewrite !lookup_delete_ne in Hv by done.
  pose proof H5 as (ref & Href & Hloc)%order_details_Ok.
  pose proof H6 as (d & Hd & Hout)%system_fields_Ok.
  exists v, ref, d. split; [done|]. split; [done|]. split; [done|].
  (* every key of the template reaches the end unless a section wrote it *)
  assert (∀ k, k ≠ "vendor" → k ≠ "vendor_account" →
               k ≠ "_description" → k ≠ "_template_version" →
               k ≠ "resource_metadata" → k ≠ "price" → k ≠ "fund_distribution" →
               p4 !! k = m !! k) as Hp4.
  { intros k ???????.
    rewrite (pricing_frame _ _ _ k H4) by done.
    rewrite (bibliographic_metadata_frame _ _ _ k H3) by done.
    by apply (vendor_information_from_template m ui p2). }
  assert (∀ k, k ≠ "expected_receipt_date" → k ≠ "reporting_code" →
               k ≠ "note" → k ≠ "interested_user" → k ≠ "receiving_note" →
               out !! k = p5 !! k) as Hend.
  { intros k ?????.
    rewrite (system_fields_frame _ _ _ _ k H6) by done.
    by rewrite conditional_data_handling_frame, receiving_note_frame. }
  assert (∀ k, k ≠ "vendor_reference_number" → k ≠ "location" →
               p5 !! k = p4 !! k) as Hp5
    by (intros k ??; by apply (order_details_frame _ ui)).
  split.
  { rewrite Hend, Hp5 by done.
    rewrite (pricing_frame _ _ _ "vendor" H4) by done.
    rewrite (bibliographic_metadata_frame _ _ _ "vendor" H3) by done.
    subst p2. by rewrite lookup_insert_ne, lookup_insert_eq. }
  split.
  { rewrite Hend, Hp5 by done.
    rewrite (pricing_frame _ _ _ "vendor_account" H4) by done.
    rewrite (bibliographic_metadata_frame _ _ _ "vendor_account" H3) by done.
    subst p2. by rewrite lookup_insert_eq. }
  split.
  { rewrite Hend by done.
    rewrite (set_in_first_frame _ _ _ _ _ "vendor_reference_number" Hloc) by done.
    destruct (PyStr.nonempty ref); [by rewrite lookup_insert_eq|].
    by apply Hp4. }
  split.
  { rewrite Hend by done.
    assert ((if PyStr.nonempty ref
             then <["vendor_reference_number" := JStr ref]> p4 else p4)
              !! "location" = m !! "location") as Hl.
    { destruct (PyStr.nonempty ref); [rewrite lookup_insert_ne by done|];
        by apply Hp4. }
    apply set_in_first_Ok in Hloc. rewrite Hl in Hloc.
    destruct Hloc as [[Hn ->]|[(c & Hc & Hf & ->)|(o & rest & Hlo & ->)]].
    - by rewrite Hl, Hn.
    - rewrite Hl, Hc. by destruct c as [| | | | | [|[] ?] |].
    - by rewrite lookup_insert_eq, Hlo. }
  assert (∀ k, k ≠ "note" → k ≠ "interested_user" → k ≠ "receiving_note" →
               conditional_data_handling (receiving_note p5 rc) cd !! k = p5 !! k)
    as Hmid.
  { intros k ???. by rewrite conditional_data_handling_frame, receiving_note_frame. }
  split.
  { subst out. rewrite put_if_nonempty_lookup.
    destruct (decide _) as [[=]|_]. by rewrite lookup_insert_eq. }
  split.
  { subst out. rewrite put_if_nonempty_lookup.
    destruct (decide _) as [_|Hne]; [|done].
    destruct (PyStr.nonempty (UserInput.reporting_code ui)); [reflexivity|].
    rewrite lookup_insert_ne by done. rewrite Hmid by done. rewrite Hp5 by done. by apply Hp4. }
  split.
  { rewrite Hend, Hp5 by done.
    rewrite (pricing_frame _ _ _ "_description" H4) by done.
    rewrite (bibliographic_metadata_frame _ _ _ "_description" H3) by done.
    rewrite (vendor_information_frame _ _ _ "_description" H2) by done.
    by rewrite lookup_delete_ne, lookup_delete_eq. }
  split.
  { rewrite Hend, Hp5 by done.
    rewrite (pricing_frame _ _ _ "_template_version" H4) by done.
    rewrite (bibliographic_metadata_frame _ _ _ "_template_version" H3) by done.
    rewrite (vendor_information_frame _ _ _ "_template_version" H2) by done.
    by rewrite lookup_delete_eq. }
  intros k (?&?&?&?&?&?&?&?&?&?&?&?&?&?)%not_in_merge_keys.
  rewrite Hend, Hp5 by done. by apply Hp4.
Qed.

(** The merge touches fourteen keys and no other: every other key of the
    template, [material_type] or [acquisition_method] say, comes out with
    the value it had, and the two metadata keys are gone. *)
Theorem merge_keeps_other_keys
    (m : gmap string json) (ui : UserInput.t) (rc : string)
    (cd : ConditionalData.t) (now : Clock.datetime) :
  mergeable m ui now = true →
  ∃ out,
    customize_template (JObj m) ui rc cd now = Ok out
    ∧ out !! "_description" = None
    ∧ out !! "_template_version" = None
    ∧ (∀ k, k ∉ merge_keys → out !! k = m !! k).
Proof.
  intros Hm.
  destruct (customize_template_returns m ui rc cd now Hm) as [out Hout].
  exists out. split; [done|].
  apply customize_template_rest in Hout
    as (v & ref & d & _ & _ & _ & _ & _ & _ & _ & _ & _ & Hd & Hv & Hk).
  done.
Qed.

Lemma merge_keeps_other_keys_witness :
  ∃ out,
    customize_template (JObj Sample.template) Sample.user_input "Display"
      ConditionalData.empty Sample.now = Ok out
    ∧ out !! "_description" = None
    ∧ out !! "material_type" = Some (JObj {[ "value" := JStr "BOOK" ]}).
Proof.
  destruct (merge_keeps_other_keys Sample.template Sample.user_input
              "Display" ConditionalData.empty Sample.now eq_refl)
    as (out & Hout & Hd & _ & Hk).
  exists out. split; [exact Hout|]. clear Hout. split; [exact Hd|].
  rewrite (Hk "material_type"); [reflexivity|].
  apply not_in_merge_keys. repeat split; intros H; discriminate H.
Defined.

(** The vendor section replaces the code inside the template's [vendor]
    mapping and leaves the mapping's other entries alone; the vendor
    account is replaced, or added when the template has none. *)
Theorem merge_vendor_fields
    (m : gmap string json) (ui : UserInput.t) (rc : string)
    (cd : ConditionalData.t) (now : Clock.datetime) :
  mergeable m ui now = true →
  ∃ out v v',
    customize_template (JObj m) ui rc cd now = Ok out
    ∧ m !! "vendor" = Some (JObj v)
    ∧ out !! "vendor" = Some (JObj v')
    ∧ v' !! "value" = Some (JStr (UserInput.vendor_code ui))
    ∧ (∀ k, k ≠ "value" → v' !! k = v !! k)
    ∧ out !! "vendor_account" = Some (JStr (UserInput.vendor_account ui)).
Proof.
  intros Hm.
  destruct (customize_template_returns m ui rc cd now Hm) as [out Hout].
  pose proof Hout as (v & ref & d & Hv & _ & _ & Hov & Hva & _)%customize_template_rest.
  exists out, v, (<["value" := JStr (UserInput.vendor_code ui)]> v).
  split; [done|]. split; [done|]. split; [done|].
  split; [by rewrite lookup_insert_eq|].
  split; [|done]. intros k ?. by rewrite lookup_insert_ne.
Qed.

Lemma merge_vendor_fields_witness :
  ∃ out v',
    customize_template (JObj Sample.template) Sample.user_input "Display"
      ConditionalData.empty Sample.now = Ok out
    ∧ out !! "vendor" = Some (JObj v')
    ∧ v' !! "value" = Some (JStr "hacky-m")
    ∧ out !! "vendor_account" = Some (JStr "hacky-m").
Proof.
  destruct (merge_vendor_fields Sample.template Sample.user_input
              "Display" ConditionalData.empty Sample.now eq_refl)
    as (out & v & v' & Hout & _ & Hv' & Hval & _ & Hacc).
  exists out, v'. split; [exact Hout|]. clear Hout.
  split; [exact Hv'|]. split; [exact Hval | exact Hacc].
Defined.

(** The quantity goes into the first entry of the template's [location]
    list, whose other fields and other entries stay; a template without
    the list gets none, and an empty list stays empty. *)
Theorem merge_location_quantity
    (m : gmap string json) (ui : UserInput.t) (rc : string)
    (cd : ConditionalData.t) (now : Clock.datetime) :
  mergeable m ui now = true →
  ∃ out,
    customize_template (JObj m) ui rc cd now = Ok out
    ∧ (∀ first rest,
         m !! "location" = Some (JList (first :: rest)) →
         ∃ o o',
           first = JObj o
           ∧ out !! "location" = Some (JList (JObj o' :: rest))
           ∧ o' !! "quantity" = Some (JInt (UserInput.quantity ui))
           ∧ (∀ k, k ≠ "quantity" → o' !! k = o !! k))
    ∧ (m !! "location" = None → out !! "location" = None)
    ∧ (m !! "location" = Some (JList []) → out !! "location" = Some (JList [])).
Proof.
  intros Hm.
  destruct (customize_template_returns m ui rc cd now Hm) as [out Hout].
  exists out. split; [done|].
  apply customize_template_rest in Hout
    as (v & ref & d & _ & _ & _ & _ & _ & _ & Hloc & _).
  apply mergeable_true in Hm as (_ & _ & _ & Hok & _).
  split; [|split].
  - intros first rest Hl. rewrite Hl in Hloc, Hok.
    destruct first as [| | | | | |o]; try discriminate.
    exists o, (<["quantity" := JInt (UserInput.quantity ui)]> o).
    split; [done|]. split; [done|].
    split; [by rewrite lookup_insert_eq|].
    intros k ?. by rewrite lookup_insert_ne.
  - intros Hn. by rewrite Hloc, Hn.
  - intros Hn. by rewrite Hloc, Hn.
Qed.

Lemma merge_location_quantity_witness :
  ∃ out o',
    customize_template (JObj Sample.template) Sample.user_input "Display"
      ConditionalData.empty Sample.now = Ok out
    ∧ out !! "location" = Some (JList [JObj o'])
    ∧ o' !! "quantity" = Some (JInt 2).
Proof.
  destruct (merge_location_quantity Sample.template Sample.user_input
              "Display" ConditionalData.empty Sample.now eq_refl)
    as (out & Hout & Hfirst & _).
  destruct (Hfirst (JObj {[ "quantity" := JInt 1 ]}) [] eq_refl)
    as (o & o' & _ & Hl & Hq & _).
  exists out, o'. split; [exact Hout|]. clear Hout Hfirst.
  split; [exact Hl | exact Hq].
Defined.

(** The vendor reference and the reporting code are written when the
    user gave one; left empty, whatever the template holds under the key
    stays in the record. *)
Theorem merge_reference_and_reporting_code
    (m : gmap string json) (ui : UserInput.t) (rc : string)
    (cd : ConditionalData.t) (now : Clock.datetime) :
  mergeable m ui now = true →
  ∃ out ref,
    customize_template (JObj m) ui rc cd now = Ok out
    ∧ UserInput.vendor_reference_number ui = Some ref
    ∧ (ref ≠ "" → out !! "vendor_reference_number" = Some (JStr ref))
    ∧ (ref = "" →
       out !! "vendor_reference_number" = m !! "vendor_reference_number")
    ∧ (UserInput.reporting_code ui ≠ "" →
       out !! "reporting_code" = Some (JStr (UserInput.reporting_code ui)))
    ∧ (UserInput.reporting_code ui = "" →
       out !! "reporting_code" = m !! "reporting_code").
Proof.
  intros Hm.
  destruct (customize_template_returns m ui rc cd now Hm) as [out Hout].
  pose proof Hout
    as (v & ref & d & _ & Href & _ & _ & _ & Hr & _ & _ & Hc & _)%customize_template_rest.
  exists out, ref. split; [done|]. split; [done|].
  split; [|split; [|split]].
  - intros Hne%nonempty_true. by rewrite Hr, Hne.
  - intros ->. by rewrite Hr.
  - intros Hne%nonempty_true. by rewrite Hc, Hne.
  - intros He. by rewrite Hc, He.
Qed.

Lemma merge_reference_and_reporting_code_witness :
  ∃ out,
    customize_template (JObj Sample.template) Sample.user_input "Display"
      ConditionalData.empty Sample.now = Ok out
    ∧ out !! "vendor_reference_number" = Some (JStr "INV-2024/001")
    ∧ out !! "reporting_code" = Some (JStr "Art").
Proof.
  destruct (merge_reference_and_reporting_code Sample.template Sample.user_input
              "Display" ConditionalData.empty Sample.now eq_refl)
    as (out & ref & Hout & Href & Hr & _ & Hc & _).
  exists out. split; [exact Hout|]. clear Hout.
  injection Href as <-.
  split; [apply Hr | apply Hc]; intros H; discriminate H.
Defined.

(** The OCLC number, when the lookup gave one, becomes the single entry
    of [system_control_number] in the bibliographic block; without one
    the template's entry stays. Nothing else in the block changes but
    the five bibliographic fields. *)
Theorem merge_system_control_number
    (m : gmap string json) (ui : UserInput.t) (rc : string)
    (cd : ConditionalData.t) (now : Clock.datetime) :
  mergeable m ui now = true →
  ∃ out r0 rm,
    customize_template (JObj m) ui rc cd now = Ok out
    ∧ template_block m = Some r0
    ∧ out !! "resource_metadata" = Some (JObj rm)
    ∧ (∀ oclc, UserInput.oclc_number ui = Some oclc → oclc ≠ "" →
         rm !! "system_control_number" = Some (JList [JStr oclc]))
    ∧ (UserInput.oclc_number ui = None ∨ UserInput.oclc_number ui = Some "" →
       rm !! "system_control_number" = r0 !! "system_control_number")
    ∧ (∀ k, k ∉ ["title"; "author"; "isbn"; "publisher"; "publication_year";
                 "system_control_number"] →
         rm !! k = r0 !! k).
Proof.
  intros Hm.
  destruct (customize_template_returns m ui rc cd now Hm) as [out Hout].
  pose proof Hout as (m' & r0 & [= <-] & Hb & Hrm & _)%customize_template_fields.
  exists out, r0, (bibliographic_block r0 ui).
  split; [done|]. split; [done|]. split; [done|].
  assert (∀ k, k ∉ ["title"; "author"; "isbn"; "publisher"; "publication_year"] →
               put_if_nonempty "publication_year" (UserInput.publication_year ui)
                 (put_if_nonempty "publisher" (UserInput.publisher ui)
                    (put_if_nonempty "isbn" (UserInput.isbn ui)
                       (put_if_nonempty "author" (UserInput.author ui)
                          (<["title" := JStr (UserInput.title ui)]> r0)))) !! k
               = r0 !! k) as Hin.
  { intros k Hk. rewrite !not_elem_of_cons in Hk.
    destruct Hk as (? & ? & ? & ? & ? & _).
    rewrite !put_if_nonempty_lookup.
    repeat (destruct (decide _) as [?|_]; [congruence|]).
    by rewrite lookup_insert_ne. }
  unfold bibliographic_block. split; [|split].
  - intros oclc Ho Hne%nonempty_true. rewrite Ho. simpl. rewrite Hne.
    by rewrite lookup_insert_eq.
  - intros [Ho|Ho]; rewrite Ho; simpl; apply Hin;
      rewrite !not_elem_of_cons; repeat (split; [done|]); apply not_elem_of_nil.
  - intros k Hk. rewrite put_oclc_lookup_ne.
    + apply Hin. rewrite !not_elem_of_cons in *. tauto.
    + rewrite !not_elem_of_cons in Hk. tauto.
Qed.

Lemma merge_system_control_number_witness :
  ∃ out rm,
    customize_template (JObj Sample.template) Sample.user_input "Display"
      ConditionalData.empty Sample.now = Ok out
    ∧ out !! "resource_metadata" = Some (JObj rm)
    ∧ rm !! "system_control_number" = None.
Proof.
  destruct (merge_system_control_number Sample.template Sample.user_input
              "Display" ConditionalData.empty Sample.now eq_refl)
    as (out & r0 & rm & Hout & Hb & Hrm & _ & Hnone & _).
  exists out, rm. split; [exact Hout|]. clear Hout.
  split; [exact Hrm|].
  rewrite (Hnone (or_introl eq_refl)).
  injection Hb as <-. reflexivity.
Defined.

(** ** Thirty days from now *)

Lemma days_in_month_range y m : 28 <= Clock.days_in_month y m <= 31.
Proof.
  unfold Clock.days_in_month.
  destruct (m =? 2); [destruct (Clock.is_leap y); lia|].
  destruct (_ || _); lia.
Qed.

Lemma month_cases m :
  1 <= m <= 12 →
  m = 1 ∨ m = 2 ∨ m = 3 ∨ m = 4 ∨ m = 5 ∨ m = 6 ∨ m = 7 ∨ m = 8 ∨ m = 9
  ∨ m = 10 ∨ m = 11 ∨ m = 12.
Proof. lia. Qed.

Lemma days_before_month_succ y m :
  1 <= m →
  Ordinal.days_before_month y (m + 1)
  = Ordinal.days_before_month y m + Clock.days_in_month y m.
Proof.
  intros Hm. unfold Ordinal.days_before_month.
  replace (Z.to_nat (m + 1 - 1)) with (S (Z.to_nat (m - 1))) by lia.
  simpl Ordinal.days_before_month_nat.
  do 2 f_equal. lia.
Qed.

(** The days of a year: 365, and one more in a leap year. *)
Lemma days_before_year_succ y :
  Ordinal.days_before_year (y + 1)
  = Ordinal.days_before_year y + (if Clock.is_leap y then 366 else 365).
Proof.
  unfold Ordinal.days_before_year, Clock.is_leap.
  replace (y + 1 - 1) with y by lia.
  destruct (y mod 4 =? 0) eqn:H4; destruct (y mod 100 =? 0) eqn:H100;
    destruct (y mod 400 =? 0) eqn:H400; simpl;
    rewrite ?Z.eqb_eq, ?Z.eqb_neq in *;
    Z.div_mod_to_equations; lia.
Qed.

Lemma days_before_month_year_end y :
  Ordinal.days_before_month y 12 + 31
  = (if Clock.is_leap y then 366 else 365).
Proof.
  unfold Ordinal.days_before_month. simpl. unfold Clock.days_in_month. simpl.
  destruct (Clock.is_leap y); lia.
Qed.

Lemma days_before_month_bounds y m :
  1 <= m <= 12 →
  0 <= Ordinal.days_before_month y m
  ∧ Ordinal.days_before_month y m + Clock.days_in_month y m
    <= (if Clock.is_leap y then 366 else 365).
Proof.
  intros Hm%month_cases.
  repeat destruct Hm as [->|Hm]; try subst m;
    unfold Ordinal.days_before_month; simpl; unfold Clock.days_in_month; simpl;
    destruct (Clock.is_leap y); lia.
Qed.

Lemma days_before_year_mono y y' :
  y <= y' → Ordinal.days_before_year y <= Ordinal.days_before_year y'.
Proof.
  intros H. unfold Ordinal.days_before_year.
  Z.div_mod_to_equations. lia.
Qed.

Lemma valid_date_calendar t :
  valid_date t ↔ calendar_date t ∧ Clock.year t <= 9999.
Proof. unfold valid_date, calendar_date. tauto. Qed.

(** The day after a date is a date, and it is the next day number. *)
Lemma next_day_ordinal t :
  calendar_date t →
  calendar_date (Clock.next_day t)
  ∧ Ordinal.toordinal (Clock.next_day t) = Ordinal.toordinal t + 1
  ∧ same_time t (Clock.next_day t).
Proof.
  intros (Hy & Hm & Hd). unfold Clock.next_day.
  destruct (Clock.day t <? _) eqn:Hlt; [|destruct (Clock.month t <? 12) eqn:Hm12];
    rewrite ?Z.ltb_lt, ?Z.ltb_ge in *; unfold calendar_date, Ordinal.toordinal,
    same_time; simpl.
  - split; [lia|]. split; [lia|done].
  - pose proof (days_in_month_range (Clock.year t) (Clock.month t + 1)).
    split; [lia|]. split; [|done].
    rewrite days_before_month_succ by lia. lia.
  - assert (Clock.month t = 12) as Hm' by lia.
    split; [split; [lia|]; split; [lia|]; by vm_compute|].
    split; [|done].
    rewrite days_before_year_succ, <- days_before_month_year_end.
    rewrite Hm' in *.
    change (Ordinal.days_before_month (Clock.year t + 1) 1) with 0.
    assert (Clock.days_in_month (Clock.year t) 12 = 31) as H31 by done.
    lia.
Qed.

Lemma iter_next_day_ordinal n t :
  calendar_date t →
  calendar_date (Nat.iter n Clock.next_day t)
  ∧ Ordinal.toordinal (Nat.iter n Clock.next_day t)
    = Ordinal.toordinal t + Z.of_nat n
  ∧ same_time t (Nat.iter n Clock.next_day t).
Proof.
  intros Ht. induction n as [|n (IH1 & IH2 & IH3)].
  - simpl. split; [done|]. split; [lia|]. by unfold same_time.
  - change (Nat.iter (S n) Clock.next_day t)
      with (Clock.next_day (Nat.iter n Clock.next_day t)).
    destruct (next_day_ordinal _ IH1) as (H1 & H2 & H3).
    split; [done|]. split; [lia|].
    unfold same_time in *. intuition congruence.
Qed.

(** The day numbers of a year lie after those of the years before it. *)
Lemma toordinal_year_bounds t :
  calendar_date t →
  Ordinal.days_before_year (Clock.year t) < Ordinal.toordinal t
  ∧ Ordinal.toordinal t <= Ordinal.days_before_year (Clock.year t + 1).
Proof.
  intros (Hy & Hm & Hd). unfold Ordinal.toordinal.
  pose proof (days_before_month_bounds (Clock.year t) (Clock.month t) Hm).
  rewrite days_before_year_succ. lia.
Qed.

(** The year 9999 ends on day 3652059. *)
Lemma toordinal_max t :
  calendar_date t →
  Clock.year t <= 9999 ↔ Ordinal.toordinal t <= Ordinal.MAX_ORDINAL.
Proof.
  intros Ht. pose proof (toordinal_year_bounds t Ht) as [Hlo Hhi].
  change Ordinal.MAX_ORDINAL with (Ordinal.days_before_year 10000).
  split; intros H.
  - pose proof (days_before_year_mono (Clock.year t + 1) 10000 ltac:(lia)). lia.
  - destruct (decide (Clock.year t <= 9999)) as [|Hn]; [done|].
    pose proof (days_before_year_mono 10000 (Clock.year t) ltac:(lia)). lia.
Qed.

(** A date is determined by its day number. *)
Lemma toordinal_inj t t' :
  calendar_date t → calendar_date t' →
  Ordinal.toordinal t = Ordinal.toordinal t' →
  Clock.year t = Clock.year t' ∧ Clock.month t = Clock.month t'
  ∧ Clock.day t = Clock.day t'.
Proof.
  intros Ht Ht' Heq.
  pose proof (toordinal_year_bounds t Ht) as [Hlo Hhi].
  pose proof (toordinal_year_bounds t' Ht') as [Hlo' Hhi'].
  assert (Clock.year t = Clock.year t') as Hy.
  { destruct (Z.lt_trichotomy (Clock.year t) (Clock.year t')) as [H|[H|H]];
      [|done|].
    - pose proof (days_before_year_mono (Clock.year t + 1) (Clock.year t') ltac:(lia)).
      lia.
    - pose proof (days_before_year_mono (Clock.year t' + 1) (Clock.year t) ltac:(lia)).
      lia. }
  split; [done|].
  destruct Ht as (_ & Hm & Hd), Ht' as (_ & Hm' & Hd').
  unfold Ordinal.toordinal in Heq. rewrite <- Hy in *.
  set (y := Clock.year t) in *. clearbody y.
  apply month_cases in Hm, Hm'.
  revert Hd Hd' Heq. unfold Ordinal.days_before_month, Clock.days_in_month.
  repeat destruct Hm as [->|Hm]; try rewrite Hm;
    repeat destruct Hm' as [->|Hm']; try rewrite Hm';
    simpl; unfold Clock.days_in_month; simpl;
    destruct (Clock.is_leap y); lia.
Qed.

(** [t + timedelta(days=n)] is the date [n] day numbers on, at the same
    time of day; it is an [OverflowError] exactly when that is past the
    last day of the year 9999. *)
Lemma add_days_ordinal n t :
  valid_date t →
  (Ordinal.toordinal t + Z.of_nat n <= Ordinal.MAX_ORDINAL →
   ∃ d, Clock.add_days n t = Ok d ∧ valid_date d
        ∧ Ordinal.toordinal d = Ordinal.toordinal t + Z.of_nat n
        ∧ same_time t d)
  ∧ (Ordinal.MAX_ORDINAL < Ordinal.toordinal t + Z.of_nat n →
     Clock.add_days n t = Raise OverflowError).
Proof.
  intros [Ht _]%valid_date_calendar.
  destruct (iter_next_day_ordinal n t Ht) as (Hc & Ho & Hs).
  pose proof (toordinal_max _ Hc) as Hmax.
  unfold Clock.add_days. cbv zeta.
  split; intros H.
  - assert (Clock.year (Nat.iter n Clock.next_day t) <= 9999) as Hy
      by (apply Hmax; lia).
    destruct (9999 <? _) eqn:Hlt; [apply Z.ltb_lt in Hlt; lia|].
    eexists. split; [done|]. split; [by apply valid_date_calendar|]. done.
  - destruct (9999 <? _) eqn:Hlt; [done|].
    apply Z.ltb_ge in Hlt. apply Hmax in Hlt. lia.
Qed.

Lemma strftime_date_shape d :
  1000 <= Clock.year d <= 9999 → 1 <= Clock.month d <= 12 →
  1 <= Clock.day d <= 31 →
  is_iso_date (Clock.strftime_date d) = true.
Proof.
  intros Hy Hmo Hd. unfold Clock.strftime_date.
  pose proof (dec_year (Clock.year d) Hy) as Y.
  pose proof (pad2_digits (Clock.month d) ltac:(lia)) as Mo.
  pose proof (pad2_digits (Clock.day d) ltac:(lia)) as D.
  destruct (PyFloat.dec (Clock.year d)) as [|y1 [|y2 [|y3 [|y4 [|]]]]];
    try discriminate.
  destruct (Clock.pad2 (Clock.month d)) as [|a1 [|a2 [|]]]; try discriminate.
  destruct (Clock.pad2 (Clock.day d)) as [|b1 [|b2 [|]]]; try discriminate.
  simpl in *.
  repeat match goal with
         | H : _ && _ = true |- _ => apply andb_true_iff in H as [? ?]
         end.
  cbn. repeat match goal with H : _ = true |- _ => rewrite H; clear H end.
  done.
Qed.

(** ** How the merge fails *)

Lemma set_in_first_error d k f v :
  set_in_first d k f v
  = match first_item_error (d !! k) with
    | Some e => Raise e
    | None => set_in_first d k f v
    end.
Proof.
  unfold set_in_first, first_item_error. destruct (d !! k) as [c|]; [|done].
  destruct (truthy c) eqn:Ht; [|done].
  destruct c as [| | | | [|] | [|[| | | | | |] rest] |]; monad_simpl; done.
Qed.

Lemma first_item_error_None o :
  first_item_error o = None ↔ first_item_ok o = true.
Proof.
  unfold first_item_error, first_item_ok. destruct o as [c|]; [|done].
  destruct (truthy c) eqn:Ht; [|done]. simpl.
  destruct c as [| | | | [|] | [|[| | | | | |] rest] |]; done.
Qed.

Lemma customize_template_sections m ui rc cd now :
  customize_template (JObj m) ui rc cd now
  = (p2 ← vendor_information (delete "_template_version" (delete "_description" m)) ui;
     p3 ← bibliographic_metadata p2 ui;
     p4 ← pricing p3 ui;
     p5 ← order_details p4 ui;
     system_fields (conditional_data_handling (receiving_note p5 rc) cd) ui now).
Proof. reflexivity. Qed.

Lemma add_days_error n t e : Clock.add_days n t = Raise e → e = OverflowError.
Proof.
  unfold Clock.add_days. cbv zeta. destruct (9999 <? _); congruence.
Qed.

(** What the merge returns or raises, statement by statement. *)
Lemma customize_template_outcome t ui rc cd now :
  match merge_error t ui now with
  | Some e => customize_template t ui rc cd now = Raise e
  | None => ∃ out, customize_template t ui rc cd now = Ok out
  end.
Proof.
  destruct t as [| | | | | |m]; try done.
  unfold merge_error.
  destruct (m !! "vendor") as [c|] eqn:Hv;
    [|by apply template_without_vendor].
  rewrite customize_template_sections.
  set (p1 := delete "_template_version" (delete "_description" m)).
  assert (∀ k, k ≠ "_description" → k ≠ "_template_version" → p1 !! k = m !! k)
    as Hp1 by (intros k ??; subst p1; by rewrite !lookup_delete_ne).
  assert (p1 !! "vendor" = Some c) as Hv1 by (by rewrite Hp1).
  assert ((∀ o, c ≠ JObj o) →
          vendor_information p1 ui = Raise TypeError) as Hbad.
  { intros Hc. unfold vendor_information.
    by rewrite (setitem2_not_obj _ _ _ _ c Hv1 Hc). }
  destruct c as [| | | | | |v]; try (by rewrite Hbad).
  clear Hbad.
  destruct (vendor_information p1 ui) as [p2|] eqn:H2.
  2:{ assert (vendor_information p1 ui
              = Ok (<["vendor_account" := JStr (UserInput.vendor_account ui)]>
                      (<["vendor" := JObj (<["value" := JStr (UserInput.vendor_code ui)]> v)]> p1)))
        as H by (apply vendor_information_Ok; eauto).
      congruence. }
  assert (∀ k, k ≠ "vendor" → k ≠ "vendor_account" →
               k ≠ "_description" → k ≠ "_template_version" →
               p2 !! k = m !! k) as Hp2
    by (intros k; apply (vendor_information_from_template m ui p2 k H2)).
  unfold mbind, result_bind; cbv beta iota.
  destruct (template_block p2) as [r0|] eqn:Hb.
  2:{ rewrite (bibliographic_metadata_not_obj p2 ui Hb).
      unfold template_block in Hb. rewrite Hp2 in Hb by done.
      by destruct (m !! "resource_metadata") as [[]|]. }
  rewrite (bibliographic_metadata_block p2 ui r0 Hb).
  unfold template_block in Hb. rewrite Hp2 in Hb by done.
  set (p3 := <["resource_metadata" := JObj (bibliographic_block r0 ui)]> p2).
  assert (∀ k, k ≠ "vendor" → k ≠ "vendor_account" →
               k ≠ "_description" → k ≠ "_template_version" →
               k ≠ "resource_metadata" → p3 !! k = m !! k) as Hp3.
  { intros k ?????. subst p3. rewrite lookup_insert_ne by done. by apply Hp2. }
  assert (match first_item_error (m !! "fund_distribution") with
          | Some e => pricing p3 ui = Raise e
          | None => ∃ p4, pricing p3 ui = Ok p4
          end) as H4.
  { unfold pricing. cbv zeta. rewrite set_in_first_error.
    rewrite lookup_insert_ne, Hp3 by done.
    destruct (first_item_error _) eqn:He; [done|].
    apply is_ok_true. rewrite set_in_first_is_ok.
    rewrite lookup_insert_ne, Hp3 by done. by apply first_item_error_None. }
  assert (match m !! "resource_metadata" with
          | Some (JObj _) | None => True
          | _ => False
          end) as Hrm by (by destruct (m !! "resource_metadata") as [[]|]).
  assert (∀ X Y : option exn,
            match m !! "resource_metadata" with
            | Some (JObj _) | None => X
            | Some _ => Y
            end = X) as ->
    by (intros; by destruct (m !! "resource_metadata") as [[]|]).
  clear Hrm.
  destruct (first_item_error (m !! "fund_distribution")) as [e|];
    [by rewrite H4|].
  destruct H4 as (p4 & H4). rewrite H4.
  assert (∀ k, k ≠ "vendor" → k ≠ "vendor_account" →
               k ≠ "_description" → k ≠ "_template_version" →
               k ≠ "resource_metadata" → k ≠ "price" → k ≠ "fund_distribution" →
               p4 !! k = m !! k) as Hp4.
  { intros k ???????. rewrite (pricing_frame _ _ _ k H4) by done. by apply Hp3. }
  unfold order_details.
  destruct (UserInput.vendor_reference_number ui) as [ref|]; [|done].
  unfold mbind, result_bind; cbv beta iota. rewrite set_in_first_error.
  assert ((if PyStr.nonempty ref
           then <["vendor_reference_number" := JStr ref]> p4 else p4)
            !! "location" = m !! "location") as Hl.
  { destruct (PyStr.nonempty ref); [rewrite lookup_insert_ne by done|];
      by apply Hp4. }
  rewrite Hl.
  destruct (first_item_error (m !! "location")) as [e|] eqn:He; [done|].
  assert (∃ p5, set_in_first
                  (if PyStr.nonempty ref
                   then <["vendor_reference_number" := JStr ref]> p4 else p4)
                  "location" "quantity" (JInt (UserInput.quantity ui)) = Ok p5)
    as (p5 & H5).
  { apply is_ok_true. rewrite set_in_first_is_ok, Hl.
    by apply first_item_error_None. }
  rewrite H5. unfold system_fields.
  unfold mbind, result_bind.
  destruct (Clock.add_days 30 now) as [d|e]; cbv beta iota; eauto.
Qed.

Lemma merge_error_mergeable m ui now0 now :
  mergeable m ui now0 = true →
  merge_error (JObj m) ui now
  = match Clock.add_days 30 now with Ok _ => None | Raise e => Some e end.
Proof.
  intros ((v & Hv) & (r0 & Hb) & Hfd & Hloc & (ref & Href) & _)%mergeable_true.
  unfold merge_error. rewrite Hv, Href.
  apply first_item_error_None in Hfd, Hloc. rewrite Hfd, Hloc.
  unfold template_block in Hb.
  by destruct (m !! "resource_metadata") as [[]|].
Qed.

Lemma customize_template_raise t ui rc cd now e :
  customize_template t ui rc cd now = Raise e → merge_error t ui now = Some e.
Proof.
  intros Hr. pose proof (customize_template_outcome t ui rc cd now) as H.
  destruct (merge_error t ui now) as [e'|].
  - congruence.
  - destruct H as (out & H). congruence.
Qed.

(** The merge stops at the first of its statements that fails, and the
    exception is that statement's: a template that is no mapping
    ([TypeError] for a list, [AttributeError] otherwise), a missing
    [vendor] ([KeyError]) or one that is no mapping ([TypeError]), a
    [resource_metadata] that is no mapping, a [fund_distribution] whose
    first entry cannot take the amount, a user input without the
    vendor-reference key, a [location] whose first entry cannot take the
    quantity, and last a date past the year 9999. It returns a record
    exactly when none of them fails. *)
Theorem merge_first_failure
    (t : json) (ui : UserInput.t) (rc : string) (cd : ConditionalData.t)
    (now : Clock.datetime) :
  (∀ e, customize_template t ui rc cd now = Raise e ↔ merge_error t ui now = Some e)
  ∧ (is_ok (customize_template t ui rc cd now) = true ↔ merge_error t ui now = None)
  ∧ (∀ m, t = JObj m → (merge_error t ui now = None ↔ mergeable m ui now = true)).
Proof.
  pose proof (customize_template_outcome t ui rc cd now) as H.
  split; [|split].
  - intros e. destruct (merge_error t ui now) as [e'|].
    + rewrite H. split; congruence.
    + destruct H as (out & ->). split; discriminate.
  - destruct (merge_error t ui now) as [e'|].
    + rewrite H. split; discriminate.
    + destruct H as (out & ->). done.
  - intros m ->. rewrite <- customize_template_is_ok with (rc := rc) (cd := cd).
    destruct (merge_error (JObj m) ui now) as [e'|].
    + rewrite H. split; discriminate.
    + destruct H as (out & ->). done.
Qed.

(** The expected receipt date is the calendar date thirty day numbers
    after today, the only one there is, written as year-month-day; from
    the year 1000 on that is four digits, two and two. *)
Theorem merge_expected_receipt_date
    (m : gmap string json) (ui : UserInput.t) (rc : string)
    (cd : ConditionalData.t) (now : Clock.datetime) :
  mergeable m ui now = true → valid_date now →
  ∃ out d,
    customize_template (JObj m) ui rc cd now = Ok out
    ∧ out !! "expected_receipt_date" = Some (JStr (Clock.strftime_date d))
    ∧ valid_date d
    ∧ Ordinal.toordinal d = Ordinal.toordinal now + 30
    ∧ (∀ d', valid_date d' →
             Ordinal.toordinal d' = Ordinal.toordinal now + 30 →
             Clock.year d' = Clock.year d ∧ Clock.month d' = Clock.month d
             ∧ Clock.day d' = Clock.day d)
    ∧ (1000 <= Clock.year now → is_iso_date (Clock.strftime_date d) = true).
Proof.
  intros Hm Hnow.
  destruct (customize_template_returns m ui rc cd now Hm) as [out Hout].
  pose proof Hout
    as (v & ref & d & _ & _ & Hd & _ & _ & _ & _ & He & _)%customize_template_rest.
  exists out, d. split; [done|]. split; [done|].
  destruct (add_days_ordinal 30 now Hnow) as [Hin Hover].
  assert (Ordinal.toordinal now + 30 <= Ordinal.MAX_ORDINAL) as Hle.
  { destruct (decide (Ordinal.toordinal now + 30 <= Ordinal.MAX_ORDINAL));
      [done|]. rewrite Hover in Hd by lia. discriminate Hd. }
  destruct (Hin Hle) as (d0 & Hd0 & Hv & Ho & _).
  assert (d0 = d) as -> by congruence.
  split; [done|]. split; [done|].
  apply valid_date_calendar in Hv as [Hc Hy].
  split.
  - intros d' [Hc' _]%valid_date_calendar Ho'.
    apply toordinal_inj; [done|done|lia].
  - intros Hy0.
    pose proof Hnow as [Hcn _]%valid_date_calendar.
    pose proof (toordinal_year_bounds now Hcn) as [Hlo _].
    pose proof (toordinal_year_bounds d Hc) as [_ Hhi].
    assert (Clock.year now <= Clock.year d).
    { destruct (decide (Clock.year now <= Clock.year d)); [done|].
      pose proof (days_before_year_mono (Clock.year d + 1) (Clock.year now)
                    ltac:(lia)). lia. }
    destruct Hc as (_ & Hmo & Hda).
    pose proof (days_in_month_range (Clock.year d) (Clock.month d)).
    apply strftime_date_shape; lia.
Qed.

Lemma merge_expected_receipt_date_witness :
  ∃ out,
    customize_template (JObj Sample.template) Sample.user_input "Display"
      ConditionalData.empty Sample.now = Ok out
    ∧ out !! "expected_receipt_date" = Some (JStr "2025-01-14").
Proof.
  assert (valid_date Sample.now) as Hnow by (vm_compute; intuition discriminate).
  destruct (merge_expected_receipt_date Sample.template Sample.user_input
              "Display" ConditionalData.empty Sample.now eq_refl Hnow)
    as (out & d & Hout & He & Hv & Ho & _).
  exists out. split; [exact Hout|].
  rewrite customize_template_sample in Hout. injection Hout as <-.
  reflexivity.
Defined.

(** In the last thirty days of the year 9999 there is no date thirty
    days on: a merge that would return on any other day raises
    [OverflowError]. *)
Theorem merge_overflow_at_calendar_end
    (m : gmap string json) (ui : UserInput.t) (rc : string)
    (cd : ConditionalData.t) (now0 now : Clock.datetime) :
  mergeable m ui now0 = true → valid_date now →
  Ordinal.MAX_ORDINAL < Ordinal.toordinal now + 30 →
  customize_template (JObj m) ui rc cd now = Raise OverflowError.
Proof.
  intros Hm Hnow Hlate.
  pose proof (customize_template_outcome (JObj m) ui rc cd now) as H.
  rewrite (merge_error_mergeable m ui now0 now Hm) in H.
  destruct (add_days_ordinal 30 now Hnow) as [_ Hover].
  by rewrite Hover in H by lia.
Qed.

Lemma merge_overflow_at_calendar_end_witness :
  customize_template (JObj Sample.template) Sample.user_input "Display"
    ConditionalData.empty
    {| Clock.year := 9999; Clock.month := 12; Clock.day := 2;
       Clock.hour := 9; Clock.minute := 5; Clock.second := 59 |}
  = Raise OverflowError.
Proof.
  apply (merge_overflow_at_calendar_end Sample.template Sample.user_input
           "Display" ConditionalData.empty Sample.now); [reflexivity| |].
  - vm_compute. intuition discriminate.
  - vm_compute. reflexivity.
Defined.

(** ** White space around an answer *)

Lemma lstrip_head s :
  match PyStr.lstrip s with
  | EmptyString => True
  | String c _ => PyStr.isspace c = false
  end.
Proof.
  induction s as [|c s IH]; simpl; [done|].
  destruct (PyStr.isspace c) eqn:Hc; [done|]. exact Hc.
Qed.

Lemma lstrip_nonspace c r :
  PyStr.isspace c = false → PyStr.lstrip (String c r) = String c r.
Proof. intros H. simpl. by rewrite H. Qed.

Lemma rstrip_nonspace c r :
  PyStr.isspace c = false → ∃ r', PyStr.rstrip (String c r) = String c r'.
Proof.
  intros H. simpl. destruct (PyStr.rstrip r); rewrite ?H; eauto.
Qed.

Lemma rstrip_idemp s : PyStr.rstrip (PyStr.rstrip s) = PyStr.rstrip s.
Proof.
  induction s as [|c s IH]; [done|].
  simpl. destruct (PyStr.rstrip s) as [|a r'] eqn:Hr.
  - destruct (PyStr.isspace c) eqn:Hc; [done|]. simpl. by rewrite Hc.
  - change (PyStr.rstrip (String c (String a r')))
      with (match PyStr.rstrip (String a r') with
            | EmptyString =>
                if PyStr.isspace c then EmptyString else String c EmptyString
            | String x y => String c (String x y)
            end).
    by rewrite IH.
Qed.

Lemma lstrip_rstrip_lstrip s :
  PyStr.lstrip (PyStr.strip s) = PyStr.strip s.
Proof.
  unfold PyStr.strip. pose proof (lstrip_head s) as H.
  destruct (PyStr.lstrip s) as [|c r]; [done|].
  destruct (rstrip_nonspace c r H) as (r' & ->).
  by apply lstrip_nonspace.
Qed.

(** [s.strip().strip()] is [s.strip()]. *)
Lemma strip_idemp s : PyStr.strip (PyStr.strip s) = PyStr.strip s.
Proof.
  unfold PyStr.strip at 1. rewrite lstrip_rstrip_lstrip.
  unfold PyStr.strip. apply rstrip_idemp.
Qed.

Lemma keep_chars_lstrip keep s :
  (∀ c, PyStr.isspace c = true → keep c = false) →
  PyStr.keep_chars keep (PyStr.lstrip s) = PyStr.keep_chars keep s.
Proof.
  intros Hk. induction s as [|c s IH]; simpl; [done|].
  destruct (PyStr.isspace c) eqn:Hc; [|done].
  by rewrite (Hk c Hc).
Qed.

Lemma keep_chars_rstrip keep s :
  (∀ c, PyStr.isspace c = true → keep c = false) →
  PyStr.keep_chars keep (PyStr.rstrip s) = PyStr.keep_chars keep s.
Proof.
  intros Hk. induction s as [|c s IH]; [done|].
  simpl PyStr.rstrip. destruct (PyStr.rstrip s) as [|a r'] eqn:Hr.
  - simpl in *. rewrite <- IH.
    destruct (PyStr.isspace c) eqn:Hc; [by rewrite (Hk c Hc)|done].
  - change (PyStr.keep_chars keep (String c (String a r')))
      with (if keep c then String c (PyStr.keep_chars keep (String a r'))
            else PyStr.keep_chars keep (String a r')).
    rewrite IH. done.
Qed.

Lemma keep_chars_strip keep s :
  (∀ c, PyStr.isspace c = true → keep c = false) →
  PyStr.keep_chars keep (PyStr.strip s) = PyStr.keep_chars keep s.
Proof.
  intros Hk. unfold PyStr.strip.
  by rewrite keep_chars_rstrip, keep_chars_lstrip.
Qed.

Lemma isspace_not_alnum c : PyStr.isspace c = true → PyStr.isalnum c = false.
Proof. destruct c as [[] [] [] [] [] [] [] []]; done. Qed.

(** *** White space as [float] sees it *)

Lemma to_ascii_space c :
  PyStr.between 28 31 c = false →
  PyFloat.isspace_c (PyFloat.to_ascii c) = PyStr.isspace c.
Proof. destruct c as [[] [] [] [] [] [] [] []]; done. Qed.

Lemma transform_empty s : PyFloat.transform s = "" ↔ s = "".
Proof. destruct s; simpl; split; congruence. Qed.

Lemma lstrip_c_transform s :
  no_separators s = true →
  PyFloat.lstrip_c (PyFloat.transform s) = PyFloat.transform (PyStr.lstrip s).
Proof.
  unfold no_separators. induction s as [|c s IH]; simpl; [done|].
  intros [Hc Hs]%andb_true_iff. apply negb_true_iff in Hc.
  rewrite (to_ascii_space c Hc).
  destruct (PyStr.isspace c); [by apply IH | done].
Qed.

Lemma rstrip_c_transform s :
  no_separators s = true →
  PyFloat.rstrip_c (PyFloat.transform s) = PyFloat.transform (PyStr.rstrip s).
Proof.
  unfold no_separators. induction s as [|c s IH]; [done|].
  simpl PyStr.forallb. intros [Hc Hs]%andb_true_iff. apply negb_true_iff in Hc.
  simpl. rewrite (IH Hs), (to_ascii_space c Hc).
  destruct (PyStr.rstrip s) as [|a r']; simpl; [|done].
  by destruct (PyStr.isspace c).
Qed.

(** What [float] parses of a string without the four separators is the
    string stripped as [str.strip] does it. *)
Lemma float_strips s :
  no_separators s = true →
  PyFloat.rstrip_c (PyFloat.lstrip_c (PyFloat.transform s))
  = PyFloat.transform (PyStr.strip s).
Proof.
  intros Hs. rewrite lstrip_c_transform by done.
  rewrite rstrip_c_transform; [done|].
  by apply forallb_lstrip.
Qed.

Lemma float_of_str_strip s :
  no_separators s = true →
  PyFloat.float_of_str (PyStr.strip s) = PyFloat.float_of_str s.
Proof.
  intros Hs. unfold PyFloat.float_of_str.
  rewrite (float_strips s Hs).
  rewrite (float_strips (PyStr.strip s)) by (by apply forallb_strip).
  by rewrite strip_idemp.
Qed.

Lemma lstrip_all_space s :
  PyStr.forallb PyStr.isspace s = true → PyStr.lstrip s = "".
Proof.
  induction s as [|c s IH]; simpl; [done|].
  intros [Hc Hs]%andb_true_iff. rewrite Hc. auto.
Qed.

Lemma rstrip_all_space s :
  PyStr.forallb PyStr.isspace s = true → PyStr.rstrip s = "".
Proof.
  induction s as [|c s IH]; simpl; [done|].
  intros [Hc Hs]%andb_true_iff. by rewrite (IH Hs), Hc.
Qed.

Lemma lstrip_app_space pre s :
  PyStr.forallb PyStr.isspace pre = true →
  PyStr.lstrip (pre +:+ s) = PyStr.lstrip s.
Proof.
  induction pre as [|c pre IH]; simpl; [done|].
  intros [Hc Hs]%andb_true_iff. rewrite Hc. auto.
Qed.

Lemma rstrip_app_space s post :
  PyStr.forallb PyStr.isspace post = true →
  PyStr.rstrip (s +:+ post) = PyStr.rstrip s.
Proof.
  intros Hp. induction s as [|c s IH]; simpl.
  - by apply rstrip_all_space.
  - by rewrite IH.
Qed.

(** Blanks before and after a text are what [strip] takes away. *)
Lemma strip_pad pre text post :
  PyStr.forallb PyStr.isspace pre = true →
  PyStr.forallb PyStr.isspace post = true →
  PyStr.strip (pre +:+ text +:+ post) = PyStr.strip text.
Proof.
  intros Hpre Hpost. unfold PyStr.strip.
  rewrite lstrip_app_space by done.
  induction text as [|c text IH].
  - change ("" +:+ post) with post.
    by rewrite (lstrip_all_space post Hpost).
  - change (String c text +:+ post) with (String c (text +:+ post)).
    simpl PyStr.lstrip. destruct (PyStr.isspace c); [done|].
    apply (rstrip_app_space (String c text) post Hpost).
Qed.

Lemma validate_price_strip text :
  validate_price (PyStr.strip text) = validate_price text.
Proof. unfold validate_price. by rewrite strip_idemp. Qed.

Lemma validate_isbn_strip text :
  validate_isbn (PyStr.strip text) = validate_isbn text.
Proof.
  unfold validate_isbn. rewrite strip_idemp.
  by rewrite (keep_chars_strip _ _ isspace_not_alnum).
Qed.

Lemma validate_year_strip text :
  validate_year (PyStr.strip text) = validate_year text.
Proof. unfold validate_year. by rewrite strip_idemp. Qed.

Lemma validate_user_id_strip text :
  validate_user_id (PyStr.strip text) = validate_user_id text.
Proof. unfold validate_user_id. by rewrite strip_idemp. Qed.

(** Blanks typed before or after an answer do not change what the four
    validators say of it: spaces, tabs, line ends, the separators
    U+001C to U+001F, U+0085 and the no-break space. *)
Theorem validators_ignore_padding (pre text post : string) :
  PyStr.forallb PyStr.isspace pre = true →
  PyStr.forallb PyStr.isspace post = true →
  validate_price (pre +:+ text +:+ post) = validate_price text
  ∧ validate_isbn (pre +:+ text +:+ post) = validate_isbn text
  ∧ validate_year (pre +:+ text +:+ post) = validate_year text
  ∧ validate_user_id (pre +:+ text +:+ post) = validate_user_id text.
Proof.
  intros Hpre Hpost.
  pose proof (strip_pad pre text post Hpre Hpost) as Hs.
  split; [|split; [|split]].
  - by rewrite <- validate_price_strip, Hs, validate_price_strip.
  - by rewrite <- validate_isbn_strip, Hs, validate_isbn_strip.
  - by rewrite <- validate_year_strip, Hs, validate_year_strip.
  - by rewrite <- validate_user_id_strip, Hs, validate_user_id_strip.
Qed.

Lemma validators_ignore_padding_witness :
  validate_price "  25.99 " = Accept
  ∧ validate_year "  1999 " = Accept.
Proof.
  destruct (validators_ignore_padding "  " "25.99" " " eq_refl eq_refl)
    as (Hp & _).
  destruct (validators_ignore_padding "  " "1999" " " eq_refl eq_refl)
    as (_ & _ & Hy & _).
  split.
  - change ("  25.99 ") with ("  " +:+ "25.99" +:+ " "). rewrite Hp.
    vm_compute. reflexivity.
  - change ("  1999 ") with ("  " +:+ "1999" +:+ " "). rewrite Hy.
    vm_compute. reflexivity.
Defined.

(** *** A validated price *)

(** A price the interview accepted is one [float] reads, as a number
    above zero, and the merge writes it with two decimals and no sign,
    or as [inf] -- unless it carries one of the separators U+001C to
    U+001F, which [strip] removes for the validator and [float] refuses
    in the merge: such a price is accepted and then written as typed. *)
Theorem validated_price_is_formatted :
  (∀ text,
     validate_price text = Accept → no_separators text = true →
     ∃ x, PyFloat.float_of_str text = Some x
          ∧ PyFloat.positive x = true
          ∧ format_price text = PyFloat.format_2f x
          ∧ (format_price text = "inf"
             ∨ ∃ c r, format_price text = String c r
                      ∧ PyStr.isdigit_ascii c = true
                      ∧ two_decimals (format_price text) = true))
  ∧ validate_price (String "028" "25") = Accept
  ∧ format_price (String "028" "25") = String "028" "25".
Proof.
  split; [|split; vm_compute; reflexivity].
  intros text Hv Hs. unfold validate_price in Hv.
  destruct (negb _); [discriminate|].
  rewrite (float_of_str_strip text Hs) in Hv.
  destruct (PyFloat.float_of_str text) as [x|] eqn:Hx; [|discriminate].
  destruct (PyFloat.positive x) eqn:Hpos; [|discriminate].
  exists x. split; [done|]. split; [done|].
  unfold format_price. rewrite Hx. split; [done|].
  destruct x as [neg m e|neg|]; simpl in Hpos.
  - apply andb_true_iff in Hpos as [Hneg _]. apply negb_true_iff in Hneg.
    subst neg. right.
    destruct (fixed2_two_decimals (PyFloat.hundredths m e)) as (c & r & Hf & Hc & _).
    exists c, r. split; [exact Hf|]. split; [done|].
    apply (format_2f_two_decimals false m e).
  - apply negb_true_iff in Hpos. subst neg. by left.
  - discriminate.
Qed.

Lemma validated_price_is_formatted_witness :
  format_price "25.5" = "25.50".
Proof.
  destruct validated_price_is_formatted as [H _].
  destruct (H "25.5") as (x & Hx & _ & Hf & _);
    [vm_compute; reflexivity | reflexivity |].
  rewrite Hf. clear Hf.
  vm_compute in Hx. injection Hx as <-.
  vm_compute. reflexivity.
Defined.

(** ** Years and quantities *)

Lemma validate_year_checked :
  forallb (λ y, Bool.eqb (accepted (validate_year (PyFloat.dec y)))
                  ((1400 <=? y) && (y <=? 2030)))
    (seqZ 0 10000) = true.
Proof. vm_compute. reflexivity. Qed.

(** A year written in decimal is accepted exactly from 1400 to 2030; an
    accepted text is one [int] reads, which besides digits allows a
    sign, leading zeros and single underscores; the empty answer is no
    year, and the optional prompts let it through before the validator
    sees it. The ISBN validator itself accepts blanks, with or without
    that guard. *)
Theorem validate_year_range :
  (∀ y, 0 <= y <= 9999 →
        accepted (validate_year (PyFloat.dec y)) = (1400 <=? y) && (y <=? 2030))
  ∧ (∀ text, validate_year text = Accept →
             ∃ y, PyInt.int_of_str (PyStr.strip text) = Some y
                  ∧ 1400 <= y <= 2030)
  ∧ validate_year "1_999" = Accept
  ∧ validate_year "+01999" = Accept
  ∧ (∀ text, PyStr.strip text = "" →
             validate_year text = Reject "Please enter a valid year"
             ∧ if_not_blank validate_year text = Accept)
  ∧ (∀ text, if_not_blank validate_isbn text = validate_isbn text).
Proof.
  split; [|split; [|split; [|split; [|split]]]].
  - intros y Hy. pose proof validate_year_checked as H.
    rewrite forallb_forall in H.
    apply Bool.eqb_prop, (H y), list_elem_of_In, elem_of_seqZ. lia.
  - intros text. unfold validate_year.
    destruct (PyInt.int_of_str _) as [y|]; [|discriminate].
    destruct (_ && _) eqn:Hr; [|discriminate]. intros _.
    exists y. split; [done|]. lia.
  - vm_compute. reflexivity.
  - vm_compute. reflexivity.
  - intros text Hb. unfold if_not_blank, validate_year. rewrite Hb. done.
  - intros text. unfold if_not_blank, validate_isbn.
    by destruct (PyStr.nonempty (PyStr.strip text)).
Qed.

Lemma digit_facts c :
  PyStr.isdigit_ascii c = true →
  PyFloat.to_ascii c = c ∧ PyFloat.isspace_c c = false
  ∧ PyStr.between 95 95 c = false ∧ superscript_digit c = false
  ∧ char_isdigit c = true.
Proof. destruct c as [[] [] [] [] [] [] [] []]; done. Qed.

Lemma superscript_facts c :
  superscript_digit c = true →
  PyFloat.to_ascii c = "?"%char ∧ PyStr.isdigit_ascii c = false.
Proof. destruct c as [[] [] [] [] [] [] [] []]; done. Qed.

Lemma char_isdigit_cases c :
  char_isdigit c = PyStr.isdigit_ascii c || superscript_digit c.
Proof. unfold char_isdigit, superscript_digit, PyStr.isdigit_ascii. by rewrite orb_assoc. Qed.

Lemma transform_digits s :
  PyStr.forallb PyStr.isdigit_ascii s = true → PyFloat.transform s = s.
Proof.
  induction s as [|c s IH]; simpl; [done|].
  intros [Hc Hs]%andb_true_iff.
  destruct (digit_facts c Hc) as (-> & _). by rewrite IH.
Qed.

Lemma scan_digits_all prev acc n s :
  PyStr.between 95 95 prev = false →
  PyStr.forallb PyStr.isdigit_ascii s = true →
  PyInt.scan_digits prev acc n s
  = Some (PyFloat.digits_value acc s, (n + PyFloat.len s)%N, EmptyString).
Proof.
  revert prev acc n. induction s as [|c s IH]; intros prev acc n Hp; simpl.
  - intros _. rewrite Hp. unfold PyFloat.len. simpl. by rewrite N.add_0_r.
  - intros [Hc Hs]%andb_true_iff. rewrite Hc.
    destruct (digit_facts c Hc) as (_ & _ & Hu & _).
    rewrite (IH c _ _ Hu Hs). do 3 f_equal. unfold PyFloat.len. simpl. lia.
Qed.

(** A numeral of ASCII digits, as [int] reads it. *)
Lemma int_of_str_digits s :
  PyStr.forallb PyStr.isdigit_ascii s = true → s ≠ "" →
  PyInt.int_of_str s
  = if (PyInt.MAX_STR_DIGITS <? PyFloat.len s)%N then None
    else Some (PyFloat.digits_value 0 s).
Proof.
  intros Hs Hne. unfold PyInt.int_of_str. rewrite (transform_digits s Hs).
  destruct s as [|c r]; [done|]. clear Hne.
  pose proof Hs as [Hc Hr]%andb_true_iff.
  destruct (digit_facts c Hc) as (_ & Hsp & Hu & _).
  simpl PyFloat.lstrip_c. rewrite Hsp, (read_sign_digit c r Hc).
  rewrite (scan_digits_all _ 0 0 (String c r)) by done.
  assert ((0 + PyFloat.len (String c r) =? 0)%N = false) as ->.
  { apply N.eqb_neq. unfold PyFloat.len. simpl. lia. }
  rewrite N.add_0_l.
  destruct c as [[] [] [] [] [] [] [] []]; try discriminate Hc;
    by destruct (_ <? _)%N.
Qed.

Lemma scan_digits_stop prev acc n s :
  PyStr.between 95 95 prev = false →
  PyStr.forallb char_isdigit s = true →
  PyStr.existsb superscript_digit s = true →
  ∃ v k rest,
    PyInt.scan_digits prev acc n (PyFloat.transform s)
    = Some (v, k, String "?" rest).
Proof.
  revert prev acc n. induction s as [|c s IH]; intros prev acc n Hp; simpl;
    [discriminate|].
  intros [Hc Hs]%andb_true_iff Hex. rewrite char_isdigit_cases in Hc.
  destruct (PyStr.isdigit_ascii c) eqn:Hd.
  - destruct (digit_facts c Hd) as (-> & _ & Hu & Hsup & _).
    rewrite Hd. rewrite Hsup in Hex. by apply IH.
  - simpl in Hc. destruct (superscript_facts c Hc) as (-> & _).
    simpl. rewrite Hp. eauto.
Qed.

(** A numeral with a superscript digit is one [int] refuses. *)
Lemma int_of_str_superscript s :
  PyStr.forallb char_isdigit s = true →
  PyStr.existsb superscript_digit s = true →
  PyInt.int_of_str s = None.
Proof.
  intros Hs Hex. unfold PyInt.int_of_str.
  destruct (scan_digits_stop "000"%char 0 0 s eq_refl Hs Hex)
    as (v & k & rest & Hscan).
  destruct s as [|c r]; [discriminate|].
  pose proof Hs as [Hc Hr]%andb_true_iff. rewrite char_isdigit_cases in Hc.
  simpl PyFloat.transform in *.
  assert (∀ t, (t = c ∧ PyStr.isdigit_ascii c = true) ∨ t = "?"%char →
               ∀ x, PyInt.scan_digits "000"%char 0 0 (String t x)
                    = Some (v, k, String "?" rest) →
               (let '(neg, r) := PyFloat.read_sign (PyFloat.lstrip_c (String t x)) in
                match r with
                | String "_" _ => None
                | _ =>
                    match PyInt.scan_digits "000"%char 0 0 r with
                    | None => None
                    | Some (v, digits, rest) =>
                        if (digits =? 0)%N then None
                        else if (PyInt.MAX_STR_DIGITS <? digits)%N then None
                        else match PyFloat.lstrip_c rest with
                             | EmptyString => Some (if neg then - v else v)
                             | _ => None
                             end
                    end
                end) = None) as Hgen.
  { intros t [[-> Hd]| ->] x Hx.
    - destruct (digit_facts c Hd) as (_ & Hsp & _).
      simpl PyFloat.lstrip_c. rewrite Hsp, (read_sign_digit c x Hd), Hx.
      destruct c as [[] [] [] [] [] [] [] []]; try discriminate Hd;
        destruct (k =? 0)%N; try done; by destruct (_ <? _)%N.
    - change (PyFloat.lstrip_c (String "?" x)) with (String "?" x).
      change (PyFloat.read_sign (String "?" x)) with (false, String "?" x).
      cbv beta iota. rewrite Hx.
      destruct (k =? 0)%N; [done|]. by destruct (_ <? _)%N. }
  apply Hgen; [|done].
  destruct (PyStr.isdigit_ascii c) eqn:Hd.
  - left. by destruct (digit_facts c Hd) as (-> & _).
  - right. simpl in Hc. by destruct (superscript_facts c Hc) as (-> & _).
Qed.

(** The check of a quantity typed after "Other", case by case: a text
    that is not all digits is turned down; ASCII digits are read as a
    number and accepted when it is above zero; but a text of more than
    4300 digits, or one with a superscript digit, passes [isdigit] and
    makes [int] raise inside the check. *)
Theorem quantity_check (text : string) :
  (str_isdigit text = false → quantity_is_valid text = Some false)
  ∧ (PyStr.forallb PyStr.isdigit_ascii text = true → text ≠ "" →
     (String.length text <= 4300)%nat →
     PyInt.int_of_str text = Some (PyFloat.digits_value 0 text)
     ∧ quantity_is_valid text = Some (0 <? PyFloat.digits_value 0 text))
  ∧ (PyStr.forallb PyStr.isdigit_ascii text = true →
     (4300 < String.length text)%nat → quantity_is_valid text = None)
  ∧ (str_isdigit text = true → PyStr.existsb superscript_digit text = true →
     quantity_is_valid text = None).
Proof.
  assert (PyStr.forallb PyStr.isdigit_ascii text = true → text ≠ "" →
          str_isdigit text = true) as Hisd.
  { intros Hs Hne. unfold str_isdigit.
    apply andb_true_iff. split; [by apply nonempty_true|].
    clear Hne. induction text as [|c s IH]; simpl in *; [done|].
    apply andb_true_iff in Hs as [Hc Hs].
    destruct (digit_facts c Hc) as (_ & _ & _ & _ & ->). auto. }
  split; [|split; [|split]].
  - intros H. unfold quantity_is_valid. by rewrite H.
  - intros Hs Hne Hlen. unfold quantity_is_valid.
    rewrite (Hisd Hs Hne), (int_of_str_digits text Hs Hne).
    assert ((PyInt.MAX_STR_DIGITS <? PyFloat.len text)%N = false) as ->.
    { apply N.ltb_ge. unfold PyFloat.len, PyInt.MAX_STR_DIGITS. lia. }
    done.
  - intros Hs Hlen. unfold quantity_is_valid.
    assert (text ≠ "") as Hne by (intros ->; simpl in Hlen; lia).
    rewrite (Hisd Hs Hne), (int_of_str_digits text Hs Hne).
    assert ((PyInt.MAX_STR_DIGITS <? PyFloat.len text)%N = true) as ->.
    { apply N.ltb_lt. unfold PyFloat.len, PyInt.MAX_STR_DIGITS. lia. }
    done.
  - intros Hd Hex. unfold quantity_is_valid. rewrite Hd.
    unfold str_isdigit in Hd. apply andb_true_iff in Hd as [_ Hd].
    by rewrite (int_of_str_superscript text Hd Hex).
Qed.

Lemma quantity_check_witness :
  quantity_is_valid "12" = Some true
  ∧ quantity_is_valid "0" = Some false
  ∧ quantity_is_valid (String "178" "") = None.
Proof.
  destruct (quantity_check "12") as (_ & H12 & _).
  destruct (quantity_check "0") as (_ & H0 & _).
  destruct (quantity_check (String "178" "")) as (_ & _ & _ & Hsup).
  split; [|split].
  - destruct H12 as [_ ->]; [reflexivity|intros H; discriminate H|simpl; lia|].
    reflexivity.
  - destruct H0 as [_ ->]; [reflexivity|intros H; discriminate H|simpl; lia|].
    reflexivity.
  - apply Hsup; reflexivity.
Defined.

(** ** From the interview to the merge and the file name *)

Lemma first_item_error_cases o e :
  first_item_error o = Some e →
  e = KeyError (KInt 0) ∨ e = IndexError ∨ e = TypeError.
Proof.
  unfold first_item_error. destruct o as [c|]; [|discriminate].
  destruct (truthy c); [|discriminate].
  destruct c as [| | | | | [|[| | | | | |] rest] |]; intros [= <-]; auto.
Qed.

(** Only a user input without the key makes the merge miss the vendor
    reference. *)
Lemma merge_error_reference t ui now :
  merge_error t ui now = Some (KeyError (KStr "vendor_reference_number")) →
  UserInput.vendor_reference_number ui = None.
Proof.
  unfold merge_error.
  destruct t as [| | | | | |m]; try discriminate.
  destruct (m !! "vendor") as [[| | | | | |v]|]; try discriminate.
  assert (∀ X : option exn,
            X = Some (KeyError (KStr "vendor_reference_number")) →
            X = Some TypeError → False) as Hne by (intros X -> [=]).
  destruct (m !! "resource_metadata") as [[| | | | | |r]|]; try discriminate.
  all: destruct (first_item_error (m !! "fund_distribution")) as [e|] eqn:He;
    [apply first_item_error_cases in He as [->|[->| ->]]; discriminate|].
  all: destruct (UserInput.vendor_reference_number ui); [|done].
  all: destruct (first_item_error (m !! "location")) as [e|] eqn:He';
    [apply first_item_error_cases in He' as [->|[->| ->]]; discriminate|].
  all: destruct (Clock.add_days 30 now) as [d|e] eqn:Hd; [discriminate|].
  all: apply add_days_error in Hd as ->; discriminate.
Qed.

(** What [get_user_input] hands on. It raises only when the quantity
    typed after "Other" is not a numeral, or that prompt was abandoned;
    a quantity the check accepted converts, to a number above zero. The
    record always has the vendor-reference key, so the merge never
    misses it and the file name never falls back on [noref]: an
    unanswered reference leaves that part of the name empty. *)
Theorem interview_record (a : Interview.t) :
  (get_user_input a = None ↔
     Interview.quantity a = Interview.Other None
     ∨ ∃ text, Interview.quantity a = Interview.Other (Some text)
               ∧ PyInt.int_of_str text = None)
  ∧ (∀ text, Interview.quantity a = Interview.Other (Some text) →
             quantity_is_valid text = Some true →
             ∃ ui, get_user_input a = Some ui ∧ 0 < UserInput.quantity ui)
  ∧ (∀ ui, get_user_input a = Some ui →
       UserInput.vendor_reference_number ui
       = Some (or_empty (Interview.vendor_ref a))
       ∧ UserInput.price ui = or_empty (Interview.price a)
       ∧ (∀ t rc cd now,
            customize_template t ui rc cd now
            ≠ Raise (KeyError (KStr "vendor_reference_number")))
       ∧ clean_vendor_ref ui
         = PyStr.take 15
             (PyStr.keep_chars keep_vendor_ref (or_empty (Interview.vendor_ref a)))
       ∧ (Interview.vendor_ref a = None ∨ Interview.vendor_ref a = Some "" →
          ∀ now,
            generate_filename ui now
            = "generic_" +:+ clean_title (or_empty (Interview.title a))
                +:+ "__" +:+ Clock.strftime_stamp now +:+ ".json")).
Proof.
  unfold get_user_input.
  split; [|split].
  - destruct (Interview.quantity a) as [n|[text|]]; simpl.
    + split; [discriminate|]. intros [[=]|(text & [=] & _)].
    + destruct (PyInt.int_of_str text) as [q|] eqn:Hq; simpl.
      * split; [discriminate|]. intros [[=]|(text' & [= <-] & ?)]. congruence.
      * split; [|done]. intros _. right. eauto.
    + split; [|done]. intros _. by left.
  - intros text -> Hv. unfold quantity_is_valid in Hv. simpl.
    destruct (str_isdigit text); [|discriminate].
    destruct (PyInt.int_of_str text) as [q|]; simpl in *; [|discriminate].
    injection Hv as Hv. apply Z.ltb_lt in Hv. eauto.
  - intros ui Hui.
    destruct (match Interview.quantity a with
              | Interview.Menu n => Some n
              | Interview.Other text => text ≫= PyInt.int_of_str
              end) as [q|]; simpl in Hui; [|discriminate].
    injection Hui as <-. simpl.
    split; [done|]. split; [done|]. split; [|split; [done|]].
    + intros t rc cd now Hr.
      apply customize_template_raise, merge_error_reference in Hr.
      discriminate Hr.
    + intros Href now. unfold generate_filename, clean_vendor_ref. simpl.
      by destruct Href as [-> | ->].
Qed.

Lemma interview_record_witness :
  ∃ ui,
    get_user_input sample_interview = Some ui
    ∧ UserInput.quantity ui = 12
    ∧ UserInput.vendor_reference_number ui = Some ""
    ∧ generate_filename ui Sample.now
      = "generic_Learning_Go_An_Introduction__20241215_090559.json".
Proof.
  destruct (interview_record sample_interview) as (_ & Hq & Hrec).
  destruct (Hq "12" eq_refl eq_refl) as (ui & Hui & _).
  exists ui. split; [exact Hui|].
  destruct (Hrec ui Hui) as (Href & _ & _ & _ & Hname).
  split; [by injection Hui as <-|].
  split; [exact Href|].
  rewrite (Hname (or_introl eq_refl)). vm_compute. reflexivity.
Defined.

(** *** The file name *)

Lemma keep_vendor_ref_filename_char c :
  keep_vendor_ref c = true → filename_char c = true.
Proof. unfold keep_vendor_ref, filename_char. by intros ->. Qed.

Lemma digit_filename_char c :
  PyStr.isdigit_ascii c = true → filename_char c = true.
Proof. destruct c as [[] [] [] [] [] [] [] []]; done. Qed.

Lemma underscore_filename_char c :
  PyStr.between 95 95 c = true → filename_char c = true.
Proof. destruct c as [[] [] [] [] [] [] [] []]; done. Qed.

Lemma filename_char_facts c :
  filename_char c = true →
  PyStr.between 47 47 c = false ∧ PyStr.isspace c = false
  ∧ PyStr.between 0 0 c = false.
Proof. destruct c as [[] [] [] [] [] [] [] []]; done. Qed.

Lemma forallb_impl (p q : ascii → bool) s :
  (∀ c, p c = true → q c = true) →
  PyStr.forallb p s = true → PyStr.forallb q s = true.
Proof.
  intros Hpq. induction s as [|c s IH]; simpl; [done|].
  intros [Hc Hs]%andb_true_iff. by rewrite (Hpq c Hc), IH.
Qed.

Lemma forallb_not_existsb (p q : ascii → bool) s :
  (∀ c, p c = true → q c = false) →
  PyStr.forallb p s = true → PyStr.existsb q s = false.
Proof.
  intros Hpq. induction s as [|c s IH]; simpl; [done|].
  intros [Hc Hs]%andb_true_iff. by rewrite (Hpq c Hc), IH.
Qed.

Lemma is_stamp_facts s :
  is_stamp s = true →
  String.length s = 15%nat ∧ PyStr.forallb filename_char s = true.
Proof.
  do 15 (destruct s as [|? s]; [discriminate|]).
  destruct s; [|discriminate].
  simpl. intros H.
  repeat match goal with
         | H : _ && _ = true |- _ => apply andb_true_iff in H as [? ?]
         end.
  split; [done|].
  repeat match goal with
         | H : PyStr.isdigit_ascii _ = true |- _ =>
             apply digit_filename_char in H
         | H : PyStr.between 95 95 _ = true |- _ =>
             apply underscore_filename_char in H
         end.
  repeat (apply andb_true_iff; split); done.
Qed.

(** A generated name is made of word characters, hyphens and dots only:
    it holds no slash, no white space and no NUL, so saving under it
    writes a file of that name in the working directory; and it is 30
    to 75 characters long. *)
Theorem generate_filename_safe (ui : UserInput.t) (now : Clock.datetime) :
  clock_ok now →
  PyStr.forallb filename_char (generate_filename ui now) = true
  ∧ PyStr.existsb (PyStr.between 47 47) (generate_filename ui now) = false
  ∧ PyStr.existsb PyStr.isspace (generate_filename ui now) = false
  ∧ PyStr.existsb (PyStr.between 0 0) (generate_filename ui now) = false
  ∧ (30 <= String.length (generate_filename ui now) <= 75)%nat.
Proof.
  intros Hnow.
  destruct (clean_title_safe (UserInput.title ui)) as [Ht1 Ht2].
  destruct (clean_vendor_ref_safe ui) as [Hr1 Hr2].
  destruct (is_stamp_facts _ (strftime_stamp_shape now Hnow)) as [Hs1 Hs2].
  apply (forallb_impl _ _ _ keep_vendor_ref_filename_char) in Ht2, Hr2.
  assert (PyStr.forallb filename_char (generate_filename ui now) = true) as Hall.
  { unfold generate_filename. cbv zeta.
    rewrite !forallb_app, Ht2, Hr2, Hs2. done. }
  split; [done|].
  split; [|split; [|split]].
  - apply (forallb_not_existsb filename_char); [|done].
    intros c Hc. by destruct (filename_char_facts c Hc) as (? & ? & ?).
  - apply (forallb_not_existsb filename_char); [|done].
    intros c Hc. by destruct (filename_char_facts c Hc) as (? & ? & ?).
  - apply (forallb_not_existsb filename_char); [|done].
    intros c Hc. by destruct (filename_char_facts c Hc) as (? & ? & ?).
  - unfold generate_filename. cbv zeta. rewrite !length_app, Hs1.
    simpl String.length. lia.
Qed.

Lemma generate_filename_safe_witness :
  PyStr.existsb (PyStr.between 47 47)
    (generate_filename Sample.user_input Sample.now) = false
  ∧ (String.length (generate_filename Sample.user_input Sample.now) <= 75)%nat.
Proof.
  assert (clock_ok Sample.now) as Hnow by (unfold clock_ok; simpl; lia).
  destruct (generate_filename_safe Sample.user_input Sample.now Hnow)
    as (_ & Hslash & _ & _ & _ & Hlen).
  split; [exact Hslash | exact Hlen].
Defined.

(** ** The selection and the conditional fields *)

Lemma no_categories sel answers :
  sel = None ∨ sel = Some [] ∨ (∃ l, sel = Some l ∧ "None" ∈ l) →
  get_receiving_note_categories sel answers = ("None", ConditionalData.empty).
Proof.
  intros [->|[->|(l & -> & Hin)]]; try done.
  unfold get_receiving_note_categories.
  destruct l as [|x l]; [done|].
  apply str_in_true in Hin. by rewrite Hin.
Qed.

Lemma some_categories l answers :
  l ≠ [] → "None" ∉ l →
  get_receiving_note_categories (Some l) answers
  = (PyStr.join " | " l,
     {| ConditionalData.interested_user :=
          if str_in "Interested User" l
          then Some {| InterestedUser.user_id := Answers.user_id answers;
                       InterestedUser.notify := Answers.notify answers;
                       InterestedUser.hold := Answers.hold answers |}
          else None;
        ConditionalData.additional_notes :=
          if str_in "Note" l
          then Some (or_empty (Answers.additional_notes answers)) else None;
        ConditionalData.reserve_note :=
          if str_in "Reserve" l
          then Some (or_empty (Answers.reserve_note answers)) else None |}).
Proof.
  intros Hne Hnot%str_in_false. unfold get_receiving_note_categories.
  destruct l as [|x l]; [done|]. by rewrite Hnot.
Qed.

(** Whatever was selected, abandoned or left empty, the merged record
    has an interested user exactly when "Interested User" was selected
    without "None": a template's own interested user never survives.
    Without a selection the receiving note is empty, and without "Note"
    and "Reserve" the template's notes stay. *)
Theorem selection_decides_conditional_fields
    (sel : option (list string)) (answers : Answers.t)
    (m : gmap string json) (ui : UserInput.t) (now : Clock.datetime) :
  mergeable m ui now = true →
  ∃ out,
    customize_template (JObj m) ui
      (get_receiving_note_categories sel answers).1
      (get_receiving_note_categories sel answers).2 now = Ok out
    ∧ (is_Some (out !! "interested_user") ↔
         ∃ l, sel = Some l ∧ ("None" ∉ l) ∧ "Interested User" ∈ l)
    ∧ (sel = None ∨ sel = Some [] ∨ (∃ l, sel = Some l ∧ "None" ∈ l) →
       out !! "receiving_note" = Some (JStr "") ∧ out !! "note" = m !! "note")
    ∧ (∀ l, sel = Some l → "Note" ∉ l → "Reserve" ∉ l →
            out !! "note" = m !! "note").
Proof.
  intros Hm.
  destruct (customize_template_returns m ui
              (get_receiving_note_categories sel answers).1
              (get_receiving_note_categories sel answers).2 now Hm) as [out Hout].
  exists out. split; [done|].
  apply customize_template_fields in Hout
    as (m' & r0 & [= <-] & _ & _ & _ & _ & _ & Hrn & Hnote & Hiu).
  assert (sel = None ∨ sel = Some [] ∨ (∃ l, sel = Some l ∧ "None" ∈ l)
          ∨ (∃ l, sel = Some l ∧ l ≠ [] ∧ "None" ∉ l)) as Hcases.
  { destruct sel as [[|x l]|]; [auto|..|auto].
    destruct (decide ("None" ∈ x :: l)); [|right; right; right; eauto].
    right; right; left; eauto. }
  split; [|split].
  - destruct Hcases as [->|[->|[(l0 & -> & Hin)|(l & -> & Hne & Hnot)]]].
    + simpl in Hiu. rewrite Hiu. split; [by intros [? [=]]|].
      by intros (l & [=] & _).
    + simpl in Hiu. rewrite Hiu. split; [by intros [? [=]]|].
      intros (l & [= <-] & _ & Hin). by apply elem_of_nil in Hin.
    + rewrite (no_categories (Some l0) answers) in Hiu by eauto.
      simpl in Hiu. rewrite Hiu. split; [by intros [? [=]]|].
      by intros (l & [= <-] & Hnot & _).
    + rewrite (some_categories l answers Hne Hnot) in Hiu. simpl in Hiu.
      rewrite Hiu. destruct (str_in "Interested User" l) eqn:Hin.
      * apply str_in_true in Hin. split; [eauto|]. by eexists.
      * apply str_in_false in Hin. split; [by intros [? [=]]|].
        intros (l' & [= <-] & _ & ?). done.
  - intros H. rewrite (no_categories sel answers H) in Hrn, Hnote.
    simpl in Hrn, Hnote. done.
  - intros l -> Hn Hr.
    destruct Hcases as [H|[H|[H|(l' & [= <-] & Hne & Hnot)]]].
    1-3: by rewrite (no_categories (Some l) answers) in Hnote by tauto.
    rewrite (some_categories l answers Hne Hnot) in Hnote.
    apply str_in_false in Hn, Hr. unfold build_notes in Hnote. simpl in Hnote.
    by rewrite Hn, Hr in Hnote.
Qed.

Lemma selection_decides_conditional_fields_witness :
  ∃ out,
    customize_template (JObj Sample.template) Sample.user_input
      (get_receiving_note_categories None Sample.answers).1
      (get_receiving_note_categories None Sample.answers).2 Sample.now = Ok out
    ∧ out !! "interested_user" = None
    ∧ out !! "receiving_note" = Some (JStr "").
Proof.
  destruct (selection_decides_conditional_fields None Sample.answers
              Sample.template Sample.user_input Sample.now eq_refl)
    as (out & Hout & Hiu & Hnone & _).
  exists out. split; [exact Hout|]. clear Hout. split.
  - destruct (out !! "interested_user") as [u|] eqn:Hu; [|reflexivity].
    destruct Hiu as [Hiu _].
    destruct (Hiu (ex_intro _ u eq_refl)) as (l & Hl & _). discriminate Hl.
  - apply Hnone. left. reflexivity.
Defined.

(** ** The summary and the menu *)

(** What the summary reads of a merged record, up to the two reads that
    depend on the template's shape. *)
Lemma display_summary_after_merge m ui rc cd now out :
  customize_template (JObj m) ui rc cd now = Ok out →
  ∃ r0 ref,
    template_block m = Some r0
    ∧ UserInput.vendor_reference_number ui = Some ref
    ∧ display_summary_fields out
      = (material_type ←
           get_or (default (JObj ∅) (m !! "material_type")) "value" (JStr "N/A");
         first ← getitem0 (default (JList [JObj ∅]) (out !! "location"));
         quantity ← get_or first "quantity" (JStr "N/A");
         Ok {| Summary.title := JStr (UserInput.title ui);
               Summary.author :=
                 default (JStr "Not specified")
                   (if PyStr.nonempty (UserInput.author ui)
                    then Some (JStr (UserInput.author ui)) else r0 !! "author");
               Summary.price := JStr (format_price (UserInput.price ui));
               Summary.vendor := JStr (UserInput.vendor_code ui);
               Summary.vendor_account := JStr (UserInput.vendor_account ui);
               Summary.material_type := material_type;
               Summary.vendor_ref :=
                 default (JStr "Not specified")
                   (if PyStr.nonempty ref then Some (JStr ref)
                    else m !! "vendor_reference_number");
               Summary.quantity := quantity;
               Summary.reporting_code :=
                 default (JStr "N/A")
                   (if PyStr.nonempty (UserInput.reporting_code ui)
                    then Some (JStr (UserInput.reporting_code ui))
                    else m !! "reporting_code");
               Summary.receiving_note :=
                 JStr (if bool_decide (rc ≠ "None") then rc else "") |}).
Proof.
  intros Hout.
  pose proof Hout
    as (m' & r0 & [= <-] & Hb & Hrm & Hprice & _ & _ & Hrn & _)%customize_template_fields.
  pose proof Hout
    as (v & ref & d & Hv & Href & Hd & Hov & Hva & Hvr & _ & _ & Hrc & _ & _ & Hk)%customize_template_rest.
  exists r0, ref. split; [done|]. split; [done|].
  assert (out !! "material_type" = m !! "material_type") as Hmt.
  { apply Hk, not_in_merge_keys. repeat split; done. }
  unfold display_summary_fields.
  rewrite Hrm, Hprice, Hov, Hva, Hvr, Hrc, Hrn, Hmt.
  unfold amount_object, bibliographic_block.
  unfold mbind at 1 2 3 4 5, result_bind. cbv beta iota.
  simpl default at 1 2 3.
  unfold get_or at 1 2 3 4.
  rewrite put_oclc_lookup_ne by done.
  rewrite put_oclc_lookup_ne by done.
  rewrite !put_if_nonempty_lookup.
  repeat (destruct (decide _) as [Heq|_]; [discriminate Heq|]).
  destruct (decide ("author" = "author")) as [_|Hne]; [|done].
  rewrite !lookup_insert_eq, lookup_insert_ne by done.
  cbn [from_option id]. cbv beta iota. rewrite lookup_insert_eq.
  reflexivity.
Qed.

Lemma merged_location m ui rc cd now out :
  customize_template (JObj m) ui rc cd now = Ok out →
  first_item_ok (m !! "location") = true
  ∧ out !! "location"
    = match m !! "location" with
      | Some (JList (JObj o :: rest)) =>
          Some (JList (JObj (<["quantity" := JInt (UserInput.quantity ui)]> o)
                       :: rest))
      | other => other
      end.
Proof.
  intros Hout.
  pose proof (customize_template_mergeable _ _ _ _ _ _ Hout)
    as (_ & _ & _ & Hok & _)%mergeable_true.
  apply customize_template_rest in Hout
    as (v & ref & d & _ & _ & _ & _ & _ & _ & Hloc & _).
  done.
Qed.

(** After a merge from a template of the usual shape the summary shows
    what the user typed: title, price as formatted, vendor, account and
    quantity, and author, subject and reference when they were given. *)
Theorem summary_shows_the_order
    (m : gmap string json) (ui : UserInput.t) (rc : string)
    (cd : ConditionalData.t) (now : Clock.datetime) :
  mergeable m ui now = true →
  mapping_or_missing (m !! "material_type") = true →
  (m !! "location" = None
   ∨ ∃ first rest, m !! "location" = Some (JList (first :: rest))) →
  ∃ out s,
    customize_template (JObj m) ui rc cd now = Ok out
    ∧ display_summary_fields out = Ok s
    ∧ Summary.title s = JStr (UserInput.title ui)
    ∧ Summary.price s = JStr (format_price (UserInput.price ui))
    ∧ Summary.vendor s = JStr (UserInput.vendor_code ui)
    ∧ Summary.vendor_account s = JStr (UserInput.vendor_account ui)
    ∧ Summary.receiving_note s
      = JStr (if bool_decide (rc ≠ "None") then rc else "")
    ∧ Summary.quantity s
      = match m !! "location" with
        | None => JStr "N/A"
        | Some _ => JInt (UserInput.quantity ui)
        end
    ∧ (UserInput.author ui ≠ "" →
       Summary.author s = JStr (UserInput.author ui))
    ∧ (UserInput.reporting_code ui ≠ "" →
       Summary.reporting_code s = JStr (UserInput.reporting_code ui))
    ∧ (∀ ref, UserInput.vendor_reference_number ui = Some ref → ref ≠ "" →
              Summary.vendor_ref s = JStr ref).
Proof.
  intros Hm Hmt Hloc.
  destruct (customize_template_returns m ui rc cd now Hm) as [out Hout].
  exists out.
  destruct (display_summary_after_merge m ui rc cd now out Hout)
    as (r0 & ref & _ & Href & Hs).
  destruct (merged_location m ui rc cd now out Hout) as [Hok Hl].
  assert (∃ mt, get_or (default (JObj ∅) (m !! "material_type")) "value"
                  (JStr "N/A") = Ok mt) as (mt & Hmt').
  { destruct (m !! "material_type") as [[]|]; try discriminate Hmt;
      simpl; eauto. }
  assert (∃ o,
            getitem0 (default (JList [JObj ∅]) (out !! "location")) = Ok (JObj o)
            ∧ default (JStr "N/A") (o !! "quantity")
              = match m !! "location" with
                | None => JStr "N/A"
                | Some _ => JInt (UserInput.quantity ui)
                end) as (o & Hfirst & Hq).
  { destruct Hloc as [Hn|(first & rest & Hsome)].
    - rewrite Hl, Hn. exists ∅. done.
    - rewrite Hsome in Hl, Hok. rewrite Hsome.
      destruct first as [| | | | | |o]; try discriminate Hok.
      rewrite Hl. eexists. split; [done|]. by rewrite lookup_insert_eq. }
  rewrite Hmt', Hfirst in Hs.
  unfold mbind, result_bind in Hs. cbv beta iota in Hs.
  unfold get_or in Hs. rewrite Hq in Hs.
  eexists. split; [done|]. split; [exact Hs|]. cbn [Summary.title
    Summary.author Summary.price Summary.vendor Summary.vendor_account
    Summary.material_type Summary.vendor_ref Summary.quantity
    Summary.reporting_code Summary.receiving_note].
  repeat (split; [done|]).
  split; [|split].
  - intros Hne%nonempty_true. by rewrite Hne.
  - intros Hne%nonempty_true. by rewrite Hne.
  - intros ref' Href' Hne%nonempty_true.
    assert (ref' = ref) as -> by congruence. by rewrite Hne.
Qed.

Lemma summary_shows_the_order_witness :
  ∃ out s,
    customize_template (JObj Sample.template) Sample.user_input "Display"
      ConditionalData.empty Sample.now = Ok out
    ∧ display_summary_fields out = Ok s
    ∧ Summary.title s = JStr "Learning Go: An Introduction!!"
    ∧ Summary.price s = JStr "25.00"
    ∧ Summary.quantity s = JInt 2.
Proof.
  destruct (summary_shows_the_order Sample.template Sample.user_input
              "Display" ConditionalData.empty Sample.now eq_refl eq_refl)
    as (out & s & Hout & Hs & Ht & Hp & _ & _ & _ & Hq & _).
  { right. eexists _, _. reflexivity. }
  exists out, s. split; [exact Hout|]. split; [exact Hs|].
  clear Hout Hs. split; [exact Ht|]. split; [exact Hp | exact Hq].
Defined.

(** The summary is shown before the record is saved, and it reads the
    record more strictly than the merge writes it: from a template whose
    [material_type] is not a mapping, or whose [location] is an empty
    list or another false value, the merge returns a record and the
    summary then raises. *)
Theorem summary_fails_on_template_shape
    (m : gmap string json) (ui : UserInput.t) (rc : string)
    (cd : ConditionalData.t) (now : Clock.datetime) :
  mergeable m ui now = true →
  ∃ out,
    customize_template (JObj m) ui rc cd now = Ok out
    ∧ (mapping_or_missing (m !! "material_type") = false →
       display_summary_fields out = Raise AttributeError)
    ∧ (mapping_or_missing (m !! "material_type") = true →
       m !! "location" = Some (JList []) →
       display_summary_fields out = Raise IndexError)
    ∧ is_ok (display_summary_fields out)
      = mapping_or_missing (m !! "material_type")
        && match m !! "location" with
           | None | Some (JList (_ :: _)) => true
           | Some _ => false
           end.
Proof.
  intros Hm.
  destruct (customize_template_returns m ui rc cd now Hm) as [out Hout].
  exists out. split; [done|].
  destruct (display_summary_after_merge m ui rc cd now out Hout)
    as (r0 & ref & _ & Href & Hs).
  destruct (merged_location m ui rc cd now out Hout) as [Hok Hl].
  rewrite Hs. clear Hs Hout.
  split; [|split].
  - intros Hmt. by destruct (m !! "material_type") as [[]|].
  - intros Hmt Hloc. rewrite Hl, Hloc.
    by destruct (m !! "material_type") as [[]|].
  - rewrite Hl. clear Hl.
    destruct (m !! "material_type") as [[]|]; simpl; try reflexivity;
      destruct (m !! "location") as [[|b|n|x|s|[|[] ?]|o]|];
      simpl in Hok; try discriminate Hok; try reflexivity;
      destruct s; try discriminate Hok; reflexivity.
Qed.

Lemma summary_fails_on_template_shape_witness :
  ∃ out,
    customize_template
      (JObj (<["location" := JList []]> Sample.template)) Sample.user_input
      "Display" ConditionalData.empty Sample.now = Ok out
    ∧ display_summary_fields out = Raise IndexError.
Proof.
  assert (mergeable (<["location" := JList []]> Sample.template)
            Sample.user_input Sample.now = true) as Hm
    by (vm_compute; reflexivity).
  destruct (summary_fails_on_template_shape
              (<["location" := JList []]> Sample.template) Sample.user_input
              "Display" ConditionalData.empty Sample.now Hm)
    as (out & Hout & _ & Hidx & _).
  exists out. split; [exact Hout|]. clear Hout.
  apply Hidx; vm_compute; reflexivity.
Defined.

(** *** The template menu *)

Lemma select_template_entry_outcome t :
  select_template_entry t
  = match t with
    | JObj m =>
        if listable t
        then Ok {| MenuEntry.desc :=
                     default (JStr "No description") (m !! "_description");
                   MenuEntry.material_type :=
                     value_or "Unknown" (m !! "material_type");
                   MenuEntry.vendor := value_or "Unknown" (m !! "vendor") |}
        else Raise AttributeError
    | _ => Raise AttributeError
    end.
Proof.
  destruct t as [| | | | | |m]; try reflexivity.
  unfold select_template_entry, listable, get_or, mbind, result_bind.
  cbv beta iota.
  destruct (m !! "material_type") as [[]|]; try reflexivity;
    destruct (m !! "vendor") as [[]|]; reflexivity.
Qed.

Lemma select_template_choices_outcome items :
  match select_template_choices items with
  | Ok l => forallb (λ it, listable it.2) items = true
            ∧ map fst l = map fst items
  | Raise e => forallb (λ it, listable it.2) items = false
               ∧ e = AttributeError
  end.
Proof.
  induction items as [|[name t] items IH]; [done|].
  simpl. rewrite select_template_entry_outcome.
  destruct t as [| | | | | |m]; try done.
  destruct (listable (JObj m)); [|done].
  unfold mbind, result_bind. cbv beta iota.
  destruct (select_template_choices items) as [l|e]; simpl.
  - destruct IH as [-> ->]. done.
  - destruct IH as [-> ->]. done.
Qed.

(** The menu is built from every template before anything is shown:
    one template that is not a mapping, or whose [material_type] or
    [vendor] is neither missing nor a mapping, makes the whole menu
    raise [AttributeError]; otherwise every template gets its line, in
    order. The menu asks less than the merge: a template without a
    vendor is listed, with the vendor "Unknown", and cannot be merged;
    a template that merges is listed when its [material_type] allows. *)
Theorem menu_lists_or_fails :
  (∀ items, is_ok (select_template_choices items)
            = forallb (λ it, listable it.2) items)
  ∧ (∀ items e, select_template_choices items = Raise e → e = AttributeError)
  ∧ (∀ items l, select_template_choices items = Ok l →
                map fst l = map fst items)
  ∧ (∀ m, m !! "vendor" = None →
          mapping_or_missing (m !! "material_type") = true →
          (∃ entry, select_template_entry (JObj m) = Ok entry
                    ∧ MenuEntry.vendor entry = JStr "Unknown")
          ∧ ∀ ui rc cd now,
              customize_template (JObj m) ui rc cd now
              = Raise (KeyError (KStr "vendor")))
  ∧ (∀ m ui now, mergeable m ui now = true →
                 listable (JObj m) = mapping_or_missing (m !! "material_type")).
Proof.
  split; [|split; [|split; [|split]]].
  - intros items. pose proof (select_template_choices_outcome items) as H.
    destruct (select_template_choices items); simpl; by destruct H as [-> _].
  - intros items e He. pose proof (select_template_choices_outcome items) as H.
    rewrite He in H. by destruct H.
  - intros items l Hl. pose proof (select_template_choices_outcome items) as H.
    rewrite Hl in H. by destruct H.
  - intros m Hv Hmt. split.
    + rewrite select_template_entry_outcome. unfold listable.
      rewrite Hmt, Hv. simpl. eauto.
    + intros ui rc cd now. by apply template_without_vendor.
  - intros m ui now ((v & Hv) & _)%mergeable_true.
    unfold listable. rewrite Hv. simpl. by rewrite andb_true_r.
Qed.

(** ** Template files *)

Lemma after_last_None sep s :
  PyPath.after_last sep s = None ↔
  PyStr.existsb (λ c, bool_decide (c = sep)) s = false.
Proof.
  induction s as [|c s IH]; simpl; [done|].
  destruct (PyPath.after_last sep s) as [t|].
  - split; [discriminate|]. intros [_ H]%orb_false_iff.
    apply IH in H. discriminate.
  - destruct IH as [IH _]. rewrite (IH eq_refl), orb_false_r.
    by destruct (bool_decide (c = sep)).
Qed.

Lemma before_last_None sep s :
  PyPath.before_last sep s = None ↔
  PyStr.existsb (λ c, bool_decide (c = sep)) s = false.
Proof.
  induction s as [|c s IH]; simpl; [done|].
  destruct (PyPath.before_last sep s) as [t|].
  - split; [discriminate|]. intros [_ H]%orb_false_iff.
    apply IH in H. discriminate.
  - destruct IH as [IH _]. rewrite (IH eq_refl), orb_false_r.
    by destruct (bool_decide (c = sep)).
Qed.

Lemma after_last_app_sep sep a b :
  PyStr.existsb (λ c, bool_decide (c = sep)) b = false →
  PyPath.after_last sep (a +:+ String sep b) = Some b.
Proof.
  intros Hb%after_last_None. induction a as [|c a IH].
  - change ("" +:+ String sep b) with (String sep b). simpl.
    rewrite Hb. by rewrite bool_decide_eq_true_2.
  - change (String c a +:+ String sep b) with (String c (a +:+ String sep b)).
    simpl. by rewrite IH.
Qed.

Lemma before_last_app_sep sep a b :
  PyStr.existsb (λ c, bool_decide (c = sep)) b = false →
  PyPath.before_last sep (a +:+ String sep b) = Some a.
Proof.
  intros Hb%before_last_None. induction a as [|c a IH].
  - change ("" +:+ String sep b) with (String sep b). simpl.
    rewrite Hb. by rewrite bool_decide_eq_true_2.
  - change (String c a +:+ String sep b) with (String c (a +:+ String sep b)).
    simpl. by rewrite IH.
Qed.

Lemma existsb_app_false p (a b : string) :
  PyStr.existsb p (a +:+ b) = false ↔
  PyStr.existsb p a = false ∧ PyStr.existsb p b = false.
Proof. rewrite existsb_app. apply orb_false_iff. Qed.

Lemma app_assoc_string (a b c : string) : (a +:+ b) +:+ c = a +:+ (b +:+ c).
Proof.
  induction a as [|x a IH]; [done|].
  change (String x ((a +:+ b) +:+ c) = String x (a +:+ (b +:+ c))).
  by rewrite IH.
Qed.

(** Ends in a slash: [a] is some [a'] followed by ["/"]. *)
Lemma after_last_empty a :
  PyPath.after_last "/" a = Some "" → ∃ a', a = a' +:+ "/".
Proof.
  induction a as [|c a IH]; simpl; [discriminate|].
  destruct (PyPath.after_last "/" a) as [t|] eqn:Ht.
  - intros [= ->]. destruct (IH eq_refl) as (a' & ->).
    by exists (String c a').
  - case_bool_decide as Hc; [|discriminate]. intros [= ->]. subst c.
    by exists "".
Qed.

(** The base name of a file in a directory is the file's name. *)
Lemma basename_join dir name :
  PyStr.existsb (λ c, bool_decide (c = "/"%char)) name = false →
  name ≠ "" →
  PyPath.basename (PyPath.join dir name) = name.
Proof.
  intros Hn Hne. unfold PyPath.basename, PyPath.join.
  destruct name as [|c name']; [done|]. clear Hne.
  assert (c ≠ "/"%char) as Hc.
  { intros ->. simpl in Hn. discriminate Hn. }
  assert ((match String c name' with
           | String "/" _ => String c name'
           | _ =>
               match dir with
               | "" => String c name'
               | String _ _ =>
                   match PyPath.after_last "/" dir with
                   | Some "" => dir +:+ String c name'
                   | _ => dir +:+ "/" +:+ String c name'
                   end
               end
           end)
          = match dir with
            | "" => String c name'
            | String _ _ =>
                match PyPath.after_last "/" dir with
                | Some "" => dir +:+ String c name'
                | _ => dir +:+ "/" +:+ String c name'
                end
            end) as ->.
  { destruct c as [[] [] [] [] [] [] [] []]; try reflexivity. by destruct Hc. }
  set (name := String c name') in *.
  assert (∀ a, PyPath.after_last "/" (a +:+ "/" +:+ name) = Some name) as Hsep
    by (intros a; by apply (after_last_app_sep "/" a name)).
  destruct dir as [|d dir'].
  - apply after_last_None in Hn. by rewrite Hn.
  - destruct (PyPath.after_last "/" (String d dir')) as [[|x t]|] eqn:Hd.
    + apply after_last_empty in Hd as (a' & ->).
      rewrite app_assoc_string. by rewrite Hsep.
    + by rewrite Hsep.
    + by rewrite Hsep.
Qed.

Lemma splitext_root_json stem :
  PyStr.existsb PyPath.not_dot stem = true →
  PyPath.splitext_root (stem +:+ ".json") = stem.
Proof.
  intros Hs. unfold PyPath.splitext_root.
  rewrite (before_last_app_sep "." stem "json") by reflexivity.
  by rewrite Hs.
Qed.

(** The name under which the template file [stem.json] of a directory
    is filed is [stem], so different files get different names. *)
Lemma template_name_join dir stem :
  is_stem stem = true →
  template_name (PyPath.join dir (stem +:+ ".json")) = stem.
Proof.
  unfold is_stem. intros [Hslash Hdot]%andb_true_iff.
  apply negb_true_iff in Hslash. unfold template_name.
  rewrite basename_join.
  - by apply splitext_root_json.
  - apply existsb_app_false. split; [done|reflexivity].
  - destruct stem; discriminate.
Qed.

(** The template file [stem.json] of a directory is filed under [stem],
    whatever the directory, so the files of one directory never share a
    name. *)
Theorem template_name_of_file (dir stem stem' : string) :
  is_stem stem = true → is_stem stem' = true →
  template_name (PyPath.join dir (stem +:+ ".json")) = stem
  ∧ (template_name (PyPath.join dir (stem +:+ ".json"))
     = template_name (PyPath.join dir (stem' +:+ ".json")) →
     stem = stem').
Proof.
  intros Hs Hs'. rewrite !template_name_join by done. done.
Qed.

Lemma template_name_of_file_witness :
  template_name (PyPath.join "/srv/templates" ("books.v2" +:+ ".json"))
  = "books.v2".
Proof.
  destruct (template_name_of_file "/srv/templates" "books.v2" "books.v2"
              eq_refl eq_refl) as [H _].
  exact H.
Defined.

Lemma load_templates_foldl dir files :
  dir ≠ "" →
  load_templates (Some dir) files = foldl load_template_file ∅ files.
Proof. intros Hd. destruct dir; [done|]. reflexivity. Qed.

Lemma foldl_load_Some acc files name doc :
  foldl load_template_file acc files !! name = Some doc →
  acc !! name = Some doc
  ∨ ∃ f, (f, Some doc) ∈ files ∧ template_name f = name.
Proof.
  revert acc. induction files as [|[f o] files IH]; intros acc; simpl; [auto|].
  intros [H|(f' & Hin & Hn)]%IH.
  - unfold load_template_file in H. simpl in H. destruct o as [d|]; [|auto].
    destruct (decide (template_name f = name)) as [Heq|Hne].
    + rewrite Heq, lookup_insert_eq in H. injection H as ->.
      right. exists f. split; [left|done].
    + rewrite lookup_insert_ne in H by done. auto.
  - right. exists f'. split; [by right|done].
Qed.

Lemma foldl_load_notin acc files name :
  name ∉ map (λ f, template_name f.1) files →
  foldl load_template_file acc files !! name = acc !! name.
Proof.
  revert acc. induction files as [|[f o] files IH]; intros acc; simpl; [done|].
  intros [Hne Hnot]%not_elem_of_cons. rewrite (IH _ Hnot).
  unfold load_template_file. simpl.
  destruct o; [by rewrite lookup_insert_ne|done].
Qed.

Lemma foldl_load_NoDup acc files f o :
  NoDup (map (λ f, template_name f.1) files) →
  (f, o) ∈ files →
  foldl load_template_file acc files !! template_name f
  = match o with Some doc => Some doc | None => acc !! template_name f end.
Proof.
  revert acc. induction files as [|[f' o'] files IH]; intros acc; simpl.
  - intros _ Hin. by apply elem_of_nil in Hin.
  - intros [Hnot Hnd]%NoDup_cons [[= <- <-]|Hin]%elem_of_cons.
    + rewrite (foldl_load_notin _ _ _ Hnot).
      unfold load_template_file. simpl.
      destruct o; [by rewrite lookup_insert_eq|done].
    + rewrite (IH _ Hnd Hin). destruct o; [done|].
      unfold load_template_file. simpl. destruct o'; [|done].
      rewrite lookup_insert_ne; [done|].
      intros Heq. apply Hnot. rewrite Heq.
      apply (list_elem_of_fmap_2 (λ f, template_name f.1) files (f, None) Hin).
Qed.

(** What [load_templates] returns: nothing without a templates
    directory; otherwise every entry is the document of a file of that
    name that loaded; when the files' names differ, every file that
    loaded is there under its name and a file that failed to load leaves
    no entry; and of two files of one name the later one stays. *)
Theorem load_templates_lookup (dir : string) (files : list (string * option json)) :
  load_templates None files = ∅
  ∧ load_templates (Some "") files = ∅
  ∧ (dir ≠ "" →
     (∀ name doc,
        load_templates (Some dir) files !! name = Some doc →
        ∃ f, (f, Some doc) ∈ files ∧ template_name f = name)
     ∧ (NoDup (map (λ f, template_name f.1) files) →
        (∀ f doc, (f, Some doc) ∈ files →
                  load_templates (Some dir) files !! template_name f = Some doc)
        ∧ (∀ f, (f, None) ∈ files →
                load_templates (Some dir) files !! template_name f = None))
     ∧ (∀ f doc,
          load_templates (Some dir) (files ++ [(f, Some doc)]) !! template_name f
          = Some doc)).
Proof.
  split; [done|]. split; [done|]. intros Hd.
  split; [|split].
  - intros name doc. rewrite (load_templates_foldl dir files Hd).
    intros [H|H]%foldl_load_Some; [|done].
    by rewrite lookup_empty in H.
  - intros Hnd. rewrite (load_templates_foldl dir files Hd). split.
    + intros f doc Hin. by rewrite (foldl_load_NoDup ∅ files f (Some doc)).
    + intros f Hin. by rewrite (foldl_load_NoDup ∅ files f None).
  - intros f doc. rewrite (load_templates_foldl dir _ Hd).
    rewrite foldl_app. simpl. unfold load_template_file at 1. simpl.
    by rewrite lookup_insert_eq.
Qed.

Lemma load_templates_lookup_witness :
  load_templates (Some "templates")
    [("templates/books.json", Some (JObj Sample.template));
     ("templates/broken.json", None)]
  !! "books" = Some (JObj Sample.template)
  ∧ load_templates (Some "templates")
      [("templates/books.json", Some (JObj Sample.template));
       ("templates/broken.json", None)]
    !! "broken" = None.
Proof.
  destruct (load_templates_lookup "templates"
              [("templates/books.json", Some (JObj Sample.template));
               ("templates/broken.json", None)]) as (_ & _ & H).
  destruct H as (_ & Hnd & _); [intros H; discriminate H|].
  destruct Hnd as [Hsome Hnone].
  { apply NoDup_cons. split.
    - intros Hin. apply list_elem_of_singleton in Hin. discriminate Hin.
    - apply NoDup_singleton. }
  split.
  - apply (Hsome "templates/books.json"). left.
  - apply (Hnone "templates/broken.json"). right. left.
Defined.

(** ** The templates directory *)

Lemma join_templates_nonempty a : PyPath.join a "templates" ≠ "".
Proof.
  unfold PyPath.join. cbv iota beta.
  destruct a as [|c a]; [done|].
  destruct (PyPath.after_last "/" (String c a)) as [[|]|]; done.
Qed.

(** The templates directory is the first of the four built-in places
    that exists; the [TEMPLATES_DIR] variable is looked at after them,
    so it points the way only when none of the four is there, and an
    empty value never counts. Nothing is found exactly when no place
    exists. *)
Theorem find_templates_directory_order
    (path_exists : string → bool) (script_dir cwd env : string) :
  (path_exists (PyPath.join script_dir "templates") = true →
   find_templates_directory path_exists script_dir cwd env
   = Some (PyPath.join script_dir "templates"))
  ∧ (∀ d, find_templates_directory path_exists script_dir cwd env = Some d →
          d ≠ "" ∧ path_exists d = true
          ∧ d ∈ possible_locations script_dir cwd env)
  ∧ ((∀ d, d ∈ take 4 (possible_locations script_dir cwd env) →
           path_exists d = false) →
     find_templates_directory path_exists script_dir cwd env
     = if PyStr.nonempty env && path_exists env then Some env else None)
  ∧ (find_templates_directory path_exists script_dir cwd env = None ↔
     ∀ d, d ∈ possible_locations script_dir cwd env →
          d = "" ∨ path_exists d = false).
Proof.
  unfold find_templates_directory.
  split; [|split; [|split]].
  - intros H. unfold possible_locations. cbn [find].
    rewrite H, andb_true_r.
    pose proof (join_templates_nonempty script_dir) as Hne.
    apply nonempty_true in Hne. by rewrite Hne.
  - intros d Hd. apply find_some in Hd as [Hin [Hne Hex]%andb_true_iff].
    split; [by apply nonempty_true|]. split; [done|].
    by apply list_elem_of_In.
  - intros Hnone. unfold possible_locations in *. cbn [find take] in *.
    rewrite (Hnone (PyPath.join script_dir "templates")) by left.
    rewrite (Hnone (PyPath.join cwd "templates")) by (right; left).
    rewrite (Hnone (PyPath.join (PyPath.dirname script_dir) "templates"))
      by (do 2 right; left).
    rewrite (Hnone (PyPath.join (PyPath.join (PyPath.join (PyPath.join
               (PyPath.join script_dir "..") "..") "src") "libraryacquisitions")
               "templates")) by (do 3 right; left).
    rewrite !andb_false_r. done.
  - split.
    + intros Hn d Hin%list_elem_of_In.
      pose proof (find_none _ _ Hn d Hin) as [H|H]%andb_false_iff; [|auto].
      left. by apply nonempty_false.
    + intros Hall.
      destruct (find _ _) as [d|] eqn:Hd; [|done].
      apply find_some in Hd as [Hin%list_elem_of_In [Hne Hex]%andb_true_iff].
      apply nonempty_true in Hne.
      destruct (Hall d Hin) as [->|H]; [done|congruence].
Qed.
